(** * Quick Assist collaboration: session registry, sync channel, suggestion fallback

    A shallow embedding of the collaboration service
    ([CollaborationService] in [lib/collaboration.ts]), of the sync effects
    of the editor component ([CodeEditor.tsx]) and of the suggestion
    service ([lib/aiService.ts]).

    Conventions of the embedding.
    - JavaScript strings are [string]; only code units below 128 occur in
      share codes, event ids and storage keys, and [toUpperCase]/[trim] are
      modelled on that range.
    - [Date.now()] is a [Z] (milliseconds); [toISOString] of an instant is
      kept as the instant itself.
    - [Math.random()] is a rational in the unit interval drawn from an
      explicit source that is threaded through the code.
    - [localStorage] holds JSON text; [JSON.stringify] followed by
      [JSON.parse] is the identity on the records stored here, so the
      store maps keys to the records themselves.  The two key families
      [shared_session_<code>] and [code_sync_<id>] have different prefixes,
      so each gets its own map, indexed by the full key.
    - thrown exceptions are values of [Exn] carried by [Result]. *)

From Stdlib Require Import ZArith QArith Qround String Ascii List.
From stdpp Require Import base option list strings gmap pretty.

Open Scope string_scope.
Open Scope list_scope.

(** ** JavaScript string primitives *)

Module Js.

(** [s.charAt(i)]: the one-character string at index [i], or the empty
    string when [i] is out of range. *)
Definition charAt (s : string) (i : Z) : string :=
  if (i <? 0)%Z then ""
  else match String.get (Z.to_nat i) s with
       | Some c => String c ""
       | None => ""
       end.

(** [c] upper-cased, for a code unit below 128. *)
Definition upper_ascii (c : ascii) : ascii :=
  let n := nat_of_ascii c in
  if (97 <=? n)%nat && (n <=? 122)%nat then ascii_of_nat (n - 32) else c.

(** [s.toUpperCase()]. *)
Fixpoint toUpperCase (s : string) : string :=
  match s with
  | EmptyString => EmptyString
  | String c r => String (upper_ascii c) (toUpperCase r)
  end.

(** White space and line terminators below 128: TAB, LF, VT, FF, CR, SP. *)
Definition is_space (c : ascii) : bool :=
  let n := nat_of_ascii c in
  ((9 <=? n)%nat && (n <=? 13)%nat) || (n =? 32)%nat.

Fixpoint trimStart (s : string) : string :=
  match s with
  | EmptyString => EmptyString
  | String c r => if is_space c then trimStart r else s
  end.

(** [trimEnd] keeps a character when it is not a space or when something
    is left after it. *)
Fixpoint trimEnd (s : string) : string :=
  match s with
  | EmptyString => EmptyString
  | String c r =>
      match trimEnd r with
      | EmptyString => if is_space c then EmptyString else String c EmptyString
      | r' => String c r'
      end
  end.

(** [s.trim()]. *)
Definition trim (s : string) : string := trimEnd (trimStart s).

(** [a > b] on strings: lexicographic on code units. *)
Definition str_gt (a b : string) : bool := String.ltb b a.

(** Truthiness of a [string | null] value: [null] and [''] are falsy. *)
Definition truthy (o : option string) : bool :=
  match o with
  | None => false
  | Some EmptyString => false
  | Some _ => true
  end.

(** [arr.slice(-n)]: the last [n] elements, the whole array when it is
    shorter. *)
Definition slice_last {A} (n : nat) (l : list A) : list A :=
  drop (length l - n) l.

End Js.

(** ** Sources of non-determinism *)

(** [Math.random()]: successive draws. *)
Definition Rng : Type := nat -> Q.

Definition next_random (r : Rng) : Q * Rng := (r 0%nat, fun n => r (S n)).

(** Every draw lies in [[0, 1)]. *)
Definition unit_range (r : Rng) : Prop :=
  forall n, (0 <= r n)%Q /\ (r n < 1)%Q.

(** ** Share-code generator *)

Definition chars : string := "ABCDEFGHJKLMNPQRSTUVWXYZ23456789".

Definition in_alphabet (c : ascii) : Prop := In c (list_ascii_of_string chars).

(** [Math.floor(Math.random() * chars.length)] for the draw [x]. *)
Definition random_index (x : Q) : Z :=
  Qfloor (x * inject_Z (Z.of_nat (String.length chars)))%Q.

(** The body of [for (let i = 0; i < 6; i++) code += chars.charAt(...)],
    with [n] iterations left. *)
Fixpoint share_code_loop (n : nat) (code : string) (r : Rng) : string * Rng :=
  match n with
  | O => (code, r)
  | S n' =>
      let (x, r') := next_random r in
      share_code_loop n' (code +:+ Js.charAt chars (random_index x)) r'
  end.

Definition generateShareCode (r : Rng) : string * Rng :=
  share_code_loop 6 "" r.

(** ** Data model *)

Inductive Permission : Type := View | Edit.

Inductive Action : Type := ActEdit | ActCursor | ActLanguage.

#[global] Instance Permission_eq_dec : EqDecision Permission.
Proof. solve_decision. Defined.

#[global] Instance Action_eq_dec : EqDecision Action.
Proof. solve_decision. Defined.

Record SharedSession : Type := mkSharedSession {
  ss_id : string;
  ss_session_id : string;
  ss_share_code : string;
  ss_host_user_id : option string;
  ss_guest_user_id : option string;
  ss_permissions : Permission;
  ss_is_active : bool;
  ss_connected_at : option Z;
  ss_created_at : Z;
  ss_expires_at : Z
}.

Record CodeSync : Type := mkCodeSync {
  cs_id : string;
  cs_shared_session_id : string;
  cs_user_id : string;
  cs_code_content : string;
  cs_language : string;
  cs_cursor_line : option Z;
  cs_cursor_column : option Z;
  cs_action : Action;
  cs_created_at : Z
}.

(** ** Exceptions *)

Inductive Exn : Type :=
  | Error (message : string)        (* [new Error(message)] *)
  | StoreError (message : string).  (* the [error] object of a store response, rethrown *)

Inductive Result (A : Type) : Type :=
  | Ok (a : A)
  | Throw (e : Exn).

Arguments Ok {A} a.
Arguments Throw {A} e.

Definition is_ok {A} (r : Result A) : bool :=
  match r with Ok _ => true | Throw _ => false end.

(** ** Local storage *)

Record LocalStorage : Type := mkLocalStorage {
  ls_sessions : gmap string SharedSession;
  ls_syncs : gmap string (list CodeSync)
}.

Definition sessionKey (shareCode : string) : string := "shared_session_" +:+ shareCode.

Definition syncKey (sharedSessionId : string) : string := "code_sync_" +:+ sharedSessionId.

Definition set_session (k : string) (s : SharedSession) (st : LocalStorage) : LocalStorage :=
  {| ls_sessions := <[k := s]> (ls_sessions st); ls_syncs := ls_syncs st |}.

Definition set_syncs (k : string) (l : list CodeSync) (st : LocalStorage) : LocalStorage :=
  {| ls_sessions := ls_sessions st; ls_syncs := <[k := l]> (ls_syncs st) |}.

Definition remove_syncs (k : string) (st : LocalStorage) : LocalStorage :=
  {| ls_sessions := ls_sessions st; ls_syncs := delete k (ls_syncs st) |}.

(** [JSON.parse(localStorage.getItem(syncKey) || '[]')]. *)
Definition read_syncs (k : string) (st : LocalStorage) : list CodeSync :=
  default [] (ls_syncs st !! k).

(** [24 * 60 * 60 * 1000]. *)
Definition day_ms : Z := 24 * 60 * 60 * 1000.

(** ** Session registry, local-storage mode ([isMock]) *)

Module LocalRegistry.

(** [createSharedSession], [isMock] branch.  [uuid] is the value of
    [crypto.randomUUID()], [created] the instant of [new Date()] and [now]
    the value of [Date.now()] in the expression of [expires_at]. *)
Definition createSharedSession (userId : string) (r : Rng) (uuid : string)
    (created now : Z) (sessionId : string) (permissions : Permission) (st : LocalStorage)
  : Result SharedSession * LocalStorage * Rng :=
  let (shareCode, r') := generateShareCode r in
  let mockSession :=
    {| ss_id := uuid;
       ss_session_id := sessionId;
       ss_share_code := shareCode;
       ss_host_user_id := Some userId;
       ss_guest_user_id := None;
       ss_permissions := permissions;
       ss_is_active := true;
       ss_connected_at := None;
       ss_created_at := created;
       ss_expires_at := (now + day_ms)%Z |} in
  (Ok mockSession, set_session (sessionKey shareCode) mockSession st, r').

(** [joinSharedSession], [isMock] branch. *)
Definition joinSharedSession (userId : string) (now : Z) (shareCode : string)
    (st : LocalStorage) : Result SharedSession * LocalStorage :=
  let key := sessionKey (Js.toUpperCase shareCode) in
  match ls_sessions st !! key with
  | None => (Throw (Error "Session not found"), st)
  | Some session =>
      if negb (ss_is_active session) then (Throw (Error "Session is not active"), st)
      else
        let session' :=
          {| ss_id := ss_id session;
             ss_session_id := ss_session_id session;
             ss_share_code := ss_share_code session;
             ss_host_user_id := ss_host_user_id session;
             ss_guest_user_id := Some userId;
             ss_permissions := ss_permissions session;
             ss_is_active := ss_is_active session;
             ss_connected_at := Some now;
             ss_created_at := ss_created_at session;
             ss_expires_at := ss_expires_at session |} in
        (Ok session', set_session key session' st)
  end.

(** [endSession], [isMock] branch: the sync log of the session is removed
    and the function returns; [isHost] is not consulted. *)
Definition endSession (sharedSessionId : string) (isHost : bool) (st : LocalStorage)
  : LocalStorage :=
  remove_syncs (syncKey sharedSessionId) st.

End LocalRegistry.

(** ** Hosted store

    The tables [shared_sessions] and [code_sync] of the SQL migration as
    lists of rows, with the three statements the service sends to them
    through the client library.  [reach] tells whether the request reaches
    the store; the column defaults and the constraints ([PRIMARY KEY],
    [UNIQUE]) are those of the migration.  The foreign key on [session_id]
    refers to a table that is not part of this development. *)

Record Response (A : Type) : Type := mkResponse {
  data : option A;
  error : option string
}.

Arguments mkResponse {A} data error.
Arguments data {A} r.
Arguments error {A} r.

Module HostedStore.

Record Tables : Type := mkTables {
  shared_sessions : list SharedSession;
  code_sync : list CodeSync
}.

Definition unreachable {A} : Response A := mkResponse None (Some "Failed to fetch").

(** [insert({session_id, share_code, host_user_id, permissions, is_active:
    true}).select().single()] on [shared_sessions]. *)
Definition insert_shared_session (reach : bool) (uuid : string) (dbnow : Z)
    (session_id share_code host_user_id : string) (permissions : Permission)
    (t : Tables) : Response SharedSession * Tables :=
  if negb reach then (unreachable, t)
  else if existsb (fun s => String.eqb (ss_id s) uuid) (shared_sessions t)
  then (mkResponse None (Some "duplicate key value violates unique constraint shared_sessions_pkey"), t)
  else if existsb (fun s => String.eqb (ss_share_code s) share_code) (shared_sessions t)
  then (mkResponse None (Some "duplicate key value violates unique constraint shared_sessions_share_code_key"), t)
  else
    let row :=
      {| ss_id := uuid;
         ss_session_id := session_id;
         ss_share_code := share_code;
         ss_host_user_id := Some host_user_id;
         ss_guest_user_id := None;
         ss_permissions := permissions;
         ss_is_active := true;
         ss_connected_at := None;
         ss_created_at := dbnow;
         ss_expires_at := (dbnow + day_ms)%Z |} in
    (mkResponse (Some row) None,
     {| shared_sessions := shared_sessions t ++ [row]; code_sync := code_sync t |}).

Definition join_row (guest : string) (connected_at : Z) (s : SharedSession) : SharedSession :=
  {| ss_id := ss_id s;
     ss_session_id := ss_session_id s;
     ss_share_code := ss_share_code s;
     ss_host_user_id := ss_host_user_id s;
     ss_guest_user_id := Some guest;
     ss_permissions := ss_permissions s;
     ss_is_active := true;
     ss_connected_at := Some connected_at;
     ss_created_at := ss_created_at s;
     ss_expires_at := ss_expires_at s |}.

Definition join_matches (share_code : string) (s : SharedSession) : bool :=
  String.eqb (ss_share_code s) share_code && ss_is_active s.

(** [update({guest_user_id, connected_at, is_active: true})
    .eq('share_code', c).eq('is_active', true).select().single()]:
    [single] answers with the row when exactly one row was updated, and
    with an error, the update undone, otherwise.  ([share_code] being
    [UNIQUE], more than one row cannot match.) *)
Definition join_update (reach : bool) (guest : string) (connected_at : Z)
    (share_code : string) (t : Tables) : Response SharedSession * Tables :=
  if negb reach then (unreachable, t)
  else
    match List.filter (join_matches share_code) (shared_sessions t) with
    | [s] =>
        (mkResponse (Some (join_row guest connected_at s)) None,
         {| shared_sessions :=
              map (fun x => if join_matches share_code x
                            then join_row guest connected_at x else x)
                  (shared_sessions t);
            code_sync := code_sync t |})
    | _ => (mkResponse None (Some "JSON object requested, multiple (or no) rows returned"), t)
    end.

Definition deactivate_row (s : SharedSession) : SharedSession :=
  {| ss_id := ss_id s;
     ss_session_id := ss_session_id s;
     ss_share_code := ss_share_code s;
     ss_host_user_id := ss_host_user_id s;
     ss_guest_user_id := ss_guest_user_id s;
     ss_permissions := ss_permissions s;
     ss_is_active := false;
     ss_connected_at := ss_connected_at s;
     ss_created_at := ss_created_at s;
     ss_expires_at := ss_expires_at s |}.

(** [update({is_active: false}).eq('id', id)]. *)
Definition deactivate (reach : bool) (id : string) (t : Tables) : Tables :=
  if negb reach then t
  else
    {| shared_sessions :=
         map (fun s => if String.eqb (ss_id s) id then deactivate_row s else s)
             (shared_sessions t);
       code_sync := code_sync t |}.

End HostedStore.

(** ** Session registry, hosted mode *)

Module HostedRegistry.

Import HostedStore.

(** [createSharedSession], hosted branch: [if (error) throw error; return
    data]. *)
Definition createSharedSession (userId : string) (r : Rng) (reach : bool)
    (uuid : string) (dbnow : Z) (sessionId : string) (permissions : Permission)
    (t : Tables) : Result (option SharedSession) * Tables * Rng :=
  let (shareCode, r') := generateShareCode r in
  let (resp, t') :=
    insert_shared_session reach uuid dbnow sessionId shareCode userId permissions t in
  match error resp with
  | Some e => (Throw (StoreError e), t', r')
  | None => (Ok (data resp), t', r')
  end.

(** [joinSharedSession], hosted branch: [if (error || !data) throw new
    Error(...)]. *)
Definition joinSharedSession (userId : string) (reach : bool) (now : Z)
    (shareCode : string) (t : Tables) : Result SharedSession * Tables :=
  let (resp, t') := join_update reach userId now (Js.toUpperCase shareCode) t in
  match error resp, data resp with
  | None, Some d => (Ok d, t')
  | _, _ => (Throw (Error "Session not found or no longer active"), t')
  end.

(** [endSession], hosted branch. *)
Definition endSession (reach : bool) (sharedSessionId : string) (isHost : bool)
    (t : Tables) : Tables :=
  if isHost then deactivate reach sharedSessionId t else t.

End HostedRegistry.

(** ** Quick Assist panel: the join handler *)

Module QuickAssistPanel.

Inductive JoinOutcome : Type :=
  | Started (s : SharedSession)   (* [onSessionStart(sharedSession, false)] *)
  | Shown (message : string).     (* [setError(message)] *)

(** [handleJoinSession]: [join] is [collaborationService.joinSharedSession]
    on the store of type [St]. *)
Definition handleJoinSession {St : Type} (join : string -> St -> Result SharedSession * St)
    (shareCode : string) (st : St) : JoinOutcome * St :=
  if String.eqb (Js.trim shareCode) "" then (Shown "Please enter a share code", st)
  else
    match join (Js.trim shareCode) st with
    | (Ok sharedSession, st') => (Started sharedSession, st')
    | (Throw (Error message), st') => (Shown message, st')
    | (Throw (StoreError _), st') => (Shown "Session not found or expired", st')
    end.

End QuickAssistPanel.

(** ** Sync channel *)

(** The callbacks handed to [subscribeToSession]; each is optional.  A
    callback acts on the state [S] of the subscriber. *)
Record Callbacks (S : Type) : Type := mkCallbacks {
  onCodeChange : option (string -> string -> S -> S);
  onLanguageChange : option (string -> string -> S -> S);
  onCursorChange : option (Z -> Z -> string -> S -> S)
}.

Arguments mkCallbacks {S} _ _ _.
Arguments onCodeChange {S} c.
Arguments onLanguageChange {S} c.
Arguments onCursorChange {S} c.

(** [cb?.(...)]: the call is skipped when the callback is absent. *)
Definition opt_call {S} (cb : option (S -> S)) (s : S) : S :=
  match cb with
  | Some f => f s
  | None => s
  end.

(** The [if (sync.action === 'edit') ... else if ...] chain shared by the
    realtime handler and the polling loop. *)
Definition dispatch {S} (cbs : Callbacks S) (sync : CodeSync) (s : S) : S :=
  match cs_action sync with
  | ActEdit =>
      opt_call ((fun f => f (cs_code_content sync) (cs_user_id sync)) <$> onCodeChange cbs) s
  | ActLanguage =>
      opt_call ((fun f => f (cs_language sync) (cs_user_id sync)) <$> onLanguageChange cbs) s
  | ActCursor =>
      match cs_cursor_line sync, cs_cursor_column sync with
      | Some line, Some column =>
          opt_call ((fun f => f line column (cs_user_id sync)) <$> onCursorChange cbs) s
      | _, _ => s
      end
  end.

(** [sync.user_id !== this.userId]. *)
Definition not_own (userId : string) (sync : CodeSync) : bool :=
  negb (String.eqb (cs_user_id sync) userId).

Module RealtimeChannel.

(** The handler registered on [postgres_changes] INSERT for the session:
    [payload.new] is [sync]. *)
Definition on_insert {S} (userId : string) (cbs : Callbacks S) (sync : CodeSync) (s : S) : S :=
  if String.eqb (cs_user_id sync) userId then s else dispatch cbs sync s.

End RealtimeChannel.

Module PollingChannel.

(** [`${Date.now()}_${Math.random()}`]; [rnd] is the decimal rendering of
    the draw. *)
Definition sync_id (now : Z) (rnd : string) : string := pretty now +:+ "_" +:+ rnd.

(** The last four statements of [syncCode], [syncLanguage] and
    [syncCursor] in local mode: read the log, push, keep the last 50. *)
Definition append_sync (sync : CodeSync) (st : LocalStorage) : LocalStorage :=
  let key := syncKey (cs_shared_session_id sync) in
  let syncs := read_syncs key st in
  let syncs := syncs ++ [sync] in
  set_syncs key (Js.slice_last 50 syncs) st.

Definition code_event (userId : string) (now : Z) (rnd : string) (created : Z)
    (sharedSessionId code language : string) (cursorLine cursorColumn : option Z) : CodeSync :=
  {| cs_id := sync_id now rnd;
     cs_shared_session_id := sharedSessionId;
     cs_user_id := userId;
     cs_code_content := code;
     cs_language := language;
     cs_cursor_line := cursorLine;
     cs_cursor_column := cursorColumn;
     cs_action := ActEdit;
     cs_created_at := created |}.

Definition language_event (userId : string) (now : Z) (rnd : string) (created : Z)
    (sharedSessionId language : string) : CodeSync :=
  {| cs_id := sync_id now rnd;
     cs_shared_session_id := sharedSessionId;
     cs_user_id := userId;
     cs_code_content := "";
     cs_language := language;
     cs_cursor_line := None;
     cs_cursor_column := None;
     cs_action := ActLanguage;
     cs_created_at := created |}.

Definition cursor_event (userId : string) (now : Z) (rnd : string) (created : Z)
    (sharedSessionId : string) (line column : Z) : CodeSync :=
  {| cs_id := sync_id now rnd;
     cs_shared_session_id := sharedSessionId;
     cs_user_id := userId;
     cs_code_content := "";
     cs_language := "";
     cs_cursor_line := Some line;
     cs_cursor_column := Some column;
     cs_action := ActCursor;
     cs_created_at := created |}.

Definition syncCode (userId : string) (now : Z) (rnd : string) (created : Z)
    (sharedSessionId code language : string) (cursorLine cursorColumn : option Z)
    (st : LocalStorage) : LocalStorage :=
  append_sync
    (code_event userId now rnd created sharedSessionId code language cursorLine cursorColumn) st.

Definition syncLanguage (userId : string) (now : Z) (rnd : string) (created : Z)
    (sharedSessionId language : string) (st : LocalStorage) : LocalStorage :=
  append_sync (language_event userId now rnd created sharedSessionId language) st.

Definition syncCursor (userId : string) (now : Z) (rnd : string) (created : Z)
    (sharedSessionId : string) (line column : Z) (st : LocalStorage) : LocalStorage :=
  append_sync (cursor_event userId now rnd created sharedSessionId line column) st.

(** [newSyncs] of one tick of the interval of [startMockPolling]. *)
Definition newSyncs (userId : string) (lastSyncId : option string) (syncs : list CodeSync)
  : list CodeSync :=
  if Js.truthy lastSyncId
  then List.filter
         (fun s => Js.str_gt (cs_id s) (default "" lastSyncId) && not_own userId s) syncs
  else List.filter (fun s => not_own userId s) syncs.

(** The [forEach] of the tick: dispatch, then [lastSyncId = sync.id]. *)
Definition apply_syncs {S} (cbs : Callbacks S) (l : list CodeSync)
    (lastSyncId : option string) (s : S) : option string * S :=
  fold_left (fun acc sync => (Some (cs_id sync), dispatch cbs sync (snd acc)))
            l (lastSyncId, s).

(** One firing of the 500 ms interval for the subscription to
    [sharedSessionId]; [lastSyncId] is the variable of the closure. *)
Definition poll {S} (userId : string) (cbs : Callbacks S) (sharedSessionId : string)
    (st : LocalStorage) (lastSyncId : option string) (s : S) : option string * S :=
  let syncs := read_syncs (syncKey sharedSessionId) st in
  apply_syncs cbs (newSyncs userId lastSyncId syncs) lastSyncId s.

(** [n] firings over an unchanged store. *)
Fixpoint poll_n {S} (n : nat) (userId : string) (cbs : Callbacks S)
    (sharedSessionId : string) (st : LocalStorage) (lastSyncId : option string) (s : S)
  : option string * S :=
  match n with
  | O => (lastSyncId, s)
  | S n' =>
      let (last', s') := poll userId cbs sharedSessionId st lastSyncId s in
      poll_n n' userId cbs sharedSessionId st last' s'
  end.

End PollingChannel.

(** ** A subscriber that records the calls it receives *)

Inductive Call : Type :=
  | CodeChange (code userId : string)
  | LanguageChange (language userId : string)
  | CursorChange (line column : Z) (userId : string).

Definition recorder : Callbacks (list Call) :=
  {| onCodeChange := Some (fun code userId tr => tr ++ [CodeChange code userId]);
     onLanguageChange := Some (fun language userId tr => tr ++ [LanguageChange language userId]);
     onCursorChange := Some (fun line column userId tr => tr ++ [CursorChange line column userId]) |}.

(** The calls one event causes when every callback is present. *)
Definition calls_of (sync : CodeSync) : list Call :=
  match cs_action sync with
  | ActEdit => [CodeChange (cs_code_content sync) (cs_user_id sync)]
  | ActLanguage => [LanguageChange (cs_language sync) (cs_user_id sync)]
  | ActCursor =>
      match cs_cursor_line sync, cs_cursor_column sync with
      | Some line, Some column => [CursorChange line column (cs_user_id sync)]
      | _, _ => []
      end
  end.

(** The events the three publish operations create: an edit, a language
    change, or a cursor move with both coordinates. *)
Definition published (sync : CodeSync) : Prop :=
  match cs_action sync with
  | ActEdit | ActLanguage => True
  | ActCursor => is_Some (cs_cursor_line sync) /\ is_Some (cs_cursor_column sync)
  end.

(** ** Editor component: outgoing sync *)

Module CodeEditor.

(** What the component asks of its environment. *)
Inductive Command : Type :=
  | ClearTimeout                                          (* [clearTimeout(codeSyncTimeoutRef.current)] *)
  | SyncCodeAfter (ms : Z) (sharedSessionId code language : string)
                                                          (* [setTimeout(() => syncCode(...), ms)] *)
  | SyncCode (sharedSessionId code language : string)     (* [collaborationService.syncCode(...)] *)
  | SyncLanguage (sharedSessionId language : string)      (* [collaborationService.syncLanguage(...)] *)
  | PostToOpener (code : string)                          (* [window.opener.postMessage(...)] *)
  | SaveLocal (code : string).                            (* [localStorage.setItem(storageKey, newCode)] *)

(** The props and refs the sync code reads.  [isHost] is optional:
    [None] is [undefined]. *)
Record Props : Type := mkProps {
  sharedSession : option SharedSession;
  isHost : option bool;
  code : string;
  language : string
}.

Record Refs : Type := mkRefs {
  isApplyingRemoteChange : bool;
  codeSyncTimeoutPending : bool
}.

(** [!isHost]. *)
Definition not_host (p : Props) : bool := negb (default false (isHost p)).

(** [sharedSession.permissions === 'view']. *)
Definition view_only (ss : SharedSession) : bool :=
  bool_decide (ss_permissions ss = View).

(** The effect on [[code, sharedSession, language, isHost]]. *)
Definition codeSyncEffect (p : Props) (refs : Refs) : list Command :=
  match sharedSession p with
  | None => []
  | Some ss =>
      if isApplyingRemoteChange refs then []
      else if not_host p && view_only ss then []
      else
        (if codeSyncTimeoutPending refs then [ClearTimeout] else [])
        ++ [SyncCodeAfter 500 (ss_id ss) (code p) (language p)]
  end.

(** The effect on [[language, sharedSession, isHost]]. *)
Definition languageSyncEffect (p : Props) (refs : Refs) : list Command :=
  match sharedSession p with
  | None => []
  | Some ss =>
      if isApplyingRemoteChange refs then []
      else if not_host p && view_only ss then []
      else [SyncLanguage (ss_id ss) (language p)]
  end.

(** [handleEditorChange]: [Some newCode] when [onCodeChange(newCode)] is
    called, [None] when the change is dropped.  [value] is [None] for
    [undefined]. *)
Definition handleEditorChange (p : Props) (value : option string) : option string :=
  match sharedSession p with
  | Some ss =>
      if not_host p && view_only ss then None
      else Some (default "" value)
  | None => Some (default "" value)
  end.

(** The [onCodeChange] prop: the commands the parent issues itself and
    the [code] prop it renders next. *)
Definition Parent : Type := string -> list Command * string.

(** [QuickAssistEditor.handleCodeChange] as the parent; [hasOpener] is
    [window.opener] being set. *)
Definition quickAssistParent (ss : option SharedSession) (language : string)
    (hasOpener : bool) : Parent :=
  fun newCode =>
    ((match ss with Some s => [SyncCode (ss_id s) newCode language] | None => [] end)
     ++ (if hasOpener && negb (bool_decide (is_Some ss)) then [PostToOpener newCode] else [])
     ++ [SaveLocal newCode],
     newCode).

(** A local edit of the buffer: the widget calls [handleEditorChange]; if
    the parent changes the [code] prop, the code-sync effect runs on the
    next render. *)
Definition local_edit (parent : Parent) (p : Props) (refs : Refs) (value : option string)
  : list Command :=
  match handleEditorChange p value with
  | None => []
  | Some newCode =>
      let (cmds, code') := parent newCode in
      if String.eqb code' (code p) then cmds
      else cmds ++ codeSyncEffect (mkProps (sharedSession p) (isHost p) code' (language p)) refs
  end.

Definition is_publish (c : Command) : bool :=
  match c with
  | SyncCodeAfter _ _ _ _ | SyncCode _ _ _ | SyncLanguage _ _ => true
  | _ => false
  end.

End CodeEditor.

(** ** Suggestion service *)

Module AIService.

(** The request kinds the program passes to the service: the four of the
    declared union, and ['explain'], ['refactor'] and ['comments'], which
    the actions of the palette cast into it. *)
Inductive RequestType : Type :=
  | Completion
  | Optimization
  | Debug
  | Docstring
  | Explain
  | Refactor
  | Comments.


Record AIRequest : Type := mkAIRequest {
  code : string;
  language : string;
  cursorPosition : option (Z * Z);
  contextCode : option string;
  requestType : RequestType
}.

(** A field is [None] when the object has no such property. *)
Record AIResponse : Type := mkAIResponse {
  suggestion : option string;
  explanation : option string;
  issue_detected : option string;
  docstring : option string;
  suggestion_type : RequestType
}.

(** The object [JSON.parse] returns, reduced to the properties of
    [AIResponse]; [p_suggestion_type] is whatever the text carried, and is
    overwritten by the spread. *)
Record Parsed : Type := mkParsed {
  p_suggestion : option string;
  p_explanation : option string;
  p_issue_detected : option string;
  p_docstring : option string
}.

(** [choices[i]?.message?.content] of a decoded body. *)
Inductive Content : Type :=
  | NoContent            (* absent, or a falsy value *)
  | Text (s : string)
  | NotText.             (* a truthy value that is not a string *)

(** What the network gives back to [fetch] and [response.json()]. *)
Inductive Body : Type :=
  | BodyRejects                                 (* [response.json()] rejects *)
  | BodyJson (choices : option (list Content)). (* [None]: [data.choices] is undefined *)

Inductive Fetch : Type :=
  | FetchRejects (reason : string)
  | FetchResponds (ok : bool) (statusText : string) (body : Body).

Inductive Thrown : Type :=
  | JsError (message : string)
  | TypeError
  | SyntaxError.

Inductive Outcome (A : Type) : Type :=
  | Returns (a : A)
  | Raises (e : Thrown).

Arguments Returns {A} a.
Arguments Raises {A} e.

Definition bind {A B} (m : Outcome A) (k : A -> Outcome B) : Outcome B :=
  match m with
  | Returns a => k a
  | Raises e => Raises e
  end.

(** [try { body } catch (error) { handler }]. *)
Definition try_catch {A} (body : Outcome A) (handler : Thrown -> Outcome A) : Outcome A :=
  match body with
  | Returns a => Returns a
  | Raises e => handler e
  end.

Definition is_brace (open : bool) (c : ascii) : bool :=
  Ascii.eqb c (if open then "{" else "}")%char.

(** The suffix of [s] that starts at its first opening brace. *)
Fixpoint from_first_open (s : string) : option string :=
  match s with
  | EmptyString => None
  | String c r => if is_brace true c then Some s else from_first_open r
  end.

(** The longest prefix of [s] that ends with a closing brace. *)
Fixpoint through_last_close (s : string) : option string :=
  match s with
  | EmptyString => None
  | String c r =>
      match through_last_close r with
      | Some p => Some (String c p)
      | None => if is_brace false c then Some (String c EmptyString) else None
      end
  end.

(** [content.match(/\{[\s\S]*\}/)], the matched text: from the first
    opening brace through the last closing brace after it. *)
Definition json_match (content : string) : option string :=
  match from_first_open content with
  | Some (String c r) => String c <$> through_last_close r
  | _ => None
  end.

Definition optimized_suggestion (language : string) : string :=
  "// Optimized version using "
  +:+ (if String.eqb language "python" then "list comprehension" else "map/filter")
  +:+ "
const result = items.filter(x => x.active).map(x => x.value);".

(** [mockResponses.completion]. *)
Definition mock_completion : AIResponse :=
  {| suggestion := Some "  return result;";
     explanation := Some "Complete the function with a return statement";
     issue_detected := None;
     docstring := None;
     suggestion_type := Completion |}.

(** [mockResponses[kind]]: [None] when the object has no such property. *)
Definition mockResponses (request : AIRequest) (kind : RequestType) : option AIResponse :=
  match kind with
  | Completion => Some mock_completion
  | Optimization =>
      Some
      {| suggestion := Some (optimized_suggestion (language request));
         explanation := Some "Replaced nested loops with functional approach for better readability and performance";
         issue_detected := Some "Nested loops can be simplified";
         docstring := None;
         suggestion_type := Optimization |}
  | Debug =>
      Some
      {| suggestion := Some "if (!array || array.length === 0) {
  return null;
}";
         explanation := Some "Added null and empty array checks to prevent runtime errors";
         issue_detected := Some "Missing validation for edge cases";
         docstring := None;
         suggestion_type := Debug |}
  | Docstring =>
      Some
      {| suggestion := Some (code request);
         explanation := Some "Generated comprehensive documentation";
         issue_detected := None;
         docstring := Some "/**
 * Processes user data and returns formatted result
 * @param {Object} userData - The user data object
 * @param {string} userData.name - User's name
 * @param {number} userData.age - User's age
 * @returns {string} Formatted user information
 * @throws {Error} If userData is invalid
 */";
         suggestion_type := Docstring |}
  | Explain | Refactor | Comments => None
  end.

(** [getMockResponse]:
    [mockResponses[request.requestType] || mockResponses.completion]. *)
Definition getMockResponse (request : AIRequest) : AIResponse :=
  default mock_completion (mockResponses request (requestType request)).


Section GetSuggestion.

(** [JSON.parse] on the matched text: [None] when it throws. *)
Variable json_parse : string -> option Parsed.

(** [data.choices[0]?.message?.content || ''], after [response.json()];
    [content.match] is not a function when the content is not a string. *)
Definition read_content (body : Body) : Outcome string :=
  match body with
  | BodyRejects => Raises SyntaxError
  | BodyJson None => Raises TypeError
  | BodyJson (Some choices) =>
      match head choices with
      | Some (Text s) => Returns s
      | Some NotText => Raises TypeError
      | Some NoContent | None => Returns ""
      end
  end.

(** The block of the [try] of [getSuggestion]. *)
Definition request_backend (request : AIRequest) (net : Fetch) : Outcome AIResponse :=
  match net with
  | FetchRejects _ => Raises TypeError
  | FetchResponds ok statusText body =>
      if negb ok then Raises (JsError ("OpenAI API error: " +:+ statusText))
      else
        bind (read_content body) (fun content =>
          match json_match content with
          | Some text =>
              match json_parse text with
              | Some parsed =>
                  Returns {| suggestion := p_suggestion parsed;
                             explanation := p_explanation parsed;
                             issue_detected := p_issue_detected parsed;
                             docstring := p_docstring parsed;
                             suggestion_type := requestType request |}
              | None => Raises SyntaxError
              end
          | None =>
              Returns {| suggestion := Some content;
                         explanation := Some "AI generated suggestion";
                         issue_detected := None;
                         docstring := None;
                         suggestion_type := requestType request |}
          end)
  end.

(** [getSuggestion]; [apiKey] is [this.apiKey], the empty string when no
    key is configured.  The [finally] block only logs. *)
Definition getSuggestion (apiKey : string) (request : AIRequest) (net : Fetch)
  : Outcome AIResponse :=
  if String.eqb apiKey "" then Returns (getMockResponse request)
  else
    try_catch (request_backend request net)
              (fun _ => Returns (getMockResponse request)).



End GetSuggestion.

End AIService.

(** ** Runs of the polling channel *)

(** One call of a publish operation of the local channel, with the values
    its clock reads and its draw produce. *)
Inductive Publish : Type :=
  | PubCode (userId : string) (now : Z) (rnd : string) (created : Z)
            (sharedSessionId code language : string) (cursorLine cursorColumn : option Z)
  | PubLanguage (userId : string) (now : Z) (rnd : string) (created : Z)
                (sharedSessionId language : string)
  | PubCursor (userId : string) (now : Z) (rnd : string) (created : Z)
              (sharedSessionId : string) (line column : Z).

Definition run_publish (p : Publish) (st : LocalStorage) : LocalStorage :=
  match p with
  | PubCode u now rnd created sid code language line column =>
      PollingChannel.syncCode u now rnd created sid code language line column st
  | PubLanguage u now rnd created sid language =>
      PollingChannel.syncLanguage u now rnd created sid language st
  | PubCursor u now rnd created sid line column =>
      PollingChannel.syncCursor u now rnd created sid line column st
  end.

(** The event the call appends. *)
Definition event_of (p : Publish) : CodeSync :=
  match p with
  | PubCode u now rnd created sid code language line column =>
      PollingChannel.code_event u now rnd created sid code language line column
  | PubLanguage u now rnd created sid language =>
      PollingChannel.language_event u now rnd created sid language
  | PubCursor u now rnd created sid line column =>
      PollingChannel.cursor_event u now rnd created sid line column
  end.

Definition run_publishes (ps : list Publish) (st : LocalStorage) : LocalStorage :=
  fold_left (fun acc p => run_publish p acc) ps st.

Definition empty_storage : LocalStorage := {| ls_sessions := ∅; ls_syncs := ∅ |}.

(** Every session log holds at most 50 events. *)
Definition logs_bounded (st : LocalStorage) : Prop :=
  forall k, (length (read_syncs k st) <= 50)%nat.

(** The cursor after a tick that applied the events [l]. *)
Definition cursor_after (l : list CodeSync) (lastSyncId : option string) : option string :=
  match last l with
  | Some sync => Some (cs_id sync)
  | None => lastSyncId
  end.

(** Some call caused by [sync] reaches the recording subscriber [userId]
    within finitely many ticks over the store [st], starting from the
    cursor [lastSyncId]. *)
Definition delivered_by_polling (userId sharedSessionId : string) (st : LocalStorage)
    (lastSyncId : option string) (sync : CodeSync) : Prop :=
  exists (n : nat) (c : Call),
    In c (calls_of sync)
    /\ In c (snd (PollingChannel.poll_n n userId recorder sharedSessionId st lastSyncId [])).

(** The host publishes the buffers [v0], [v1], ... one millisecond apart. *)
Definition host_edit (i : nat) : Publish :=
  PubCode "host" (1700000000000 + Z.of_nat i) "0.5" (1700000000000 + Z.of_nat i)
          "s1" ("v" +:+ pretty i) "javascript" None None.

Definition host_edits (n : nat) : list Publish := map host_edit (seq 0 n).

(** One more edit of the host within the millisecond of [host_edit 49];
    its draw renders below the draw of that edit. *)
Definition host_edit_same_ms : Publish :=
  PubCode "host" 1700000000049 "0.1" 1700000000049 "s1" "v50" "javascript" None None.

(** The strings in which the model and JavaScript agree on case and white
    space: every character is below 128. *)
Definition ascii_range (s : string) : Prop :=
  Forall (fun c => (nat_of_ascii c < 128)%nat) (list_ascii_of_string s).

(** The participant a recorded call is attributed to. *)
Definition call_user (c : Call) : string :=
  match c with
  | CodeChange _ u | LanguageChange _ u | CursorChange _ _ u => u
  end.

(** Two edits of one participant within the same millisecond; the draw of
    the second renders below the draw of the first. *)
Definition same_ms_first : Publish :=
  PubCode "alice" 1700000000000 "0.9" 1700000000000 "s1" "let x=1;" "javascript" None None.

Definition same_ms_second : Publish :=
  PubCode "alice" 1700000000000 "0.1" 1700000000000 "s1" "let x=2;" "javascript" None None.

(** ** Registry states *)

(** Every stored session sits under the key of its own share code. *)
Definition keyed_by_code (st : LocalStorage) : Prop :=
  forall k s, ls_sessions st !! k = Some s -> k = sessionKey (ss_share_code s).

(** Sessions stored under different keys carry different share codes. *)
Definition codes_distinct (st : LocalStorage) : Prop :=
  forall k1 k2 s1 s2,
    k1 <> k2 ->
    ls_sessions st !! k1 = Some s1 ->
    ls_sessions st !! k2 = Some s2 ->
    ss_share_code s1 <> ss_share_code s2.

(** A session created on 14 November 2023 with the code [AB3K9Q]. *)
Definition demo_session (active : bool) : SharedSession :=
  {| ss_id := "7f9c2b1e";
     ss_session_id := "editor-1";
     ss_share_code := "AB3K9Q";
     ss_host_user_id := Some "alice";
     ss_guest_user_id := None;
     ss_permissions := Edit;
     ss_is_active := active;
     ss_connected_at := None;
     ss_created_at := 1700000000000;
     ss_expires_at := 1700086400000 |}.

Definition demo_storage (active : bool) : LocalStorage :=
  set_session (sessionKey "AB3K9Q") (demo_session active) empty_storage.

Definition demo_tables (active : bool) : HostedStore.Tables :=
  {| HostedStore.shared_sessions := [demo_session active]; HostedStore.code_sync := [] |}.

(** A source whose draws are all 0: every generated code is [AAAAAA]. *)
Definition zero_rng : Rng := fun _ => 0%Q.

(** Alice shares a session in local mode; one second later Bob shares
    another one and draws the same code. *)
Definition alice_creates : Result SharedSession * LocalStorage * Rng :=
  LocalRegistry.createSharedSession "alice" zero_rng "id-a" 1700000000000 1700000000000
    "editor-a" Edit empty_storage.


(** The props of a guest window on a session shared read-only. *)
Definition view_guest_props : CodeEditor.Props :=
  {| CodeEditor.sharedSession :=
       Some {| ss_id := "7f9c2b1e";
               ss_session_id := "editor-1";
               ss_share_code := "AB3K9Q";
               ss_host_user_id := Some "alice";
               ss_guest_user_id := Some "bob";
               ss_permissions := View;
               ss_is_active := true;
               ss_connected_at := Some 1700000001000%Z;
               ss_created_at := 1700000000000;
               ss_expires_at := 1700086400000 |};
     CodeEditor.isHost := Some false;
     CodeEditor.code := "let x=1;";
     CodeEditor.language := "javascript" |}.

(** The same window when the session is shared for editing. *)
Definition edit_guest_props : CodeEditor.Props :=
  {| CodeEditor.sharedSession := Some (HostedStore.join_row "bob" 1700000001000 (demo_session true));
     CodeEditor.isHost := Some false;
     CodeEditor.code := "let x=1;";
     CodeEditor.language := "javascript" |}.

Definition idle_refs : CodeEditor.Refs :=
  {| CodeEditor.isApplyingRemoteChange := false; CodeEditor.codeSyncTimeoutPending := false |}.

(** A request for a completion in a Python buffer. *)
Definition demo_request : AIService.AIRequest :=
  {| AIService.code := "def f(xs):";
     AIService.language := "python";
     AIService.cursorPosition := Some (1%Z, 11%Z);
     AIService.contextCode := None;
     AIService.requestType := AIService.Optimization |}.

(** ** Participant identity *)

Module Identity.

(** [`user_${Date.now()}_${Math.random().toString(36).substr(2, 9)}`];
    [rnd] is the text the draw renders to. *)
Definition new_user_id (now : Z) (rnd : string) : string :=
  "user_" +:+ pretty now +:+ "_" +:+ rnd.

(** [getOrCreateUserId], called by the constructor of the service;
    [items] are the plain string items of [localStorage]. *)
Definition getOrCreateUserId (now : Z) (rnd : string) (items : gmap string string)
  : string * gmap string string :=
  if Js.truthy (items !! "collab_user_id")
  then (default "" (items !! "collab_user_id"), items)
  else (new_user_id now rnd, <["collab_user_id" := new_user_id now rnd]> items).

End Identity.

(** ** The subscription of the service, local mode

    The fields of [CollaborationService] that [subscribeToSession],
    [startMockPolling] and [unsubscribe] touch when [isMock] holds (the
    realtime [channel] stays [null] there), together with the interval
    timers of the page: [setInterval] hands out the fresh id [next_timer],
    [clearInterval] removes a timer.  Each interval of [startMockPolling]
    keeps the session id it was started for and its own [lastSyncId]; it
    reads [this.callbacks] and [this.userId] when it fires. *)

Module Service.

Record Interval : Type := mkInterval {
  iv_session : string;
  iv_lastSyncId : option string
}.

Record State (S : Type) : Type := mkState {
  userId : string;
  sessionId : option string;
  callbacks : Callbacks S;
  mockInterval : option positive;
  timers : gmap positive Interval;
  next_timer : positive
}.

Arguments mkState {S} _ _ _ _ _ _.
Arguments userId {S} s.
Arguments sessionId {S} s.
Arguments callbacks {S} s.
Arguments mockInterval {S} s.
Arguments timers {S} s.
Arguments next_timer {S} s.

(** [this.callbacks = {}]. *)
Definition no_callbacks {S : Type} : Callbacks S := mkCallbacks None None None.

(** [subscribeToSession] followed by [startMockPolling]. *)
Definition subscribeToSession {S : Type} (sharedSession : SharedSession)
    (cbs : Callbacks S) (sv : State S) : State S :=
  {| userId := userId sv;
     sessionId := Some (ss_id sharedSession);
     callbacks := cbs;
     mockInterval := Some (next_timer sv);
     timers := <[next_timer sv := mkInterval (ss_id sharedSession) None]> (timers sv);
     next_timer := Pos.succ (next_timer sv) |}.

(** [unsubscribe]. *)
Definition unsubscribe {S : Type} (sv : State S) : State S :=
  {| userId := userId sv;
     sessionId := None;
     callbacks := no_callbacks;
     mockInterval := None;
     timers := match mockInterval sv with
               | Some i => delete i (timers sv)
               | None => timers sv
               end;
     next_timer := next_timer sv |}.

(** The interval [i] fires over the storage [st]; [sub] is the state the
    callbacks act on. *)
Definition tick {S : Type} (i : positive) (st : LocalStorage) (sv : State S) (sub : S)
  : State S * S :=
  match timers sv !! i with
  | None => (sv, sub)
  | Some iv =>
      let (last', sub') :=
        PollingChannel.poll (userId sv) (callbacks sv) (iv_session iv) st
          (iv_lastSyncId iv) sub in
      ({| userId := userId sv;
          sessionId := sessionId sv;
          callbacks := callbacks sv;
          mockInterval := mockInterval sv;
          timers := <[i := mkInterval (iv_session iv) last']> (timers sv);
          next_timer := next_timer sv |},
       sub')
  end.

(** What a component does to the service between two firings. *)
Inductive Op (S : Type) : Type :=
  | Subscribe (sharedSession : SharedSession) (cbs : Callbacks S)
  | Unsubscribe.

Arguments Subscribe {S} _ _.
Arguments Unsubscribe {S}.

Definition run_op {S : Type} (op : Op S) (sv : State S) : State S :=
  match op with
  | Subscribe ss cbs => subscribeToSession ss cbs sv
  | Unsubscribe => unsubscribe sv
  end.

Definition run_ops {S : Type} (ops : list (Op S)) (sv : State S) : State S :=
  fold_left (fun acc op => run_op op acc) ops sv.

(** The timer table of a page: every live timer, and the one the service
    remembers, was handed out before [next_timer]. *)
Definition timers_fresh {S : Type} (sv : State S) : Prop :=
  (forall i iv, timers sv !! i = Some iv -> (i < next_timer sv)%positive)
  /\ (forall i, mockInterval sv = Some i -> (i < next_timer sv)%positive).

(** A service that has just been constructed. *)
Definition initial {S : Type} (userId : string) : State S :=
  mkState userId None no_callbacks None ∅ 1%positive.

End Service.

(** The ids of a log grow strictly, in the order on strings, from each
    entry to every later one. *)
Fixpoint ids_increasing (l : list CodeSync) : Prop :=
  match l with
  | [] => True
  | x :: r => Forall (fun y => String.ltb (cs_id x) (cs_id y) = true) r /\ ids_increasing r
  end.

(** ** Runs of the local registry *)

(** One call on the storage shared by the tabs of a profile. *)
Inductive RegistryOp : Type :=
  | OpCreate (userId : string) (r : Rng) (uuid : string) (created now : Z)
             (sessionId : string) (permissions : Permission)
  | OpJoin (userId : string) (now : Z) (shareCode : string)
  | OpEnd (sharedSessionId : string) (isHost : bool)
  | OpPublish (p : Publish).

Definition run_registry_op (op : RegistryOp) (st : LocalStorage) : LocalStorage :=
  match op with
  | OpCreate u r uuid created now sessionId permissions =>
      snd (fst (LocalRegistry.createSharedSession u r uuid created now sessionId
                  permissions st))
  | OpJoin u now shareCode => snd (LocalRegistry.joinSharedSession u now shareCode st)
  | OpEnd sid isHost => LocalRegistry.endSession sid isHost st
  | OpPublish p => run_publish p st
  end.

Definition run_registry_ops (ops : list RegistryOp) (st : LocalStorage) : LocalStorage :=
  fold_left (fun acc op => run_registry_op op acc) ops st.

(** Every stored session is active. *)
Definition all_active (st : LocalStorage) : Prop :=
  forall k s, ls_sessions st !! k = Some s -> ss_is_active s = true.

(** The test of one tick, as one predicate for both branches of
    [newSyncs]. *)
Definition passes (userId : string) (lastSyncId : option string) (e : CodeSync) : bool :=
  (negb (Js.truthy lastSyncId) || Js.str_gt (cs_id e) (default "" lastSyncId))
  && not_own userId e.

(** ** Editor component: the debounce of the code-sync effect over time

    The effect on [[code, sharedSession, language, isHost]] runs after a
    render in which one of them changed.  Before it runs again the cleanup
    returned by its previous run is called, if that run got as far as
    returning one.  A timeout set by [setTimeout] fires once when its delay
    has passed, unless [clearTimeout] removed it. *)

Module SyncTimer.

Record State : Type := mkState {
  pending : option (Z * CodeEditor.Command);  (* the live timeout: when it is due, the call it makes *)
  ref_set : bool;                             (* [codeSyncTimeoutRef.current] holds a timer id *)
  has_cleanup : bool;                         (* the last run of the effect returned its cleanup *)
  published : list CodeEditor.Command         (* the calls the timeouts have made *)
}.

Definition initial : State := mkState None false false [].

Inductive Event : Type :=
  | Render (t : Z) (applying : bool) (p : CodeEditor.Props)
      (* at time [t] the component has rendered with props [p] and the
         effect is due to run; [applying] is [isApplyingRemoteChange.current] *)
  | Elapse (t : Z).  (* time has advanced to [t] *)

(** The timeout fires if it is due at time [t]. *)
Definition fire (t : Z) (st : State) : State :=
  match pending st with
  | Some (due, call) =>
      if (due <=? t)%Z
      then mkState None (ref_set st) (has_cleanup st) (published st ++ [call])
      else st
  | None => st
  end.

(** [if (codeSyncTimeoutRef.current) clearTimeout(codeSyncTimeoutRef.current)],
    the cleanup of the effect. *)
Definition cleanup (st : State) : State :=
  if has_cleanup st && ref_set st
  then mkState None (ref_set st) (has_cleanup st) (published st)
  else st.

(** A command of [codeSyncEffect] carried out at time [t]. *)
Definition perform (t : Z) (st : State) (c : CodeEditor.Command) : State :=
  match c with
  | CodeEditor.ClearTimeout => mkState None (ref_set st) (has_cleanup st) (published st)
  | CodeEditor.SyncCodeAfter ms sid code language =>
      mkState (Some ((t + ms)%Z, CodeEditor.SyncCode sid code language)) true true
              (published st)
  | _ => st
  end.

(** The body of the effect at time [t]: without commands the run
    returned early and left no cleanup. *)
Definition effect (t : Z) (applying : bool) (p : CodeEditor.Props) (st : State) : State :=
  match CodeEditor.codeSyncEffect p (CodeEditor.mkRefs applying (ref_set st)) with
  | [] => mkState (pending st) (ref_set st) false (published st)
  | cmds => fold_left (perform t) cmds st
  end.

Definition step (st : State) (e : Event) : State :=
  match e with
  | Render t applying p => effect t applying p (cleanup (fire t st))
  | Elapse t => fire t st
  end.

Definition run (es : list Event) (st : State) : State := fold_left step es st.

(** The props let the effect publish: a session is shared, and the
    participant is the host or a guest with the permission [edit]. *)
Definition may_publish (p : CodeEditor.Props) : bool :=
  match CodeEditor.sharedSession p with
  | Some ss => negb (CodeEditor.not_host p && CodeEditor.view_only ss)
  | None => false
  end.

(** The call the effect schedules for the props [p]. *)
Definition call_of (p : CodeEditor.Props) : CodeEditor.Command :=
  CodeEditor.SyncCode (default "" (ss_id <$> CodeEditor.sharedSession p))
                      (CodeEditor.code p) (CodeEditor.language p).

(** Local edits rendered at the times of [rs], the first not before [t]
    and each less than 500 ms after the one before. *)
Fixpoint burst_from (t : Z) (rs : list (Z * CodeEditor.Props)) : Prop :=
  match rs with
  | [] => True
  | (t', p) :: r =>
      (t <= t' < t + 500)%Z /\ may_publish p = true /\ burst_from t' r
  end.

Definition renders (rs : list (Z * CodeEditor.Props)) : list Event :=
  map (fun tp => Render (fst tp) false (snd tp)) rs.

End SyncTimer.

(** ** Editor component: the request for a suggestion *)

Module SuggestionRequest.

Definition newline : ascii := ascii_of_nat 10.

(** [s.split('\n')]. *)
Fixpoint split_nl (s : string) : list string :=
  match s with
  | EmptyString => [EmptyString]
  | String c r =>
      if Ascii.eqb c newline then EmptyString :: split_nl r
      else match split_nl r with
           | h :: t => String c h :: t
           | [] => [String c EmptyString]
           end
  end.

(** [l.join('\n')]. *)
Fixpoint join_nl (l : list string) : string :=
  match l with
  | [] => EmptyString
  | [x] => x
  | x :: r => x +:+ String newline (join_nl r)
  end.

(** An index argument of [slice], made relative to the length [len]. *)
Definition relative (len : nat) (i : Z) : nat :=
  if (i <? 0)%Z then Z.to_nat (Z.max (Z.of_nat len + i) 0)
  else Nat.min (Z.to_nat i) len.

(** [l.slice(start, stop)]. *)
Definition slice {A : Type} (start stop : Z) (l : list A) : list A :=
  take (relative (length l) stop - relative (length l) start)
       (drop (relative (length l) start) l).

(** [lines[lineNumber - 1] || '']. *)
Definition currentLine (lines : list string) (lineNumber : Z) : string :=
  if (lineNumber - 1 <? 0)%Z then ""
  else default "" (lines !! Z.to_nat (lineNumber - 1)).

(** [lines.slice(Math.max(0, lineNumber - 5), lineNumber + 5)]. *)
Definition surroundingLines (lines : list string) (lineNumber : Z) : list string :=
  slice (Z.max 0 (lineNumber - 5)) (lineNumber + 5) lines.

(** The request [getSuggestion] of the editor builds from the buffer and
    the position of the cursor. *)
Definition build (currentCode language : string) (lineNumber column : Z)
    (requestType : AIService.RequestType) : AIService.AIRequest :=
  {| AIService.code := join_nl (surroundingLines (split_nl currentCode) lineNumber);
     AIService.language := language;
     AIService.cursorPosition := Some (lineNumber, column);
     AIService.contextCode := None;
     AIService.requestType := requestType |}.

End SuggestionRequest.

(** ** Settings: the API key *)

Module Settings.

Record State : Type := mkState {
  apiKey : string;            (* the text of the input field *)
  hasKey : bool;
  stored : option string;     (* [localStorage] item [openai_api_key] *)
  serviceKey : string         (* [aiService.apiKey] *)
}.

(** [handleSave]. *)
Definition handleSave (st : State) : State :=
  if String.eqb (Js.trim (apiKey st)) "" then st
  else mkState (apiKey st) true (Some (Js.trim (apiKey st))) (Js.trim (apiKey st)).

(** [handleClear]. *)
Definition handleClear (st : State) : State :=
  mkState "" false None (serviceKey st).

End Settings.

(** [s] holds no opening (or no closing) brace. *)
Definition brace_free (open : bool) (s : string) : Prop :=
  Forall (fun c => AIService.is_brace open c = false) (list_ascii_of_string s).

(** ** The in-memory store used without a backend ([createMockSupabase])

    Rows are objects with string keys; a property that is absent and a
    property holding [undefined] are not told apart.  The ISO text of a
    date is kept as the string it is.  A query chain holds references to
    the row objects of its table, so an update through the chain changes
    the table: [Stored] keeps the positions of the referenced rows (rows
    are only ever appended to a table), [Detached] keeps rows that are not
    in the table (the payload of [upsert]). *)

Module MockDb.

(** The values of the properties of a row.  A row that has no such
    property and a row whose property holds [undefined] are different rows:
    the first has no entry, the second the entry [VUndef]. *)
Inductive Val : Type :=
  | VUndef
  | VNull
  | VBool (b : bool)
  | VNum (n : Z)
  | VNaN
  | VStr (s : string).

Abbreviation Row := (gmap string Val).

(** [r[k]]: [undefined] when the row has no such property. *)
Definition get (k : string) (r : Row) : Val := default VUndef (r !! k).

(** A value that is [undefined] when it is not given. *)
Definition of_option (v : option Val) : Val := default VUndef v.

(** [a === b]. *)
Definition strict_eq (a b : Val) : bool :=
  match a, b with
  | VUndef, VUndef => true
  | VNull, VNull => true
  | VBool x, VBool y => Bool.eqb x y
  | VNum x, VNum y => (x =? y)%Z
  | VStr x, VStr y => String.eqb x y
  | _, _ => false
  end.

Inductive Rows : Type :=
  | Stored (idxs : list nat)
  | Detached (rows : list Row).

(** The chain object: [_result] and [_updates]. *)
Record Chain : Type := mkChain {
  c_result : option Rows;
  c_updates : option Row
}.

(** [from(tableName)]. *)
Definition from : Chain := mkChain None None.

(** [[...store[tableName]]]. *)
Definition all_rows (tbl : list Row) : Rows := Stored (seq 0 (length tbl)).

Definition rows_of (tbl : list Row) (r : Rows) : list Row :=
  match r with
  | Stored idxs => omap (fun i => tbl !! i) idxs
  | Detached rows => rows
  end.

(** The properties [insert] puts under those of the payload row. *)
Definition insert_defaults (id now : string) : Row :=
  {[ "id" := VStr id; "created_at" := VStr now;
     "total_suggestions" := VNum 0; "accepted_suggestions" := VNum 0 ]}.

(** [insert(payload)]; the row at position [i] of the payload gets the id
    [ids i] from [cryptoRandomId()], [now] is the text of [new Date()]. *)
Definition insert_ (ids : nat -> string) (now : string) (payload : list Row)
    (q : Chain * list Row) : Chain * list Row :=
  let (ch, tbl) := q in
  (mkChain (Some (Stored (seq (length tbl) (length payload)))) (c_updates ch),
   tbl ++ imap (fun i r => r ∪ insert_defaults (ids i) now) payload).

(** [update(updates)]. *)
Definition update (updates : Row) (q : Chain * list Row) : Chain * list Row :=
  (mkChain (c_result (fst q)) (Some updates), snd q).

(** [select()]. *)
Definition select (q : Chain * list Row) : Chain * list Row :=
  (mkChain (Some (all_rows (snd q))) (c_updates (fst q)), snd q).

(** [r[col] === val]. *)
Definition matches (col : string) (val : Val) (r : Row) : bool :=
  strict_eq (get col r) val.

Definition restrict (col : string) (val : Val) (tbl : list Row) (r : Rows) : Rows :=
  match r with
  | Stored idxs =>
      Stored (List.filter (fun i => match tbl !! i with
                                    | Some row => matches col val row
                                    | None => false
                                    end) idxs)
  | Detached rows => Detached (List.filter (matches col val) rows)
  end.

(** [this._result.forEach((r) => Object.assign(r, this._updates))]. *)
Definition assign (u : Row) (tbl : list Row) (r : Rows) : Rows * list Row :=
  match r with
  | Stored idxs => (r, fold_left (fun t i => alter (fun row => u ∪ row) i t) idxs tbl)
  | Detached rows => (Detached (map (fun row => u ∪ row) rows), tbl)
  end.

(** [eq(col, val)]. *)
Definition eq_ (col : string) (val : Val) (q : Chain * list Row) : Chain * list Row :=
  let (ch, tbl) := q in
  let r := restrict col val tbl (default (all_rows tbl) (c_result ch)) in
  match c_updates ch with
  | Some u => let (r', tbl') := assign u tbl r in (mkChain (Some r') None, tbl')
  | None => (mkChain (Some r) None, tbl)
  end.

(** [order] and [limit] do nothing. *)
Definition order (q : Chain * list Row) : Chain * list Row := q.

Definition limit (q : Chain * list Row) : Chain * list Row := q.

(** The [data] of [single()] and of [maybeSingle()]: the first row of the
    result, or [null]; the [error] is always [null]. *)
Definition single (q : Chain * list Row) : option Row :=
  match c_result (fst q) with
  | Some r => head (rows_of (snd q) r)
  | None => None
  end.

(** [matchCompositeKey]. *)
Definition matchCompositeKey (a b : Row) : bool :=
  match a !! "date", a !! "language", b !! "date", b !! "language" with
  | Some ad, Some al, Some bd, Some bl => strict_eq ad bd && strict_eq al bl
  | _, _, _, _ => false
  end.

(** [l.findIndex(f)], [None] for [-1]. *)
Fixpoint findIndex {A : Type} (f : A -> bool) (l : list A) : option nat :=
  match l with
  | [] => None
  | x :: r => if f x then Some 0%nat else S <$> findIndex f r
  end.

(** The body of the [forEach] of [upsert] for the row [r]. *)
Definition upsert_row (id now : string) (tbl : list Row) (r : Row) : list Row :=
  match findIndex (fun x => matchCompositeKey x r) tbl with
  | Some idx => alter (fun old => r ∪ old) idx tbl
  | None => tbl ++ [r ∪ {[ "id" := VStr id; "created_at" := VStr now ]}]
  end.

(** [upsert(payload)]. *)
Definition upsert (ids : nat -> string) (now : string) (payload : list Row)
    (q : Chain * list Row) : Chain * list Row :=
  (mkChain (Some (Detached payload)) (c_updates (fst q)),
   fold_left (fun t ir => upsert_row (ids (fst ir)) now t (snd ir))
             (imap pair payload) (snd q)).

(** The four tables. *)
Record Store : Type := mkStore {
  sessions : list Row;
  suggestions : list Row;
  metrics : list Row;
  code_context : list Row
}.

Definition with_sessions (tbl : list Row) (st : Store) : Store :=
  mkStore tbl (suggestions st) (metrics st) (code_context st).

Definition with_metrics (tbl : list Row) (st : Store) : Store :=
  mkStore (sessions st) (suggestions st) tbl (code_context st).

(** [x + 1] for the value [x] of a property, [None] for [undefined]. *)
Definition plus_one (x : option Val) : Val :=
  match x with
  | Some (VNum n) => VNum (n + 1)
  | Some (VStr s) => VStr (s +:+ "1")
  | Some VNull => VNum 1
  | Some (VBool b) => VNum (if b then 2 else 1)
  | Some VUndef | Some VNaN | None => VNaN
  end.

(** The functions of [db] over this store. *)

(** [db.sessions.create]. *)
Definition sessions_create (language : string) (projectName : option string)
    (started id now : string) (st : Store) : option Row * Store :=
  let payload :=
    {[ "language" := VStr language;
       "project_name" := of_option (VStr <$> projectName);
       "started_at" := VStr started ]} in
  let q := select (insert_ (fun _ => id) now [payload] (from, sessions st)) in
  (single q, with_sessions (snd q) st).

(** [db.sessions.update]. *)
Definition sessions_update (id : string) (updates : Row) (st : Store) : Store :=
  with_sessions (snd (eq_ "id" (VStr id) (update updates (from, sessions st)))) st.

(** [db.sessions.get]. *)
Definition sessions_get (id : string) (st : Store) : option Row :=
  single (eq_ "id" (VStr id) (select (from, sessions st))).

(** [db.sessions.incrementSuggestions]. *)
Definition incrementSuggestions (id : string) (accepted : bool) (st : Store) : Store :=
  match sessions_get id st with
  | None => st
  | Some session =>
      sessions_update id
        {[ "total_suggestions" := plus_one (session !! "total_suggestions");
           "accepted_suggestions" :=
             if accepted then plus_one (session !! "accepted_suggestions")
             else get "accepted_suggestions" session ]}
        st
  end.

(** [db.metrics.upsert]; [updated] is the text of the date put under
    [updated_at]. *)
Definition metrics_upsert (metric : Row) (updated id now : string) (st : Store) : Store :=
  with_metrics
    (snd (upsert (fun _ => id) now [<["updated_at" := VStr updated]> metric]
            (from, metrics st)))
    st.



End MockDb.


(** ** The editor windows of Quick Assist ([WindowShareService])

    A [Window] is the handle the browser answered with; [closedWins] holds
    the handles whose [closed] is true.  [sharedWindows] is the map of the
    service, [monitors] the running [checkClosed] intervals, [posted] the
    calls of [postMessage] so far. *)
Module WindowShare.

Inductive Message : Type :=
  | CodeUpdate (code shareCode : string)
  | LanguageUpdate (language shareCode : string)
  | SyncState (code language shareCode : string).

(** What a [checkClosed] closure holds: [newWindow] and [shareCode]. *)
Record Monitor : Type := mkMonitor {
  m_window : nat;
  m_shareCode : string
}.

Record State : Type := mkState {
  sharedWindows : gmap string nat;
  closedWins : gset nat;
  monitors : gmap positive Monitor;
  next_monitor : positive;
  posted : list (nat * Message)
}.

(** [win.closed]. *)
Definition closed (w : nat) (st : State) : bool := bool_decide (w ∈ closedWins st).

(** [win.close()], and the user closing the window. *)
Definition close (w : nat) (st : State) : State :=
  mkState (sharedWindows st) ({[ w ]} ∪ closedWins st) (monitors st)
          (next_monitor st) (posted st).

(** [if (win && !win.closed) win.close()]. *)
Definition close_if_open (win : option nat) (st : State) : State :=
  match win with
  | Some w => if closed w st then st else close w st
  | None => st
  end.

(** What [window.open] did: it answered with a window, answered [null],
    or raised. *)
Inductive Opened : Type :=
  | Handle (w : nat)
  | Blocked
  | Raised.

(** [openEditorWindow]. *)
Definition openEditorWindow (shareCode : string) (opened : Opened) (st : State)
  : option nat * State :=
  let st1 := close_if_open (sharedWindows st !! shareCode) st in
  match opened with
  | Handle w =>
      (Some w,
       mkState (<[shareCode := w]> (sharedWindows st1)) (closedWins st1)
               (<[next_monitor st1 := mkMonitor w shareCode]> (monitors st1))
               (Pos.succ (next_monitor st1)) (posted st1))
  | Blocked => (None, st1)
  | Raised => (None, st1)
  end.

(** The interval [i] fires: the body of [checkClosed]. *)
Definition checkClosed (i : positive) (st : State) : State :=
  match monitors st !! i with
  | None => st
  | Some m =>
      if closed (m_window m) st
      then mkState (delete (m_shareCode m) (sharedWindows st)) (closedWins st)
                   (delete i (monitors st)) (next_monitor st) (posted st)
      else st
  end.

(** [closeAllWindows]. *)
Definition closeAllWindows (st : State) : State :=
  let st1 := map_fold (fun _ w s => close_if_open (Some w) s) st (sharedWindows st) in
  mkState ∅ (closedWins st1) (monitors st1) (next_monitor st1) (posted st1).

(** [closeWindow]. *)
Definition closeWindow (shareCode : string) (st : State) : State :=
  let st1 := close_if_open (sharedWindows st !! shareCode) st in
  mkState (delete shareCode (sharedWindows st1)) (closedWins st1) (monitors st1)
          (next_monitor st1) (posted st1).

(** [postMessageToWindow]. *)
Definition postMessageToWindow (shareCode : string) (message : Message) (st : State)
  : State :=
  match sharedWindows st !! shareCode with
  | Some w =>
      if closed w st then st
      else mkState (sharedWindows st) (closedWins st) (monitors st) (next_monitor st)
                   (posted st ++ [(w, message)])
  | None => st
  end.

(** The service when the page has loaded. *)
Definition initial : State := mkState ∅ ∅ ∅ 1%positive [].

End WindowShare.


(** ** The main window ([App]) over the in-memory store

    [items] is [localStorage], [windows] the window service, [db] the
    in-memory store. *)
Module App.

Record State : Type := mkState {
  sessionId : string;
  language : string;
  code : string;
  items : gmap string string;
  sharedSession : option SharedSession;
  windows : WindowShare.State;
  db : MockDb.Store
}.

(** [getStorageKey]. *)
Definition getStorageKey (sessId lang : string) : string :=
  "editor-code:" +:+ sessId +:+ ":" +:+ lang.

(** [db.codeContext.create] without a file path. *)
Definition codeContext_create (sessionId codeContent language id now : string)
    (st : MockDb.Store) : MockDb.Store :=
  MockDb.mkStore (MockDb.sessions st) (MockDb.suggestions st) (MockDb.metrics st)
    (snd (MockDb.insert_ (fun _ => id) now
            [ {[ "session_id" := MockDb.VStr sessionId;
                 "code_content" := MockDb.VStr codeContent;
                 "language" := MockDb.VStr language;
                 "file_path" := MockDb.VUndef ]} ]
            (MockDb.from, MockDb.code_context st))).

(** [if (sharedSession) windowShareService.postMessageToWindow(shareCode, ...)]. *)
Definition post (ss : option SharedSession) (message : string -> WindowShare.Message)
    (w : WindowShare.State) : WindowShare.State :=
  match ss with
  | Some s => WindowShare.postMessageToWindow (ss_share_code s) (message (ss_share_code s)) w
  | None => w
  end.

(** [handleLanguageChange]. *)
Definition handleLanguageChange (newLanguage : string) (st : State) : State :=
  let has := Js.truthy (Some (sessionId st)) in
  let saved := if has then items st !! getStorageKey (sessionId st) newLanguage else None in
  mkState (sessionId st) newLanguage (default (code st) saved) (items st)
    (sharedSession st)
    (post (sharedSession st) (WindowShare.LanguageUpdate newLanguage) (windows st))
    (if has
     then MockDb.sessions_update (sessionId st)
            {[ "language" := MockDb.VStr newLanguage ]} (db st)
     else db st).

(** [handleCodeChange]; [id] and [now] are the id and the date the store
    gives the mirrored row. *)
Definition handleCodeChange (newCode id now : string) (st : State) : State :=
  if Js.truthy (Some (sessionId st))
  then mkState (sessionId st) (language st) newCode
         (<[getStorageKey (sessionId st) (language st) := newCode]> (items st))
         (sharedSession st)
         (post (sharedSession st) (WindowShare.CodeUpdate newCode) (windows st))
         (codeContext_create (sessionId st) newCode (language st) id now (db st))
  else mkState (sessionId st) (language st) newCode (items st) (sharedSession st)
         (windows st) (db st).

(** The [data] of a message event. *)
Inductive Incoming : Type :=
  | GuestCodeUpdate (code : string)
  | RequestCode (shareCode : string)
  | OtherMessage.

(** [handleMessage]; [sameOrigin] is [event.origin === window.location.origin]. *)
Definition handleMessage (sameOrigin : bool) (data : Incoming) (st : State) : State :=
  if negb sameOrigin then st
  else
    match data, sharedSession st with
    | GuestCodeUpdate c, Some _ =>
        mkState (sessionId st) (language st) c
          (<[getStorageKey (sessionId st) (language st) := c]> (items st))
          (sharedSession st) (windows st) (db st)
    | RequestCode shareCode, Some _ =>
        mkState (sessionId st) (language st) (code st) (items st) (sharedSession st)
          (WindowShare.postMessageToWindow shareCode
             (WindowShare.SyncState (code st) (language st) shareCode) (windows st))
          (db st)
    | _, _ => st
    end.

(** What happens in the window while the language stays as it is. *)
Inductive Op : Type :=
  | Edit (newCode id now : string)
  | Message (sameOrigin : bool) (data : Incoming).

Definition run_op (st : State) (op : Op) : State :=
  match op with
  | Edit newCode id now => handleCodeChange newCode id now st
  | Message sameOrigin data => handleMessage sameOrigin data st
  end.

Definition run_ops (ops : list Op) (st : State) : State := fold_left run_op ops st.

End App.

(** ** The suggestion counters of the editor over the in-memory store *)
Module Bookkeeping.

(** [suggestion] being set, and the store. *)
Record State : Type := mkState {
  showing : bool;
  db : MockDb.Store
}.

(** [db.suggestions.create]. *)
Definition suggestions_create (suggestion : MockDb.Row) (id now : string)
    (st : MockDb.Store) : option MockDb.Row * MockDb.Store :=
  let q := MockDb.select (MockDb.insert_ (fun _ => id) now [suggestion]
                            (MockDb.from, MockDb.suggestions st)) in
  (MockDb.single q,
   MockDb.mkStore (MockDb.sessions st) (snd q) (MockDb.metrics st) (MockDb.code_context st)).

(** What [getSuggestion] does once the service has answered: it stores the
    suggestion, counts it and shows it. *)
Definition suggested (sessionId : string) (suggestion : MockDb.Row) (id now : string)
    (st : State) : State :=
  mkState true
    (MockDb.incrementSuggestions sessionId false
       (snd (suggestions_create suggestion id now (db st)))).

(** [applySuggestion] in a mounted editor. *)
Definition applySuggestion (sessionId : string) (st : State) : State :=
  if showing st
  then mkState false (MockDb.incrementSuggestions sessionId true (db st))
  else st.

(** [dismissSuggestion]. *)
Definition dismissSuggestion (st : State) : State := mkState false (db st).

Inductive Event : Type :=
  | Suggested (suggestion : MockDb.Row) (id now : string)
  | Apply
  | Dismiss.

Definition step (sessionId : string) (st : State) (e : Event) : State :=
  match e with
  | Suggested suggestion id now => suggested sessionId suggestion id now st
  | Apply => applySuggestion sessionId st
  | Dismiss => dismissSuggestion st
  end.

Definition run (sessionId : string) (evs : list Event) (st : State) : State :=
  fold_left (step sessionId) evs st.

Definition is_suggested (e : Event) : bool :=
  match e with
  | Suggested _ _ _ => true
  | _ => false
  end.

(** The suggestions shown in a run. *)
Definition shown (evs : list Event) : nat := length (List.filter is_suggested evs).

(** The applications of a run that find a suggestion showing; [showing]
    tells whether one is showing when the run starts. *)
Fixpoint applied (showing : bool) (evs : list Event) : nat :=
  match evs with
  | [] => 0
  | Suggested _ _ _ :: rest => applied true rest
  | Apply :: rest => (if showing then 1 else 0) + applied false rest
  | Dismiss :: rest => applied false rest
  end.

End Bookkeeping.

(** * Properties *)

(** ** Strings *)

Lemma list_ascii_app (s t : string) :
  list_ascii_of_string (s +:+ t) = list_ascii_of_string s ++ list_ascii_of_string t.
Proof. induction s as [|c s IH]; simpl; [reflexivity | now rewrite IH]. Qed.

Lemma string_length_list (s : string) :
  String.length s = length (list_ascii_of_string s).
Proof. induction s as [|c s IH]; simpl; [reflexivity | now rewrite IH]. Qed.

(** ** Share codes *)

Lemma random_index_range (x : Q) :
  (0 <= x)%Q -> (x < 1)%Q -> (0 <= random_index x < 32)%Z.
Proof.
  intros H0 H1. unfold random_index.
  change (Z.of_nat (String.length chars)) with 32%Z.
  split.
  - change 0%Z with (Qfloor (inject_Z 0)).
    apply Qfloor_resp_le. change (inject_Z 0) with (0 * inject_Z 32)%Q.
    apply Qmult_le_compat_r; [exact H0 | discriminate].
  - rewrite Zlt_Qlt. eapply Qle_lt_trans; [apply Qfloor_le |].
    change (inject_Z 32) with (1 * inject_Z 32)%Q at 2.
    apply Qmult_lt_compat_r; [reflexivity | exact H1].
Qed.

Lemma charAt_chars (k : Z) :
  (0 <= k < 32)%Z ->
  exists c, Js.charAt chars k = String c EmptyString /\ in_alphabet c.
Proof.
  intros Hk. unfold Js.charAt.
  destruct (Z.ltb_spec k 0) as [Hneg | _]; [lia |].
  assert (Hn : (Z.to_nat k < 32)%nat) by lia.
  remember (Z.to_nat k) as n eqn:En. clear En Hk k.
  do 32 (destruct n as [|n];
         [eexists; split; [reflexivity | unfold in_alphabet; simpl; tauto] |]).
  lia.
Qed.

Lemma unit_range_tail (r : Rng) : unit_range r -> unit_range (snd (next_random r)).
Proof. intros H n. apply (H (S n)). Qed.

Lemma share_code_loop_spec (n : nat) :
  forall (code : string) (r : Rng),
    unit_range r ->
    Forall in_alphabet (list_ascii_of_string code) ->
    String.length (fst (share_code_loop n code r)) = (String.length code + n)%nat
    /\ Forall in_alphabet (list_ascii_of_string (fst (share_code_loop n code r))).
Proof.
  induction n as [|n IH]; intros code r Hr Hcode; simpl.
  - split; [lia | exact Hcode].
  - destruct (charAt_chars (random_index (r 0%nat))) as (c & Hc & Hin).
    { apply random_index_range; apply Hr. }
    rewrite Hc.
    destruct (IH (code +:+ String c EmptyString) (fun k => r (S k))) as [Hlen Hall].
    + apply (unit_range_tail r Hr).
    + rewrite list_ascii_app. apply Forall_app. split; [exact Hcode |].
      simpl. constructor; [exact Hin | constructor].
    + split; [| exact Hall].
      rewrite Hlen, !string_length_list, list_ascii_app, length_app. simpl. lia.
Qed.

(** The loop draws exactly [n] times. *)
Lemma share_code_loop_rng (n : nat) :
  forall (code : string) (r : Rng) (k : nat),
    snd (share_code_loop n code r) k = r (n + k)%nat.
Proof.
  induction n as [|n IH]; intros code r k; simpl; [reflexivity |].
  rewrite IH. reflexivity.
Qed.


(** C9: every generated share code has exactly six characters, each of
    them taken from the alphabet [chars]; the alphabet has 32 distinct
    characters, and the glyphs 0, O, 1 and I are not among them. *)
Theorem generateShareCode_alphabet (r : Rng) :
  unit_range r ->
  String.length (fst (generateShareCode r)) = 6%nat
  /\ Forall in_alphabet (list_ascii_of_string (fst (generateShareCode r)))
  /\ String.length chars = 32%nat
  /\ NoDup (list_ascii_of_string chars)
  /\ Forall (fun c => ~ in_alphabet c) ["0"; "O"; "1"; "I"]%char.
Proof.
  intros Hr. unfold generateShareCode.
  destruct (share_code_loop_spec 6 "" r Hr) as [Hlen Hall]; [constructor |].
  split; [exact Hlen |]. split; [exact Hall |]. split; [reflexivity |].
  split.
  - apply (bool_decide_unpack _). vm_compute. exact I.
  - repeat constructor; unfold in_alphabet; simpl;
      intros H; repeat (destruct H as [H | H]; [discriminate H |]); exact H.
Qed.

Lemma generateShareCode_alphabet_witness :
  unit_range (fun _ => 0%Q)
  /\ fst (generateShareCode (fun _ => 0%Q)) = "AAAAAA"
  /\ String.length (fst (generateShareCode (fun _ => 0%Q))) = 6%nat.
Proof.
  assert (H : unit_range (fun _ => 0%Q)).
  { intros n. split; [apply Qle_refl | reflexivity]. }
  split; [exact H |]. split; [reflexivity |].
  exact (proj1 (generateShareCode_alphabet (fun _ => 0%Q) H)).
Defined.

(** ** The bounded log *)

Lemma slice_last_length {A} (n : nat) (l : list A) :
  length (Js.slice_last n l) = Nat.min n (length l).
Proof. unfold Js.slice_last. rewrite length_drop. lia. Qed.

Lemma slice_last_snoc {A} (n : nat) (l : list A) (x : A) :
  Js.slice_last (S n) (l ++ [x]) = Js.slice_last n l ++ [x].
Proof.
  unfold Js.slice_last. rewrite length_app. simpl.
  replace (length l + 1 - S n)%nat with (length l - n)%nat by lia.
  apply drop_app_le. lia.
Qed.

Lemma slice_last_split {A} (n : nat) (l : list A) :
  l = take (length l - n) l ++ Js.slice_last n l.
Proof. unfold Js.slice_last. symmetry. apply take_drop. Qed.

Lemma read_append_sync (sync : CodeSync) (st : LocalStorage) :
  read_syncs (syncKey (cs_shared_session_id sync)) (PollingChannel.append_sync sync st)
  = Js.slice_last 49 (read_syncs (syncKey (cs_shared_session_id sync)) st) ++ [sync].
Proof.
  unfold PollingChannel.append_sync, read_syncs at 1, set_syncs. simpl.
  rewrite lookup_insert_eq. simpl. apply slice_last_snoc.
Qed.

Lemma read_append_sync_other (sync : CodeSync) (st : LocalStorage) (k : string) :
  k <> syncKey (cs_shared_session_id sync) ->
  read_syncs k (PollingChannel.append_sync sync st) = read_syncs k st.
Proof.
  intros Hk. unfold PollingChannel.append_sync, read_syncs, set_syncs. simpl.
  rewrite lookup_insert_ne; [reflexivity | congruence].
Qed.

Lemma run_publish_append (p : Publish) (st : LocalStorage) :
  run_publish p st = PollingChannel.append_sync (event_of p) st.
Proof. destruct p; reflexivity. Qed.

Lemma event_of_published (p : Publish) : published (event_of p).
Proof. destruct p; simpl; [exact I | exact I | split; eexists; reflexivity]. Qed.

Lemma logs_bounded_publish (p : Publish) (st : LocalStorage) :
  logs_bounded st -> logs_bounded (run_publish p st).
Proof.
  intros Hb k. rewrite run_publish_append.
  destruct (decide (k = syncKey (cs_shared_session_id (event_of p)))) as [-> | Hne].
  - rewrite read_append_sync, length_app, slice_last_length. cbn [length]. lia.
  - rewrite read_append_sync_other by exact Hne. apply Hb.
Qed.

Lemma logs_bounded_empty : logs_bounded empty_storage.
Proof. intros k. unfold read_syncs. simpl. rewrite lookup_empty. simpl. lia. Qed.

Lemma logs_bounded_publishes (ps : list Publish) :
  forall st, logs_bounded st -> logs_bounded (run_publishes ps st).
Proof.
  induction ps as [|p ps IH]; intros st Hb; simpl; [exact Hb |].
  apply IH, logs_bounded_publish, Hb.
Qed.

(** ** One tick of the polling loop *)

Lemma dispatch_recorder (sync : CodeSync) (tr : list Call) :
  dispatch recorder sync tr = tr ++ calls_of sync.
Proof.
  unfold dispatch, calls_of.
  destruct (cs_action sync); simpl; try reflexivity.
  destruct (cs_cursor_line sync), (cs_cursor_column sync); simpl;
    rewrite ?app_nil_r; reflexivity.
Qed.

Lemma apply_syncs_recorder (l : list CodeSync) :
  forall (lastSyncId : option string) (tr : list Call),
    PollingChannel.apply_syncs recorder l lastSyncId tr
    = (cursor_after l lastSyncId, tr ++ flat_map calls_of l).
Proof.
  unfold PollingChannel.apply_syncs, cursor_after.
  induction l as [|x l IH]; intros c tr; simpl.
  - now rewrite app_nil_r.
  - rewrite IH. simpl. rewrite dispatch_recorder, <- app_assoc.
    destruct l as [|y l]; [reflexivity |].
    change (last (x :: y :: l)) with (last (y :: l)).
    destruct (last (y :: l)) eqn:E; [reflexivity |].
    apply last_None in E. discriminate E.
Qed.

Lemma poll_recorder (userId sid : string) (st : LocalStorage)
    (lastSyncId : option string) (tr : list Call) :
  PollingChannel.poll userId recorder sid st lastSyncId tr
  = (cursor_after (PollingChannel.newSyncs userId lastSyncId (read_syncs (syncKey sid) st))
                  lastSyncId,
     tr ++ flat_map calls_of
             (PollingChannel.newSyncs userId lastSyncId (read_syncs (syncKey sid) st))).
Proof. unfold PollingChannel.poll. apply apply_syncs_recorder. Qed.

Lemma not_own_iff (userId : string) (sync : CodeSync) :
  not_own userId sync = true <-> cs_user_id sync <> userId.
Proof.
  unfold not_own. rewrite negb_true_iff. apply String.eqb_neq.
Qed.

Lemma newSyncs_unset (userId : string) (syncs : list CodeSync) :
  PollingChannel.newSyncs userId None syncs = List.filter (not_own userId) syncs.
Proof. reflexivity. Qed.

Lemma newSyncs_set (userId c : string) (syncs : list CodeSync) :
  c <> "" ->
  PollingChannel.newSyncs userId (Some c) syncs
  = List.filter (fun s => Js.str_gt (cs_id s) c && not_own userId s) syncs.
Proof. intros Hc. unfold PollingChannel.newSyncs. destruct c; [congruence | reflexivity]. Qed.

(** Membership in the batch of a tick. *)
Lemma in_newSyncs (userId : string) (lastSyncId : option string)
    (syncs : list CodeSync) (sync : CodeSync) :
  In sync (PollingChannel.newSyncs userId lastSyncId syncs)
  <-> In sync syncs
      /\ cs_user_id sync <> userId
      /\ (Js.truthy lastSyncId = true ->
          Js.str_gt (cs_id sync) (default "" lastSyncId) = true).
Proof.
  unfold PollingChannel.newSyncs.
  destruct (Js.truthy lastSyncId) eqn:Ht; rewrite filter_In.
  - rewrite andb_true_iff, not_own_iff. intuition.
  - rewrite not_own_iff. intuition congruence.
Qed.

Lemma newSyncs_snoc (userId : string) (lastSyncId : option string)
    (syncs : list CodeSync) (sync : CodeSync) :
  cs_user_id sync <> userId ->
  (Js.truthy lastSyncId = true -> Js.str_gt (cs_id sync) (default "" lastSyncId) = true) ->
  PollingChannel.newSyncs userId lastSyncId (syncs ++ [sync])
  = PollingChannel.newSyncs userId lastSyncId syncs ++ [sync].
Proof.
  intros Hu Hc. apply not_own_iff in Hu. unfold PollingChannel.newSyncs.
  destruct (Js.truthy lastSyncId); rewrite List.filter_app; simpl.
  - rewrite Hc, Hu by reflexivity. reflexivity.
  - rewrite Hu. reflexivity.
Qed.

Lemma calls_of_published (sync : CodeSync) :
  published sync -> exists c, calls_of sync = [c].
Proof.
  unfold published, calls_of. destruct (cs_action sync); eauto.
  intros [[l ->] [c ->]]. eauto.
Qed.

(** C4, as amended: in the polling channel a publish appends the event
    and keeps the last 50 entries of the log.  After any sequence of publishes followed
    by the publish [p], the log of its session is the 50-entry tail of the
    old log extended by the event, it has at most 50 entries, its last
    entry is the event of [p], and what was cut off is a prefix (the oldest
    entries); bounded logs stay bounded.  A subscriber with another
    identity whose cursor is unset, or below the id of the event, receives
    the event as the last call of its next tick. *)
Theorem polling_log_keeps_latest (ps : list Publish) (p : Publish) (st : LocalStorage)
    (userId : string) (lastSyncId : option string) (tr : list Call) :
  cs_user_id (event_of p) <> userId ->
  (Js.truthy lastSyncId = true ->
   Js.str_gt (cs_id (event_of p)) (default "" lastSyncId) = true) ->
  let sid := cs_shared_session_id (event_of p) in
  let before := read_syncs (syncKey sid) (run_publishes ps st) in
  let st' := run_publishes (ps ++ [p]) st in
  let log := read_syncs (syncKey sid) st' in
  log = Js.slice_last 50 (before ++ [event_of p])
  /\ (length log <= 50)%nat
  /\ last log = Some (event_of p)
  /\ before ++ [event_of p] = take (length before + 1 - 50) (before ++ [event_of p]) ++ log
  /\ (logs_bounded st -> logs_bounded st')
  /\ (exists c mid,
        calls_of (event_of p) = [c]
        /\ snd (PollingChannel.poll userId recorder sid st' lastSyncId tr) = tr ++ mid ++ [c])
  /\ fst (PollingChannel.poll userId recorder sid st' lastSyncId tr)
     = Some (cs_id (event_of p)).
Proof.
  intros Hu Hc sid before st' log.
  assert (Hst' : st' = PollingChannel.append_sync (event_of p) (run_publishes ps st)).
  { unfold st', run_publishes. rewrite fold_left_app. simpl. apply run_publish_append. }
  assert (Hlog : log = Js.slice_last 49 before ++ [event_of p]).
  { unfold log. rewrite Hst'. apply read_append_sync. }
  assert (Hslice : log = Js.slice_last 50 (before ++ [event_of p])).
  { rewrite Hlog. symmetry. apply slice_last_snoc. }
  split; [exact Hslice |].
  split. { rewrite Hlog, length_app, slice_last_length. cbn [length]. lia. }
  split. { rewrite Hlog. apply last_snoc. }
  split.
  { rewrite Hslice at 1.
    replace (length before + 1 - 50)%nat with (length (before ++ [event_of p]) - 50)%nat
      by (rewrite length_app; simpl; lia).
    apply slice_last_split. }
  split.
  { intros Hb. unfold st'. apply logs_bounded_publishes, Hb. }
  rewrite poll_recorder. fold log. rewrite Hlog.
  rewrite (newSyncs_snoc _ _ _ _ Hu Hc). simpl. split.
  - destruct (calls_of_published _ (event_of_published p)) as [c Hcall].
    exists c, (flat_map calls_of
                 (PollingChannel.newSyncs userId lastSyncId (Js.slice_last 49 before))).
    split; [exact Hcall |]. rewrite flat_map_app. simpl. rewrite Hcall, app_nil_r.
    reflexivity.
  - unfold cursor_after. rewrite last_snoc. reflexivity.
Qed.

(** Fifty-one edits of the host, then the first tick of a guest. *)
Lemma polling_log_keeps_latest_witness :
  cs_user_id (event_of (host_edit 50)) <> "guest"
  /\ length (read_syncs (syncKey "s1") (run_publishes (host_edits 50 ++ [host_edit 50])
                                                      empty_storage)) = 50%nat
  /\ head (read_syncs (syncKey "s1") (run_publishes (host_edits 50 ++ [host_edit 50])
                                                    empty_storage))
     = Some (event_of (host_edit 1))
  /\ last (read_syncs (syncKey "s1") (run_publishes (host_edits 50 ++ [host_edit 50])
                                                    empty_storage))
     = Some (event_of (host_edit 50))
  /\ last (snd (PollingChannel.poll "guest" recorder "s1"
                  (run_publishes (host_edits 50 ++ [host_edit 50]) empty_storage) None []))
     = Some (CodeChange "v50" "host").
Proof.
  assert (Hu : cs_user_id (event_of (host_edit 50)) <> "guest") by discriminate.
  pose proof (polling_log_keeps_latest (host_edits 50) (host_edit 50) empty_storage
                "guest" None [] Hu (fun H => False_ind _ (Bool.diff_false_true H)))
    as (_ & _ & Hlast & _ & _ & (c & mid & Hcall & Htr) & _).
  split; [exact Hu |].
  split; [vm_compute; reflexivity |].
  split; [vm_compute; reflexivity |].
  split; [exact Hlast |].
  cbv zeta in Htr.
  change (cs_shared_session_id (event_of (host_edit 50))) with "s1" in Htr.
  rewrite Htr. simpl in Hcall. injection Hcall as <-.
  rewrite app_nil_l, last_snoc. reflexivity.
Defined.

(** C4, as stated, fails: a subscriber can miss the latest event.  The
    host publishes fifty edits and the guest's tick hands them over, which
    leaves the guest's cursor at the id of the fiftieth.  The fifty-first
    publish falls into the millisecond of the fiftieth and draws a smaller
    number: its event is the last entry of the log, which holds fifty
    entries, and comes from another participant, but ten more ticks of the
    guest hand over nothing and leave the cursor where it was. *)
Lemma latest_publish_not_delivered :
  let st50 := run_publishes (host_edits 50) empty_storage in
  let cursor := fst (PollingChannel.poll "guest" recorder "s1" st50 None []) in
  let st51 := run_publishes (host_edits 50 ++ [host_edit_same_ms]) empty_storage in
  cursor = Some "1700000000049_0.5"
  /\ length (snd (PollingChannel.poll "guest" recorder "s1" st50 None [])) = 50%nat
  /\ length (read_syncs (syncKey "s1") st51) = 50%nat
  /\ last (read_syncs (syncKey "s1") st51) = Some (event_of host_edit_same_ms)
  /\ cs_id (event_of host_edit_same_ms) = "1700000000049_0.1"
  /\ String.eqb (cs_user_id (event_of host_edit_same_ms)) "guest" = false
  /\ PollingChannel.poll_n 10 "guest" recorder "s1" st51 cursor [] = (cursor, []).
Proof.
  cbv zeta. repeat split; vm_compute; reflexivity.
Qed.

(** ** Echo suppression and the cursor *)

Lemma calls_of_user (sync : CodeSync) :
  Forall (fun c => call_user c = cs_user_id sync) (calls_of sync).
Proof.
  unfold calls_of. destruct (cs_action sync); simpl; repeat constructor.
  destruct (cs_cursor_line sync), (cs_cursor_column sync); repeat constructor.
Qed.

Lemma newSyncs_calls_not_own (userId : string) (lastSyncId : option string)
    (syncs : list CodeSync) :
  Forall (fun c => call_user c <> userId)
         (flat_map calls_of (PollingChannel.newSyncs userId lastSyncId syncs)).
Proof.
  apply List.Forall_forall. intros c Hc. apply in_flat_map in Hc as (e & He & Hc).
  apply in_newSyncs in He as (_ & Hu & _).
  pose proof (calls_of_user e) as Hall. rewrite List.Forall_forall in Hall.
  rewrite (Hall c Hc). exact Hu.
Qed.

(** Whatever the number of ticks, every call added to the trace is
    attributed to another participant. *)
Lemma poll_n_not_own (n : nat) (userId sid : string) (st : LocalStorage) :
  forall (lastSyncId : option string) (tr : list Call),
    exists added,
      snd (PollingChannel.poll_n n userId recorder sid st lastSyncId tr) = tr ++ added
      /\ Forall (fun c => call_user c <> userId) added.
Proof.
  induction n as [|n IH]; intros c tr; simpl.
  - exists []. split; [now rewrite app_nil_r | constructor].
  - rewrite poll_recorder.
    destruct (IH (cursor_after
                    (PollingChannel.newSyncs userId c (read_syncs (syncKey sid) st)) c)
                 (tr ++ flat_map calls_of
                          (PollingChannel.newSyncs userId c (read_syncs (syncKey sid) st))))
      as (added & Heq & Hall).
    eexists. split.
    + rewrite Heq, <- app_assoc. reflexivity.
    + apply Forall_app. split; [apply newSyncs_calls_not_own | exact Hall].
Qed.

Lemma own_never_delivered (userId sid : string) (st : LocalStorage)
    (lastSyncId : option string) (sync : CodeSync) :
  cs_user_id sync = userId -> ~ delivered_by_polling userId sid st lastSyncId sync.
Proof.
  intros Hown (n & c & Hc & Hin).
  destruct (poll_n_not_own n userId sid st lastSyncId []) as (added & Heq & Hall).
  rewrite Heq in Hin. simpl in Hin.
  rewrite List.Forall_forall in Hall. apply (Hall c Hin).
  pose proof (calls_of_user sync) as Hu. rewrite List.Forall_forall in Hu.
  rewrite (Hu c Hc). exact Hown.
Qed.

Lemma newSyncs_drop_own (userId : string) (lastSyncId : option string)
    (syncs : list CodeSync) :
  PollingChannel.newSyncs userId lastSyncId (List.filter (not_own userId) syncs)
  = PollingChannel.newSyncs userId lastSyncId syncs.
Proof.
  unfold PollingChannel.newSyncs.
  destruct (Js.truthy lastSyncId); induction syncs as [|x l IH]; simpl; try reflexivity;
    destruct (not_own userId x) eqn:Hx; simpl; rewrite ?Hx, ?andb_false_r, ?andb_true_r;
    try (now rewrite IH); destruct (Js.str_gt _ _); now rewrite IH.
Qed.

(** C1, as amended: an event is never handed back to the participant it
    comes from, in the realtime handler and over any number of polling
    ticks.  The realtime handler hands every published event of another
    participant to the matching callback.  A polling tick hands over an
    event of the log exactly when it comes from another participant and
    the cursor is unset or below the id of the event; such an event is
    delivered by that tick. *)
Theorem echo_suppression (userId sid : string) (st : LocalStorage)
    (lastSyncId : option string) (sync : CodeSync) (tr : list Call) :
  published sync ->
  In sync (read_syncs (syncKey sid) st) ->
  let batch := PollingChannel.newSyncs userId lastSyncId (read_syncs (syncKey sid) st) in
  (cs_user_id sync = userId ->
     (forall (S : Type) (cbs : Callbacks S) (s : S),
        RealtimeChannel.on_insert userId cbs sync s = s)
     /\ ~ In sync batch
     /\ ~ delivered_by_polling userId sid st lastSyncId sync)
  /\ (cs_user_id sync <> userId ->
        exists c, calls_of sync = [c]
                  /\ RealtimeChannel.on_insert userId recorder sync tr = tr ++ [c])
  /\ (In sync batch
      <-> cs_user_id sync <> userId
          /\ (Js.truthy lastSyncId = true ->
              Js.str_gt (cs_id sync) (default "" lastSyncId) = true))
  /\ (In sync batch -> delivered_by_polling userId sid st lastSyncId sync)
  /\ (forall (S : Type) (cbs : Callbacks S) (s : S),
        PollingChannel.poll userId cbs sid st lastSyncId s
        = PollingChannel.apply_syncs cbs
            (PollingChannel.newSyncs userId lastSyncId
               (List.filter (not_own userId) (read_syncs (syncKey sid) st)))
            lastSyncId s).
Proof.
  intros Hpub Hin batch.
  destruct (calls_of_published sync Hpub) as [c Hc].
  split; [| split; [| split; [| split]]].
  - intros Hown. split; [| split].
    + intros S cbs s. unfold RealtimeChannel.on_insert.
      rewrite Hown, String.eqb_refl. reflexivity.
    + intros Hb. apply in_newSyncs in Hb as (_ & Hne & _). exact (Hne Hown).
    + apply own_never_delivered, Hown.
  - intros Hne. exists c. split; [exact Hc |].
    unfold RealtimeChannel.on_insert.
    apply String.eqb_neq in Hne. rewrite Hne, dispatch_recorder, Hc. reflexivity.
  - unfold batch. rewrite in_newSyncs. tauto.
  - intros Hb. exists 1%nat, c. split; [rewrite Hc; left; reflexivity |].
    simpl. rewrite poll_recorder. simpl. apply in_flat_map.
    exists sync. split; [exact Hb | rewrite Hc; left; reflexivity].
  - intros S cbs s. unfold PollingChannel.poll. rewrite newSyncs_drop_own. reflexivity.
Qed.

Lemma echo_suppression_witness :
  published (event_of same_ms_first)
  /\ In (event_of same_ms_first)
        (read_syncs (syncKey "s1") (run_publish same_ms_first empty_storage))
  /\ delivered_by_polling "bob" "s1" (run_publish same_ms_first empty_storage) None
       (event_of same_ms_first)
  /\ ~ delivered_by_polling "alice" "s1" (run_publish same_ms_first empty_storage) None
         (event_of same_ms_first).
Proof.
  assert (Hp : published (event_of same_ms_first)) by exact I.
  assert (Hin : In (event_of same_ms_first)
                   (read_syncs (syncKey "s1") (run_publish same_ms_first empty_storage))).
  { vm_compute. left. reflexivity. }
  split; [exact Hp |]. split; [exact Hin |]. split.
  - destruct (echo_suppression "bob" "s1" (run_publish same_ms_first empty_storage)
                None (event_of same_ms_first) [] Hp Hin) as (_ & _ & Hiff & Hdel & _).
    apply Hdel, Hiff. split; [discriminate | discriminate].
  - destruct (echo_suppression "alice" "s1" (run_publish same_ms_first empty_storage)
                None (event_of same_ms_first) [] Hp Hin) as (Hown & _).
    apply Hown. reflexivity.
Defined.

(** C1, as stated, fails in the polling channel: bob has received the
    first edit of alice; her second edit, published within the same
    millisecond with a smaller draw, stays in the log but no later tick of
    bob hands it over, although bob is not its origin. *)
Lemma echo_iff_fails_in_polling :
  let st1 := run_publish same_ms_first empty_storage in
  let cursor := fst (PollingChannel.poll "bob" recorder "s1" st1 None []) in
  let st2 := run_publish same_ms_second st1 in
  cursor = Some "1700000000000_0.9"
  /\ published (event_of same_ms_second)
  /\ In (event_of same_ms_second) (read_syncs (syncKey "s1") st2)
  /\ ~ (delivered_by_polling "bob" "s1" st2 cursor (event_of same_ms_second)
        <-> cs_user_id (event_of same_ms_second) <> "bob").
Proof.
  intros st1 cursor st2.
  assert (Hcur : cursor = Some "1700000000000_0.9") by (vm_compute; reflexivity).
  split; [exact Hcur |]. split; [exact I |].
  split. { vm_compute. right. left. reflexivity. }
  intros [_ Hdel].
  destruct (Hdel ltac:(discriminate)) as (n & c & Hc & Hin).
  assert (Hfix : PollingChannel.poll "bob" recorder "s1" st2 cursor [] = (cursor, [])).
  { rewrite Hcur. vm_compute. reflexivity. }
  assert (Hn : forall k, PollingChannel.poll_n k "bob" recorder "s1" st2 cursor []
                         = (cursor, [])).
  { induction k as [|k IH]; simpl; [reflexivity |]. rewrite Hfix. exact IH. }
  rewrite Hn in Hin. exact Hin.
Qed.

(** C10: with the cursor unset, a tick hands over every event of the
    retained log that comes from another participant, in log order,
    whether or not it was published before the subscription; with bounded
    logs these are at most 50.  The cursor then becomes the id of the last
    event handed over.  With the cursor set to [c], a tick hands over only
    the events of other participants whose id is above [c] in the order on
    strings. *)
Theorem polling_first_tick_replays (userId sid c : string) (st : LocalStorage)
    (tr : list Call) :
  c <> "" ->
  logs_bounded st ->
  let log := read_syncs (syncKey sid) st in
  let first := List.filter (not_own userId) log in
  let later := List.filter (fun s => String.ltb c (cs_id s) && not_own userId s) log in
  PollingChannel.poll userId recorder sid st None tr
    = (cursor_after first None, tr ++ flat_map calls_of first)
  /\ (forall (S : Type) (cbs : Callbacks S) (s : S),
        PollingChannel.poll userId cbs sid st None s
        = PollingChannel.apply_syncs cbs first None s)
  /\ (forall e, In e first <-> In e log /\ cs_user_id e <> userId)
  /\ (length first <= 50)%nat
  /\ PollingChannel.poll userId recorder sid st (Some c) tr
     = (cursor_after later (Some c), tr ++ flat_map calls_of later)
  /\ (forall (S : Type) (cbs : Callbacks S) (s : S),
        PollingChannel.poll userId cbs sid st (Some c) s
        = PollingChannel.apply_syncs cbs later (Some c) s)
  /\ (forall e, In e later
                <-> In e log /\ cs_user_id e <> userId /\ String.ltb c (cs_id e) = true).
Proof.
  intros Hc Hb log first later.
  split; [rewrite poll_recorder; reflexivity |].
  split; [reflexivity |].
  split. { intros e. unfold first. rewrite filter_In, not_own_iff. tauto. }
  split. { etransitivity; [apply List.filter_length_le | apply Hb]. }
  split. { rewrite poll_recorder, (newSyncs_set _ _ _ Hc). reflexivity. }
  split. { intros S cbs s. unfold PollingChannel.poll. rewrite (newSyncs_set _ _ _ Hc).
           reflexivity. }
  intros e. unfold later. rewrite filter_In, andb_true_iff, not_own_iff. tauto.
Qed.

(** Three edits are in the log before the guest subscribes: the first
    tick replays all three, a tick with the cursor at the second edit
    hands over the third only. *)
Lemma polling_first_tick_replays_witness :
  "1700000000001_0.5" <> ""
  /\ logs_bounded (run_publishes (host_edits 3) empty_storage)
  /\ PollingChannel.poll "guest" recorder "s1" (run_publishes (host_edits 3) empty_storage)
       None []
     = (Some "1700000000002_0.5",
        [CodeChange "v0" "host"; CodeChange "v1" "host"; CodeChange "v2" "host"])
  /\ PollingChannel.poll "guest" recorder "s1" (run_publishes (host_edits 3) empty_storage)
       (Some "1700000000001_0.5") []
     = (Some "1700000000002_0.5", [CodeChange "v2" "host"]).
Proof.
  assert (Hc : "1700000000001_0.5" <> "") by discriminate.
  assert (Hb : logs_bounded (run_publishes (host_edits 3) empty_storage)).
  { apply logs_bounded_publishes, logs_bounded_empty. }
  destruct (polling_first_tick_replays "guest" "s1" "1700000000001_0.5"
              (run_publishes (host_edits 3) empty_storage) [] Hc Hb)
    as (H1 & _ & _ & _ & H2 & _).
  split; [exact Hc |]. split; [exact Hb |]. split.
  - rewrite H1. vm_compute. reflexivity.
  - rewrite H2. vm_compute. reflexivity.
Defined.

(** ** Session registry *)

Lemma upper_ascii_idem (c : ascii) : Js.upper_ascii (Js.upper_ascii c) = Js.upper_ascii c.
Proof. destruct c as [[] [] [] [] [] [] [] []]; reflexivity. Qed.

Lemma toUpperCase_idem (s : string) : Js.toUpperCase (Js.toUpperCase s) = Js.toUpperCase s.
Proof. induction s as [|c s IH]; simpl; [reflexivity | now rewrite upper_ascii_idem, IH]. Qed.

Lemma join_local_found (userId : string) (now : Z) (input : string) (s : SharedSession)
    (st : LocalStorage) :
  ls_sessions st !! sessionKey (Js.toUpperCase input) = Some s ->
  ss_is_active s = true ->
  LocalRegistry.joinSharedSession userId now input st
  = (Ok (HostedStore.join_row userId now s),
     set_session (sessionKey (Js.toUpperCase input)) (HostedStore.join_row userId now s) st).
Proof.
  intros Hs Ha. unfold LocalRegistry.joinSharedSession. rewrite Hs, Ha. reflexivity.
Qed.

(** C5, as amended: for an active session stored under the code [C],
    joining with any input of the ASCII range whose upper-casing is [C]
    succeeds, in local and in hosted mode; the session returned is the
    stored record with the caller as guest and the join time as
    [connected_at], its share code is [C], and it is what the store holds
    afterwards.  [joinSharedSession] itself does not trim: an input padded
    with white space joins only through the join handler of the panel,
    which trims it before the call. *)
Theorem joinSharedSession_case_insensitive (userId : string) (now : Z)
    (C input padded : string) (s : SharedSession) (st : LocalStorage)
    (t : HostedStore.Tables) :
  ls_sessions st !! sessionKey C = Some s ->
  List.filter (HostedStore.join_matches C) (HostedStore.shared_sessions t) = [s] ->
  ss_share_code s = C ->
  ss_is_active s = true ->
  ascii_range input ->
  ascii_range padded ->
  Js.toUpperCase input = C ->
  Js.trim padded = input ->
  input <> "" ->
  exists s',
    LocalRegistry.joinSharedSession userId now input st
      = (Ok s', set_session (sessionKey C) s' st)
    /\ ls_sessions (snd (LocalRegistry.joinSharedSession userId now input st))
         !! sessionKey C = Some s'
    /\ fst (HostedRegistry.joinSharedSession userId true now input t) = Ok s'
    /\ In s' (HostedStore.shared_sessions
                (snd (HostedRegistry.joinSharedSession userId true now input t)))
    /\ QuickAssistPanel.handleJoinSession (LocalRegistry.joinSharedSession userId now)
         padded st
       = (QuickAssistPanel.Started s', set_session (sessionKey C) s' st)
    /\ ss_share_code s' = C
    /\ Js.toUpperCase (ss_share_code s') = Js.toUpperCase input
    /\ ss_guest_user_id s' = Some userId
    /\ ss_connected_at s' = Some now
    /\ ss_is_active s' = true
    /\ (ss_id s', ss_session_id s', ss_host_user_id s', ss_permissions s',
        ss_created_at s', ss_expires_at s')
       = (ss_id s, ss_session_id s, ss_host_user_id s, ss_permissions s,
          ss_created_at s, ss_expires_at s).
Proof.
  intros Hst Ht Hcode Hact _ _ Hup Htrim Hne.
  exists (HostedStore.join_row userId now s).
  assert (Hjoin : LocalRegistry.joinSharedSession userId now input st
                  = (Ok (HostedStore.join_row userId now s),
                     set_session (sessionKey C) (HostedStore.join_row userId now s) st)).
  { rewrite <- Hup. apply join_local_found; [rewrite Hup; exact Hst | exact Hact]. }
  split; [exact Hjoin |].
  split. { rewrite Hjoin. simpl. apply lookup_insert_eq. }
  assert (Hhost : HostedRegistry.joinSharedSession userId true now input t
                  = (Ok (HostedStore.join_row userId now s),
                     {| HostedStore.shared_sessions :=
                          map (fun x => if HostedStore.join_matches C x
                                        then HostedStore.join_row userId now x else x)
                              (HostedStore.shared_sessions t);
                        HostedStore.code_sync := HostedStore.code_sync t |})).
  { unfold HostedRegistry.joinSharedSession, HostedStore.join_update. simpl.
    rewrite Hup, Ht. reflexivity. }
  split; [rewrite Hhost; reflexivity |].
  split.
  { rewrite Hhost. simpl.
    assert (Hin : In s (List.filter (HostedStore.join_matches C)
                                    (HostedStore.shared_sessions t)))
      by (rewrite Ht; left; reflexivity).
    apply filter_In in Hin as [Hin Hm].
    apply in_map_iff. exists s. rewrite Hm. split; [reflexivity | exact Hin]. }
  split.
  { unfold QuickAssistPanel.handleJoinSession. rewrite Htrim.
    apply String.eqb_neq in Hne. rewrite Hne, Hjoin. reflexivity. }
  simpl. rewrite Hcode.
  repeat split; try reflexivity.
  rewrite <- Hup. apply toUpperCase_idem.
Qed.

(** Generated codes are their own upper-casing, so the stored key of a
    created session is the key a join computes from any case variant. *)
Lemma in_alphabet_upper (c : ascii) : in_alphabet c -> Js.upper_ascii c = c.
Proof.
  unfold in_alphabet. simpl. intros H.
  repeat (destruct H as [<- | H]; [reflexivity |]). destruct H.
Qed.

Lemma alphabet_toUpperCase (s : string) :
  Forall in_alphabet (list_ascii_of_string s) -> Js.toUpperCase s = s.
Proof.
  induction s as [|c s IH]; simpl; [reflexivity |].
  intros H. apply List.Forall_cons_iff in H as [Hc Hs].
  rewrite (in_alphabet_upper c Hc), (IH Hs). reflexivity.
Qed.

(** A session created in local mode is joined through any input whose
    upper-casing is its code, and the join returns the same session id. *)
Lemma create_then_join (host guest : string) (r : Rng) (uuid : string)
    (created now joined : Z) (sessionId input : string) (permissions : Permission)
    (st : LocalStorage) :
  Js.toUpperCase input = fst (generateShareCode r) ->
  exists s',
    fst (LocalRegistry.joinSharedSession guest joined input
           (snd (fst (LocalRegistry.createSharedSession host r uuid created now sessionId
                        permissions st))))
    = Ok s'
    /\ ss_id s' = uuid
    /\ ss_guest_user_id s' = Some guest
    /\ ss_share_code s' = Js.toUpperCase input.
Proof.
  intros Hin.
  unfold LocalRegistry.createSharedSession.
  rewrite (surjective_pairing (generateShareCode r)). cbn [fst snd].
  remember (fst (generateShareCode r)) as shareCode eqn:Ecode.
  set (s := {| ss_id := uuid;
               ss_session_id := sessionId;
               ss_share_code := shareCode;
               ss_host_user_id := Some host;
               ss_guest_user_id := None;
               ss_permissions := permissions;
               ss_is_active := true;
               ss_connected_at := None;
               ss_created_at := created;
               ss_expires_at := (now + day_ms)%Z |}).
  assert (Hlook : ls_sessions (set_session (sessionKey shareCode) s st)
                    !! sessionKey (Js.toUpperCase input) = Some s).
  { rewrite Hin. unfold set_session. simpl. apply lookup_insert_eq. }
  rewrite (join_local_found guest joined input s _ Hlook eq_refl).
  eexists. split; [reflexivity |]. simpl. rewrite Hin. repeat split.
Qed.

Lemma generated_code_upper (r : Rng) :
  unit_range r -> Js.toUpperCase (fst (generateShareCode r)) = fst (generateShareCode r).
Proof.
  intros Hr. apply alphabet_toUpperCase.
  destruct (share_code_loop_spec 6 "" r Hr) as [_ Hall]; [constructor | exact Hall].
Qed.

Lemma joinSharedSession_case_insensitive_witness :
  exists s',
    QuickAssistPanel.handleJoinSession (LocalRegistry.joinSharedSession "bob" 1700000001000)
      "  ab3k9q " (demo_storage true)
    = (QuickAssistPanel.Started s', set_session (sessionKey "AB3K9Q") s' (demo_storage true))
    /\ ss_id s' = "7f9c2b1e"
    /\ ss_guest_user_id s' = Some "bob".
Proof.
  destruct (joinSharedSession_case_insensitive "bob" 1700000001000 "AB3K9Q" "ab3k9q"
              "  ab3k9q " (demo_session true) (demo_storage true) (demo_tables true))
    as (s' & _ & _ & _ & _ & Hpanel & _ & _ & Hguest & _ & _ & Hsame).
  - vm_compute. reflexivity.
  - reflexivity.
  - reflexivity.
  - reflexivity.
  - unfold ascii_range. cbn [list_ascii_of_string].
    repeat (constructor; [apply Nat.ltb_lt; vm_compute; reflexivity |]). constructor.
  - unfold ascii_range. cbn [list_ascii_of_string].
    repeat (constructor; [apply Nat.ltb_lt; vm_compute; reflexivity |]). constructor.
  - reflexivity.
  - reflexivity.
  - discriminate.
  - exists s'. split; [exact Hpanel |]. split; [| exact Hguest].
    injection Hsame as Hid _. exact Hid.
Defined.

Lemma join_hosted_no_row (userId : string) (reach : bool) (now : Z) (input : string)
    (t : HostedStore.Tables) :
  List.filter (HostedStore.join_matches (Js.toUpperCase input))
              (HostedStore.shared_sessions t) = [] ->
  HostedRegistry.joinSharedSession userId reach now input t
  = (Throw (Error "Session not found or no longer active"), t).
Proof.
  intros Hnone. unfold HostedRegistry.joinSharedSession, HostedStore.join_update.
  destruct reach; simpl; [| reflexivity].
  rewrite Hnone. reflexivity.
Qed.

(** C5, as stated, fails: [joinSharedSession] does not trim.  The session
    of [demo_session] is active and unexpired and its code is the trimmed,
    upper-cased input, but the padded input names no record: the local join
    fails with [Session not found] and the hosted join with [Session not
    found or no longer active], and both leave the store as it was. *)
Lemma join_padded_not_found :
  let now := 1700000001000%Z in
  let padded := "  ab3k9q " in
  Js.toUpperCase (Js.trim padded) = ss_share_code (demo_session true)
  /\ ss_is_active (demo_session true) = true
  /\ (now < ss_expires_at (demo_session true))%Z
  /\ LocalRegistry.joinSharedSession "bob" now padded (demo_storage true)
     = (Throw (Error "Session not found"), demo_storage true)
  /\ HostedRegistry.joinSharedSession "bob" true now padded (demo_tables true)
     = (Throw (Error "Session not found or no longer active"), demo_tables true).
Proof.
  cbv zeta. split; [vm_compute; reflexivity |]. split; [reflexivity |].
  split; [reflexivity |]. split.
  - unfold LocalRegistry.joinSharedSession.
    replace (ls_sessions (demo_storage true) !! sessionKey (Js.toUpperCase "  ab3k9q "))
      with (@None SharedSession) by (vm_compute; reflexivity).
    reflexivity.
  - apply join_hosted_no_row. vm_compute. reflexivity.
Qed.

(** C3, as amended: a join fails, and leaves the store as it was, when the
    upper-cased code names no record or names an inactive record: in local
    mode with the errors [Session not found] and [Session is not active],
    in hosted mode with the error [Session not found or no longer active].
    All are plain [Error]s, and in hosted mode an unreachable store gives
    the very same error. *)
Theorem joinSharedSession_fails (userId : string) (now : Z) (input : string)
    (st : LocalStorage) (t : HostedStore.Tables) :
  (ls_sessions st !! sessionKey (Js.toUpperCase input) = None ->
   LocalRegistry.joinSharedSession userId now input st
   = (Throw (Error "Session not found"), st))
  /\ (forall s,
        ls_sessions st !! sessionKey (Js.toUpperCase input) = Some s ->
        ss_is_active s = false ->
        LocalRegistry.joinSharedSession userId now input st
        = (Throw (Error "Session is not active"), st))
  /\ (forall reach,
        List.filter (HostedStore.join_matches (Js.toUpperCase input))
                    (HostedStore.shared_sessions t) = [] ->
        HostedRegistry.joinSharedSession userId reach now input t
        = (Throw (Error "Session not found or no longer active"), t))
  /\ HostedRegistry.joinSharedSession userId false now input t
     = (Throw (Error "Session not found or no longer active"), t).
Proof.
  split; [| split; [| split]].
  - intros Hnone. unfold LocalRegistry.joinSharedSession. rewrite Hnone. reflexivity.
  - intros s Hs Hin. unfold LocalRegistry.joinSharedSession. rewrite Hs, Hin. reflexivity.
  - intros reach. apply join_hosted_no_row.
  - reflexivity.
Qed.

Lemma joinSharedSession_fails_witness :
  LocalRegistry.joinSharedSession "bob" 1700000001000 "zzzzzz" (demo_storage true)
    = (Throw (Error "Session not found"), demo_storage true)
  /\ LocalRegistry.joinSharedSession "bob" 1700000001000 "ab3k9q" (demo_storage false)
     = (Throw (Error "Session is not active"), demo_storage false)
  /\ HostedRegistry.joinSharedSession "bob" true 1700000001000 "ab3k9q" (demo_tables false)
     = (Throw (Error "Session not found or no longer active"), demo_tables false).
Proof.
  split; [| split].
  - apply (proj1 (joinSharedSession_fails "bob" 1700000001000 "zzzzzz" (demo_storage true)
                    (demo_tables true))).
    vm_compute. reflexivity.
  - apply (proj1 (proj2 (joinSharedSession_fails "bob" 1700000001000 "ab3k9q"
                           (demo_storage false) (demo_tables false)))
             (demo_session false)).
    + vm_compute. reflexivity.
    + reflexivity.
  - apply (proj1 (proj2 (proj2 (joinSharedSession_fails "bob" 1700000001000 "ab3k9q"
                                  (demo_storage false) (demo_tables false))))).
    reflexivity.
Defined.

(** The scenario of the registry and the channel together, in local
    mode: the host creates a session, the guest joins with the code in
    lower case and gets the same session id; the host publishes one edit;
    over three ticks the callback of the guest fires once, with the buffer
    of the host and the id of the host. *)
Example create_join_publish_poll :
  exists created joined,
    fst (fst alice_creates) = Ok created
    /\ fst (LocalRegistry.joinSharedSession "bob" 1700000001000 "aaaaaa"
               (snd (fst alice_creates))) = Ok joined
    /\ ss_id joined = ss_id created
    /\ PollingChannel.poll_n 3 "bob" recorder (ss_id joined)
         (PollingChannel.syncCode "alice" 1700000002000 "0.25" 1700000002000
            (ss_id created) "let x=1;" "javascript" None None
            (snd (LocalRegistry.joinSharedSession "bob" 1700000001000 "aaaaaa"
                    (snd (fst alice_creates)))))
         None []
       = (Some "1700000002000_0.25", [CodeChange "let x=1;" "alice"]).
Proof.
  eexists. eexists.
  split; [reflexivity |]. split; [vm_compute; reflexivity |].
  split; [reflexivity |]. vm_compute. reflexivity.
Qed.

(** C3, as stated, fails: a week after the session of [demo_session]
    expired, joining it still succeeds in local and in hosted mode; and in
    hosted mode an unknown code and an unreachable store raise the same
    exception. *)
Lemma join_expired_succeeds :
  let now := (1700086400000 + 7 * day_ms)%Z in
  (ss_expires_at (demo_session true) < now)%Z
  /\ is_ok (fst (LocalRegistry.joinSharedSession "bob" now "AB3K9Q" (demo_storage true)))
     = true
  /\ is_ok (fst (HostedRegistry.joinSharedSession "bob" true now "AB3K9Q" (demo_tables true)))
     = true
  /\ fst (HostedRegistry.joinSharedSession "bob" true now "ZZZZZZ" (demo_tables true))
     = fst (HostedRegistry.joinSharedSession "bob" false now "AB3K9Q" (demo_tables true)).
Proof.
  split; [reflexivity |]. split; [vm_compute; reflexivity |].
  split; reflexivity.
Qed.

Lemma keyed_codes_distinct (st : LocalStorage) : keyed_by_code st -> codes_distinct st.
Proof.
  intros Hk k1 k2 s1 s2 Hne H1 H2 Heq.
  apply Hne. rewrite (Hk k1 s1 H1), (Hk k2 s2 H2), Heq. reflexivity.
Qed.

Lemma keyed_set_session (st : LocalStorage) (s : SharedSession) :
  keyed_by_code st -> keyed_by_code (set_session (sessionKey (ss_share_code s)) s st).
Proof.
  intros Hk k x. unfold set_session. simpl.
  destruct (decide (sessionKey (ss_share_code s) = k)) as [<- | Hne].
  - rewrite lookup_insert_eq. intros [= <-]. reflexivity.
  - rewrite lookup_insert_ne by exact Hne. apply Hk.
Qed.





Lemma deactivate_row_fields (s : SharedSession) :
  ss_is_active (HostedStore.deactivate_row s) = false
  /\ (ss_id (HostedStore.deactivate_row s), ss_session_id (HostedStore.deactivate_row s),
      ss_share_code (HostedStore.deactivate_row s),
      ss_host_user_id (HostedStore.deactivate_row s),
      ss_guest_user_id (HostedStore.deactivate_row s),
      ss_permissions (HostedStore.deactivate_row s),
      ss_connected_at (HostedStore.deactivate_row s),
      ss_created_at (HostedStore.deactivate_row s),
      ss_expires_at (HostedStore.deactivate_row s))
     = (ss_id s, ss_session_id s, ss_share_code s, ss_host_user_id s, ss_guest_user_id s,
        ss_permissions s, ss_connected_at s, ss_created_at s, ss_expires_at s).
Proof. split; reflexivity. Qed.

(** Hosted mode does what C7 says: the call of the host clears
    [is_active] on the rows with the given id and nothing else, the call
    of a guest leaves the tables as they are. *)
Lemma endSession_hosted_spec (sharedSessionId : string) (t : HostedStore.Tables) :
  HostedStore.shared_sessions (HostedRegistry.endSession true sharedSessionId true t)
  = map (fun s => if String.eqb (ss_id s) sharedSessionId
                  then HostedStore.deactivate_row s else s)
        (HostedStore.shared_sessions t)
  /\ HostedStore.code_sync (HostedRegistry.endSession true sharedSessionId true t)
     = HostedStore.code_sync t
  /\ forall reach, HostedRegistry.endSession reach sharedSessionId false t = t.
Proof. repeat split. Qed.

(** C7 on the code, local mode: [endSession] deletes the sync log of the
    session and returns, for the host as for a guest; no session record
    changes, so the session ended by its host is still stored as active
    and can still be joined. *)
Theorem endSession_local_keeps_active :
  (forall (sharedSessionId : string) (isHost : bool) (st : LocalStorage),
     ls_sessions (LocalRegistry.endSession sharedSessionId isHost st) = ls_sessions st
     /\ ls_syncs (LocalRegistry.endSession sharedSessionId isHost st)
        = delete (syncKey sharedSessionId) (ls_syncs st))
  /\ ss_id (demo_session true) = "7f9c2b1e"
  /\ ls_sessions (LocalRegistry.endSession "7f9c2b1e" true (demo_storage true))
       !! sessionKey "AB3K9Q" = Some (demo_session true)
  /\ is_ok (fst (LocalRegistry.joinSharedSession "bob" 1700000001000 "AB3K9Q"
                   (LocalRegistry.endSession "7f9c2b1e" true (demo_storage true))))
     = true
  /\ read_syncs (syncKey "s1")
       (LocalRegistry.endSession "s1" false (run_publish same_ms_first empty_storage))
     = [].
Proof.
  split; [intros; split; reflexivity |].
  split; [reflexivity |].
  split; [vm_compute; reflexivity |].
  split; vm_compute; reflexivity.
Qed.

(** ** Editor: the permission gate *)

(** C2: for a guest ([isHost] false or absent) of a session whose
    permission is [view], the change handler drops a local edit without
    calling the parent, so whatever the parent would do, the edit issues no
    command at all, in particular no publish; and neither sync effect
    issues a command when it runs. *)
Theorem view_guest_never_publishes (parent : CodeEditor.Parent) (p : CodeEditor.Props)
    (refs : CodeEditor.Refs) (value : option string) (ss : SharedSession) :
  CodeEditor.sharedSession p = Some ss ->
  ss_permissions ss = View ->
  default false (CodeEditor.isHost p) = false ->
  CodeEditor.handleEditorChange p value = None
  /\ CodeEditor.local_edit parent p refs value = []
  /\ CodeEditor.codeSyncEffect p refs = []
  /\ CodeEditor.languageSyncEffect p refs = []
  /\ existsb CodeEditor.is_publish
       (CodeEditor.local_edit parent p refs value
        ++ CodeEditor.codeSyncEffect p refs
        ++ CodeEditor.languageSyncEffect p refs) = false.
Proof.
  intros Hss Hview Hguest.
  assert (Hgate : CodeEditor.not_host p && CodeEditor.view_only ss = true).
  { unfold CodeEditor.not_host, CodeEditor.view_only. rewrite Hguest, Hview. reflexivity. }
  assert (Hh : CodeEditor.handleEditorChange p value = None).
  { unfold CodeEditor.handleEditorChange. rewrite Hss, Hgate. reflexivity. }
  assert (Hl : CodeEditor.local_edit parent p refs value = []).
  { unfold CodeEditor.local_edit. rewrite Hh. reflexivity. }
  assert (Hc : CodeEditor.codeSyncEffect p refs = []).
  { unfold CodeEditor.codeSyncEffect. rewrite Hss, Hgate.
    destruct (CodeEditor.isApplyingRemoteChange refs); reflexivity. }
  assert (Hg : CodeEditor.languageSyncEffect p refs = []).
  { unfold CodeEditor.languageSyncEffect. rewrite Hss, Hgate.
    destruct (CodeEditor.isApplyingRemoteChange refs); reflexivity. }
  rewrite Hl, Hc, Hg. repeat split; assumption || reflexivity.
Qed.

Lemma view_guest_never_publishes_witness :
  CodeEditor.local_edit
    (CodeEditor.quickAssistParent (CodeEditor.sharedSession view_guest_props) "javascript" true)
    view_guest_props idle_refs (Some "let x=2;") = []
  /\ CodeEditor.codeSyncEffect view_guest_props idle_refs = [].
Proof.
  destruct (view_guest_never_publishes
              (CodeEditor.quickAssistParent (CodeEditor.sharedSession view_guest_props)
                 "javascript" true)
              view_guest_props idle_refs (Some "let x=2;")
              {| ss_id := "7f9c2b1e";
                 ss_session_id := "editor-1";
                 ss_share_code := "AB3K9Q";
                 ss_host_user_id := Some "alice";
                 ss_guest_user_id := Some "bob";
                 ss_permissions := View;
                 ss_is_active := true;
                 ss_connected_at := Some 1700000001000%Z;
                 ss_created_at := 1700000000000;
                 ss_expires_at := 1700086400000 |}
              eq_refl eq_refl eq_refl)
    as (_ & Hl & Hc & _).
  split; [exact Hl | exact Hc].
Defined.

(** With the permission [edit] the same edit of the same guest is
    published: at once by the parent, and after the debounce by the
    effect. *)
Example edit_guest_publishes :
  CodeEditor.local_edit
    (CodeEditor.quickAssistParent (CodeEditor.sharedSession edit_guest_props) "javascript" true)
    edit_guest_props idle_refs (Some "let x=2;")
  = [CodeEditor.SyncCode "7f9c2b1e" "let x=2;" "javascript";
     CodeEditor.SaveLocal "let x=2;";
     CodeEditor.SyncCodeAfter 500 "7f9c2b1e" "let x=2;" "javascript"].
Proof. reflexivity. Qed.

(** ** Suggestion service: the fallback *)








(** The matched text of the regular expression on an answer that wraps
    its JSON in prose. *)
Example json_match_example :
  AIService.json_match "Sure: {a: {b}} done } x" = Some "{a: {b}} done }"
  /\ AIService.json_match "} no object {" = None.
Proof. split; reflexivity. Qed.

(** * Further properties of the collaboration service *)

(** ** Identity *)

Lemma new_user_id_nonempty (now : Z) (rnd : string) : Identity.new_user_id now rnd <> "".
Proof. discriminate. Qed.

Lemma truthy_Some (s : string) : s <> "" -> Js.truthy (Some s) = true.
Proof. destruct s; [congruence | reflexivity]. Qed.

(** X1: the identity is created once per profile.  Whatever the storage
    holds, the id returned is not empty and is what is stored under
    [collab_user_id] afterwards, no other item changes, and any later call
    returns the same id and leaves the storage as it is. *)
Theorem getOrCreateUserId_stable (now now' : Z) (rnd rnd' : string)
    (items : gmap string string) :
  fst (Identity.getOrCreateUserId now rnd items) <> ""
  /\ snd (Identity.getOrCreateUserId now rnd items) !! "collab_user_id"
     = Some (fst (Identity.getOrCreateUserId now rnd items))
  /\ (forall k, k <> "collab_user_id" ->
        snd (Identity.getOrCreateUserId now rnd items) !! k = items !! k)
  /\ Identity.getOrCreateUserId now' rnd' (snd (Identity.getOrCreateUserId now rnd items))
     = Identity.getOrCreateUserId now rnd items.
Proof.
  assert (Hnew : forall its,
             Identity.getOrCreateUserId now' rnd'
               (<["collab_user_id" := Identity.new_user_id now rnd]> its)
             = (Identity.new_user_id now rnd,
                <["collab_user_id" := Identity.new_user_id now rnd]> its)).
  { intros its. unfold Identity.getOrCreateUserId. rewrite lookup_insert_eq. reflexivity. }
  remember (Identity.getOrCreateUserId now rnd items) as res eqn:Eres.
  unfold Identity.getOrCreateUserId in Eres.
  destruct (items !! "collab_user_id") as [[|c u]|] eqn:Hitem;
    cbn [Js.truthy default] in Eres; subst res; cbn [fst snd].
  - split; [apply new_user_id_nonempty |].
    split; [apply lookup_insert_eq |].
    split; [intros k Hk; apply lookup_insert_ne; congruence |].
    apply Hnew.
  - split; [discriminate |]. split; [exact Hitem |]. split; [reflexivity |].
    unfold Identity.getOrCreateUserId. rewrite Hitem. reflexivity.
  - split; [apply new_user_id_nonempty |].
    split; [apply lookup_insert_eq |].
    split; [intros k Hk; apply lookup_insert_ne; congruence |].
    apply Hnew.
Qed.

(** ** Logs written by publishes *)

Lemma in_read_publish (p : Publish) (st : LocalStorage) (k : string) (e : CodeSync) :
  In e (read_syncs k (run_publish p st)) -> In e (read_syncs k st) \/ e = event_of p.
Proof.
  rewrite run_publish_append.
  destruct (decide (k = syncKey (cs_shared_session_id (event_of p)))) as [-> | Hne].
  - rewrite read_append_sync. intros Hin. apply in_app_or in Hin as [Hin | [<- | []]].
    + left. unfold Js.slice_last in Hin.
      rewrite <- (take_drop (length (read_syncs (syncKey (cs_shared_session_id (event_of p))) st) - 49)).
      apply in_or_app. right. exact Hin.
    + right. reflexivity.
  - rewrite read_append_sync_other by exact Hne. tauto.
Qed.

Lemma in_read_publishes (ps : list Publish) :
  forall (st : LocalStorage) (k : string) (e : CodeSync),
    In e (read_syncs k (run_publishes ps st)) ->
    In e (read_syncs k st) \/ exists p, In p ps /\ e = event_of p.
Proof.
  induction ps as [|p ps IH]; intros st k e; simpl; [tauto |].
  intros Hin. apply IH in Hin as [Hin | (q & Hq & ->)].
  - apply in_read_publish in Hin as [Hin | ->]; [tauto | right; eauto].
  - right. eauto.
Qed.

Lemma read_syncs_empty (k : string) : read_syncs k empty_storage = [].
Proof. unfold read_syncs. simpl. rewrite lookup_empty. reflexivity. Qed.

Lemma newSyncs_all_own (userId : string) (lastSyncId : option string)
    (syncs : list CodeSync) :
  Forall (fun e => cs_user_id e = userId) syncs ->
  PollingChannel.newSyncs userId lastSyncId syncs = [].
Proof.
  intros Hall.
  destruct (PollingChannel.newSyncs userId lastSyncId syncs) as [|e l] eqn:Hb; [reflexivity |].
  assert (Hin : In e (PollingChannel.newSyncs userId lastSyncId syncs))
    by (rewrite Hb; left; reflexivity).
  apply in_newSyncs in Hin as (Hin & Hne & _).
  rewrite List.Forall_forall in Hall. destruct (Hne (Hall e Hin)).
Qed.

Lemma poll_n_all_own {S : Type} (n : nat) (userId sid : string) (cbs : Callbacks S)
    (st : LocalStorage) (lastSyncId : option string) (s : S) :
  Forall (fun e => cs_user_id e = userId) (read_syncs (syncKey sid) st) ->
  PollingChannel.poll_n n userId cbs sid st lastSyncId s = (lastSyncId, s).
Proof.
  intros Hall. induction n as [|n IH]; simpl; [reflexivity |].
  unfold PollingChannel.poll. rewrite (newSyncs_all_own _ _ _ Hall). simpl. exact IH.
Qed.

(** X2: two services constructed one after the other over the same
    [localStorage] carry the same participant id, so whatever the first
    publishes into the logs of that storage, no tick of the second ever
    calls a callback or moves its cursor. *)
Theorem same_profile_never_delivers {S : Type} (now now' : Z) (rnd rnd' : string)
    (items : gmap string string) (ps : list Publish) (sid : string) (cbs : Callbacks S)
    (n : nat) (lastSyncId : option string) (s : S) :
  let first := Identity.getOrCreateUserId now rnd items in
  let second := Identity.getOrCreateUserId now' rnd' (snd first) in
  (forall p, In p ps -> cs_user_id (event_of p) = fst first) ->
  fst second = fst first
  /\ PollingChannel.poll_n n (fst second) cbs sid (run_publishes ps empty_storage)
       lastSyncId s
     = (lastSyncId, s).
Proof.
  intros first second Hps.
  assert (Hsame : fst second = fst first).
  { unfold second, first.
    destruct (getOrCreateUserId_stable now now' rnd rnd' items) as (_ & _ & _ & ->).
    reflexivity. }
  split; [exact Hsame |]. rewrite Hsame.
  apply poll_n_all_own, List.Forall_forall. intros e He.
  apply in_read_publishes in He as [He | (p & Hp & ->)].
  - rewrite read_syncs_empty in He. destruct He.
  - apply Hps, Hp.
Qed.

Lemma same_profile_never_delivers_witness :
  PollingChannel.poll_n 3
    (fst (Identity.getOrCreateUserId 1700000005000 "k3j9x0a1b"
            (snd (Identity.getOrCreateUserId 1700000000000 "q7w8e9r0t" ∅))))
    recorder "s1"
    (run_publishes [PubCode "user_1700000000000_q7w8e9r0t" 1700000006000 "0.5"
                      1700000006000 "s1" "let x=1;" "javascript" None None]
       empty_storage)
    None []
  = (None, []).
Proof.
  apply (same_profile_never_delivers 1700000000000 1700000005000 "q7w8e9r0t"
           "k3j9x0a1b" ∅
           [PubCode "user_1700000000000_q7w8e9r0t" 1700000006000 "0.5"
              1700000006000 "s1" "let x=1;" "javascript" None None]
           "s1" recorder 3 None []).
  intros p [<- | []]. reflexivity.
Defined.

(** ** Subscription lifecycle *)

Lemma timers_fresh_next {S : Type} (sv : Service.State S) :
  Service.timers_fresh sv -> Service.timers sv !! Service.next_timer sv = None.
Proof.
  intros [Hfresh _]. destruct (Service.timers sv !! Service.next_timer sv) eqn:Hl;
    [| reflexivity].
  apply Hfresh in Hl. lia.
Qed.

Lemma timers_fresh_op {S : Type} (op : Service.Op S) (sv : Service.State S) :
  Service.timers_fresh sv -> Service.timers_fresh (Service.run_op op sv).
Proof.
  intros [Ht Hm]. destruct op as [ss cbs |]; split; simpl.
  - intros i iv Hi. destruct (decide (Service.next_timer sv = i)) as [<- | Hne]; [lia |].
    rewrite lookup_insert_ne in Hi by exact Hne. apply Ht in Hi. lia.
  - intros i [= <-]. lia.
  - intros i iv Hi. destruct (Service.mockInterval sv) as [j |]; [| exact (Ht i iv Hi)].
    apply lookup_delete_Some in Hi as [_ Hi]. exact (Ht i iv Hi).
  - discriminate.
Qed.

Lemma initial_fresh {S : Type} (userId : string) :
  Service.timers_fresh (Service.initial (S := S) userId).
Proof.
  split; [| discriminate]. intros i iv Hi. simpl in Hi.
  rewrite lookup_empty in Hi. discriminate Hi.
Qed.

(** X3: unsubscribing after a subscription stops its interval: on a page
    whose timer ids are fresh, the timers are again those from before the
    subscription, the callbacks and the session id are cleared; and a
    second [unsubscribe] changes nothing. *)
Theorem unsubscribe_releases {S : Type} (sharedSession : SharedSession)
    (cbs : Callbacks S) (sv : Service.State S) :
  Service.timers_fresh sv ->
  Service.timers (Service.unsubscribe (Service.subscribeToSession sharedSession cbs sv))
  = Service.timers sv
  /\ Service.mockInterval
       (Service.unsubscribe (Service.subscribeToSession sharedSession cbs sv)) = None
  /\ Service.sessionId
       (Service.unsubscribe (Service.subscribeToSession sharedSession cbs sv)) = None
  /\ Service.callbacks
       (Service.unsubscribe (Service.subscribeToSession sharedSession cbs sv))
     = Service.no_callbacks
  /\ Service.unsubscribe
       (Service.unsubscribe (Service.subscribeToSession sharedSession cbs sv))
     = Service.unsubscribe (Service.subscribeToSession sharedSession cbs sv).
Proof.
  intros Hfresh. repeat split. simpl.
  rewrite delete_insert_eq. apply delete_id, timers_fresh_next, Hfresh.
Qed.

Lemma unsubscribe_releases_witness :
  Service.timers
    (Service.unsubscribe
       (Service.subscribeToSession (demo_session true) recorder (Service.initial "bob")))
  = ∅.
Proof.
  apply (unsubscribe_releases (demo_session true) recorder (Service.initial "bob")).
  apply initial_fresh.
Defined.

Lemma leaked_timer_op {S : Type} (op : Service.Op S) (sv : Service.State S)
    (i : positive) (iv : Service.Interval) :
  Service.timers sv !! i = Some iv ->
  Service.mockInterval sv <> Some i ->
  (i < Service.next_timer sv)%positive ->
  Service.timers (Service.run_op op sv) !! i = Some iv
  /\ Service.mockInterval (Service.run_op op sv) <> Some i
  /\ (i < Service.next_timer (Service.run_op op sv))%positive.
Proof.
  intros Hi Hm Hlt. destruct op as [ss cbs |]; simpl.
  - split; [| split; [| lia]].
    + rewrite lookup_insert_ne by lia. exact Hi.
    + intros [= Heq]. lia.
  - split; [| split; [discriminate | exact Hlt]].
    destruct (Service.mockInterval sv) as [j |]; [| exact Hi].
    rewrite lookup_delete_ne by congruence. exact Hi.
Qed.

(** X4: a second [subscribeToSession] without an [unsubscribe] in between
    leaks the interval of the first: the service forgets its id, and after
    that no sequence of subscribe and unsubscribe calls stops it. *)
Theorem resubscribe_leaks_interval {S : Type} (first second : SharedSession)
    (cbs cbs' : Callbacks S) (sv : Service.State S) (ops : list (Service.Op S)) :
  Service.timers_fresh sv ->
  Service.timers
    (Service.run_ops ops
       (Service.subscribeToSession second cbs'
          (Service.subscribeToSession first cbs sv)))
    !! Service.next_timer sv
  = Some (Service.mkInterval (ss_id first) None).
Proof.
  intros Hfresh.
  set (sv2 := Service.subscribeToSession second cbs'
                (Service.subscribeToSession first cbs sv)).
  assert (Hinv : Service.timers sv2 !! Service.next_timer sv
                 = Some (Service.mkInterval (ss_id first) None)
                 /\ Service.mockInterval sv2 <> Some (Service.next_timer sv)
                 /\ (Service.next_timer sv < Service.next_timer sv2)%positive).
  { unfold sv2. simpl. split; [| split; [| lia]].
    - rewrite lookup_insert_ne by lia. apply lookup_insert_eq.
    - intros [= Heq]. lia. }
  clearbody sv2. revert sv2 Hinv.
  induction ops as [|op ops IH]; intros sv2 (Hi & Hm & Hlt); simpl; [exact Hi |].
  apply IH. apply leaked_timer_op; assumption.
Qed.

Lemma resubscribe_leaks_interval_witness :
  Service.timers
    (Service.run_ops [Service.Unsubscribe; Service.Unsubscribe]
       (Service.subscribeToSession (demo_session true) recorder
          (Service.subscribeToSession (demo_session true) recorder
             (Service.initial "bob"))))
    !! 1%positive
  = Some (Service.mkInterval "7f9c2b1e" None).
Proof.
  apply (resubscribe_leaks_interval (demo_session true) (demo_session true) recorder
           recorder (Service.initial "bob") [Service.Unsubscribe; Service.Unsubscribe]).
  apply initial_fresh.
Defined.

(** X5: two live intervals on the same session, as a double subscription
    leaves them, each hand the events of the log to the current callbacks:
    after both have fired once, every call of the batch has been made
    twice. *)
Theorem two_intervals_deliver_twice (i j : positive) (sid : string) (st : LocalStorage)
    (sv : Service.State (list Call)) (tr : list Call) :
  i <> j ->
  Service.callbacks sv = recorder ->
  Service.timers sv !! i = Some (Service.mkInterval sid None) ->
  Service.timers sv !! j = Some (Service.mkInterval sid None) ->
  snd (Service.tick j st (fst (Service.tick i st sv tr)) (snd (Service.tick i st sv tr)))
  = tr
    ++ flat_map calls_of (List.filter (not_own (Service.userId sv))
                                      (read_syncs (syncKey sid) st))
    ++ flat_map calls_of (List.filter (not_own (Service.userId sv))
                                      (read_syncs (syncKey sid) st)).
Proof.
  intros Hij Hcb Hi Hj.
  unfold Service.tick at 2 3. rewrite Hi, Hcb. simpl.
  rewrite poll_recorder. simpl.
  unfold Service.tick. simpl. rewrite lookup_insert_ne by exact Hij. rewrite Hj. simpl.
  rewrite poll_recorder. simpl. rewrite <- app_assoc. reflexivity.
Qed.

(** The guest window subscribes twice; the edit of the host reaches its
    callback twice. *)
Lemma two_intervals_deliver_twice_witness :
  snd (Service.tick 2
         (PollingChannel.syncCode "alice" 1700000002000 "0.25" 1700000002000 "7f9c2b1e"
            "let x=1;" "javascript" None None empty_storage)
         (fst (Service.tick 1
                 (PollingChannel.syncCode "alice" 1700000002000 "0.25" 1700000002000
                    "7f9c2b1e" "let x=1;" "javascript" None None empty_storage)
                 (Service.subscribeToSession (demo_session true) recorder
                    (Service.subscribeToSession (demo_session true) recorder
                       (Service.initial "bob")))
                 []))
         (snd (Service.tick 1
                 (PollingChannel.syncCode "alice" 1700000002000 "0.25" 1700000002000
                    "7f9c2b1e" "let x=1;" "javascript" None None empty_storage)
                 (Service.subscribeToSession (demo_session true) recorder
                    (Service.subscribeToSession (demo_session true) recorder
                       (Service.initial "bob")))
                 [])))
  = [CodeChange "let x=1;" "alice"; CodeChange "let x=1;" "alice"].
Proof.
  rewrite (two_intervals_deliver_twice 1 2 "7f9c2b1e"
             (PollingChannel.syncCode "alice" 1700000002000 "0.25" 1700000002000
                "7f9c2b1e" "let x=1;" "javascript" None None empty_storage)
             (Service.subscribeToSession (demo_session true) recorder
                (Service.subscribeToSession (demo_session true) recorder
                   (Service.initial "bob")))
             []).
  - vm_compute. reflexivity.
  - discriminate.
  - reflexivity.
  - vm_compute. reflexivity.
  - vm_compute. reflexivity.
Defined.

(** ** Delivery over a log with growing ids *)

Lemma ascii_compare_lt_trans (a b c : ascii) :
  Ascii.compare a b = Lt -> Ascii.compare b c = Lt -> Ascii.compare a c = Lt.
Proof. unfold Ascii.compare. rewrite !N.compare_lt_iff. lia. Qed.

Lemma ascii_compare_refl (a : ascii) : Ascii.compare a a = Eq.
Proof. unfold Ascii.compare. apply N.compare_refl. Qed.

Lemma string_compare_lt_trans (a : string) :
  forall b c,
    String.compare a b = Lt -> String.compare b c = Lt -> String.compare a c = Lt.
Proof.
  induction a as [|x a IH]; intros [|y b] [|z c]; simpl; try congruence.
  destruct (Ascii.compare x y) eqn:Hxy; try discriminate;
    destruct (Ascii.compare y z) eqn:Hyz; try discriminate; intros H1 H2.
  - apply Ascii.compare_eq_iff in Hxy, Hyz. subst. rewrite ascii_compare_refl. eauto.
  - apply Ascii.compare_eq_iff in Hxy. subst. now rewrite Hyz.
  - apply Ascii.compare_eq_iff in Hyz. subst. now rewrite Hxy.
  - now rewrite (ascii_compare_lt_trans _ _ _ Hxy Hyz).
Qed.

Lemma string_ltb_lt (a b : string) : String.ltb a b = true <-> String.compare a b = Lt.
Proof. unfold String.ltb. destruct (String.compare a b); split; congruence. Qed.

Lemma string_ltb_trans (a b c : string) :
  String.ltb a b = true -> String.ltb b c = true -> String.ltb a c = true.
Proof. rewrite !string_ltb_lt. apply string_compare_lt_trans. Qed.

Lemma string_ltb_asym (a b : string) : String.ltb a b = true -> String.ltb b a = false.
Proof.
  unfold String.ltb. rewrite (String.compare_antisym b a).
  destruct (String.compare a b); simpl; congruence.
Qed.

Lemma string_ltb_irrefl (a : string) : String.ltb a a = false.
Proof.
  destruct (String.ltb a a) eqn:H; [| reflexivity].
  pose proof (string_ltb_asym a a H). congruence.
Qed.

Lemma newSyncs_passes (userId : string) (lastSyncId : option string)
    (syncs : list CodeSync) :
  PollingChannel.newSyncs userId lastSyncId syncs
  = List.filter (passes userId lastSyncId) syncs.
Proof.
  unfold PollingChannel.newSyncs, passes.
  destruct (Js.truthy lastSyncId); reflexivity.
Qed.

Lemma last_filter_split {A : Type} (f : A -> bool) (l : list A) (b : A) :
  last (List.filter f l) = Some b ->
  exists l1 l2, l = l1 ++ b :: l2 /\ f b = true /\ List.filter f l2 = [].
Proof.
  induction l as [|x l IH]; simpl; [discriminate |].
  destruct (f x) eqn:Hx.
  - destruct (List.filter f l) as [|y r] eqn:Hf.
    + intros [= <-]. exists [], l. auto.
    + change (last (x :: y :: r)) with (last (y :: r)). intros Hl.
      destruct (IH Hl) as (l1 & l2 & -> & Hb & Hl2).
      exists (x :: l1), l2. auto.
  - intros Hl. destruct (IH Hl) as (l1 & l2 & -> & Hb & Hl2).
    exists (x :: l1), l2. auto.
Qed.

Lemma ids_increasing_split (l1 l2 : list CodeSync) (b : CodeSync) :
  ids_increasing (l1 ++ b :: l2) ->
  Forall (fun x => String.ltb (cs_id x) (cs_id b) = true) l1
  /\ Forall (fun y => String.ltb (cs_id b) (cs_id y) = true) l2.
Proof.
  induction l1 as [|x l1 IH]; simpl.
  - intros [H _]. split; [constructor | exact H].
  - intros [Hx Hrest]. destruct (IH Hrest) as [H1 H2]. split; [| exact H2].
    constructor; [| exact H1].
    rewrite List.Forall_forall in Hx. apply Hx, in_or_app. right. left. reflexivity.
Qed.

Lemma filter_nil_forall {A : Type} (f : A -> bool) (l : list A) :
  (forall x, In x l -> f x = false) -> List.filter f l = [].
Proof.
  induction l as [|x l IH]; simpl; intros H; [reflexivity |].
  rewrite (H x (or_introl eq_refl)). apply IH. intros y Hy. apply H. right. exact Hy.
Qed.

Lemma filter_nil_inv {A : Type} (f : A -> bool) (l : list A) (x : A) :
  List.filter f l = [] -> In x l -> f x = false.
Proof.
  intros Hnil Hin. destruct (f x) eqn:Hx; [| reflexivity].
  assert (Hf : In x (List.filter f l)) by (apply filter_In; auto).
  rewrite Hnil in Hf. destruct Hf.
Qed.

(** Once a tick has run over a log with growing, non-empty ids, the
    cursor it leaves lets nothing of that log pass again. *)
Lemma second_batch_empty (userId : string) (lastSyncId : option string)
    (syncs : list CodeSync) :
  ids_increasing syncs ->
  Forall (fun e => cs_id e <> "") syncs ->
  PollingChannel.newSyncs userId
    (cursor_after (PollingChannel.newSyncs userId lastSyncId syncs) lastSyncId) syncs
  = [].
Proof.
  intros Hinc Hne. unfold cursor_after.
  destruct (last (PollingChannel.newSyncs userId lastSyncId syncs)) as [b |] eqn:Hlast.
  - rewrite newSyncs_passes in Hlast.
    apply last_filter_split in Hlast as (l1 & l2 & -> & Hb & Hl2).
    apply ids_increasing_split in Hinc as [H1 H2].
    rewrite List.Forall_forall in H1, H2, Hne.
    assert (Hbne : cs_id b <> "") by (apply Hne, in_or_app; right; left; reflexivity).
    rewrite newSyncs_passes. apply filter_nil_forall. intros e He.
    unfold passes. rewrite (truthy_Some _ Hbne). simpl. unfold Js.str_gt.
    apply in_app_or in He as [He | [<- | He]].
    + rewrite (string_ltb_asym _ _ (H1 e He)). reflexivity.
    + rewrite string_ltb_irrefl. reflexivity.
    + pose proof (filter_nil_inv _ _ e Hl2 He) as Hfail.
      unfold passes in Hfail, Hb.
      destruct (not_own userId e); [| apply andb_false_r].
      rewrite andb_true_r in Hfail. apply andb_true_iff in Hb as [Hb _].
      destruct (Js.truthy lastSyncId); simpl in Hfail, Hb; [| discriminate Hfail].
      unfold Js.str_gt in Hfail, Hb.
      rewrite (string_ltb_trans _ _ _ Hb (H2 e He)) in Hfail. discriminate Hfail.
  - apply last_None in Hlast. exact Hlast.
Qed.

Lemma apply_syncs_cursor {S : Type} (cbs : Callbacks S) (l : list CodeSync) :
  forall (lastSyncId : option string) (s : S),
    fst (PollingChannel.apply_syncs cbs l lastSyncId s) = cursor_after l lastSyncId.
Proof.
  unfold PollingChannel.apply_syncs, cursor_after.
  induction l as [|x l IH]; intros c s; simpl; [reflexivity |].
  rewrite IH. destruct l as [|y l]; [reflexivity |].
  change (last (x :: y :: l)) with (last (y :: l)).
  destruct (last (y :: l)) eqn:E; [reflexivity |].
  apply last_None in E. discriminate E.
Qed.

Lemma poll_n_idle {S : Type} (n : nat) (userId sid : string) (cbs : Callbacks S)
    (st : LocalStorage) (lastSyncId : option string) (s : S) :
  PollingChannel.newSyncs userId lastSyncId (read_syncs (syncKey sid) st) = [] ->
  PollingChannel.poll_n n userId cbs sid st lastSyncId s = (lastSyncId, s).
Proof.
  intros Hidle. induction n as [|n IH]; simpl; [reflexivity |].
  unfold PollingChannel.poll. rewrite Hidle. simpl. exact IH.
Qed.

(** X6: when the ids of a session log are non-empty and grow along the
    log, every event is handed over at most once: however many ticks
    follow over the same storage, their effect is that of the first. *)
Theorem poll_once_when_ids_grow {S : Type} (n : nat) (userId sid : string)
    (cbs : Callbacks S) (st : LocalStorage) (lastSyncId : option string) (s : S) :
  ids_increasing (read_syncs (syncKey sid) st) ->
  Forall (fun e => cs_id e <> "") (read_syncs (syncKey sid) st) ->
  PollingChannel.poll_n (Datatypes.S n) userId cbs sid st lastSyncId s
  = PollingChannel.poll userId cbs sid st lastSyncId s.
Proof.
  intros Hinc Hne. simpl.
  destruct (PollingChannel.poll userId cbs sid st lastSyncId s) as [c' s'] eqn:Hpoll.
  apply poll_n_idle.
  assert (Hc : c' = cursor_after
                      (PollingChannel.newSyncs userId lastSyncId
                         (read_syncs (syncKey sid) st)) lastSyncId).
  { unfold PollingChannel.poll in Hpoll.
    rewrite <- (apply_syncs_cursor cbs _ lastSyncId s), Hpoll. reflexivity. }
  rewrite Hc. apply second_batch_empty; assumption.
Qed.

Lemma poll_once_when_ids_grow_witness :
  PollingChannel.poll_n 5 "guest" recorder "s1" (run_publishes (host_edits 3) empty_storage)
    None []
  = (Some "1700000000002_0.5",
     [CodeChange "v0" "host"; CodeChange "v1" "host"; CodeChange "v2" "host"]).
Proof.
  rewrite (poll_once_when_ids_grow 4 "guest" "s1" recorder
             (run_publishes (host_edits 3) empty_storage) None []).
  - vm_compute. reflexivity.
  - vm_compute. repeat constructor.
  - vm_compute. repeat constructor; discriminate.
Defined.

Lemma syncKey_inj (a b : string) : syncKey a = syncKey b -> a = b.
Proof. unfold syncKey. apply String.app_inj. Qed.

Lemma sessionKey_inj (a b : string) : sessionKey a = sessionKey b -> a = b.
Proof. unfold sessionKey. apply String.app_inj. Qed.

(** X7: a publish touches the log of its own session only: the session
    records and the log of every other session are as before, and so is
    what a tick of a subscriber of another session does. *)
Theorem publish_frame {S : Type} (p : Publish) (st : LocalStorage) (sid userId : string)
    (cbs : Callbacks S) (lastSyncId : option string) (s : S) :
  sid <> cs_shared_session_id (event_of p) ->
  ls_sessions (run_publish p st) = ls_sessions st
  /\ read_syncs (syncKey sid) (run_publish p st) = read_syncs (syncKey sid) st
  /\ PollingChannel.poll userId cbs sid (run_publish p st) lastSyncId s
     = PollingChannel.poll userId cbs sid st lastSyncId s.
Proof.
  intros Hsid.
  assert (Hread : read_syncs (syncKey sid) (run_publish p st) = read_syncs (syncKey sid) st).
  { rewrite run_publish_append. apply read_append_sync_other.
    intros Hk. apply Hsid, syncKey_inj, Hk. }
  split; [rewrite run_publish_append; reflexivity |].
  split; [exact Hread |]. unfold PollingChannel.poll. rewrite Hread. reflexivity.
Qed.

Lemma publish_frame_witness :
  read_syncs (syncKey "s2") (run_publish same_ms_first empty_storage) = [].
Proof.
  rewrite (proj1 (proj2 (publish_frame (S := list Call) same_ms_first empty_storage "s2"
                           "bob" recorder None [] ltac:(discriminate)))).
  apply read_syncs_empty.
Defined.

(** ** The local registry over runs *)

(** X8: the guest slot is not protected.  When two participants join the
    same active session one after the other, both calls succeed, the
    second replaces the first as guest, and the storage ends as if only the
    second had joined. *)
Theorem join_last_wins (g1 g2 : string) (t1 t2 : Z) (input1 input2 : string)
    (s : SharedSession) (st : LocalStorage) :
  ls_sessions st !! sessionKey (Js.toUpperCase input1) = Some s ->
  ss_is_active s = true ->
  Js.toUpperCase input2 = Js.toUpperCase input1 ->
  fst (LocalRegistry.joinSharedSession g1 t1 input1 st)
    = Ok (HostedStore.join_row g1 t1 s)
  /\ fst (LocalRegistry.joinSharedSession g2 t2 input2
            (snd (LocalRegistry.joinSharedSession g1 t1 input1 st)))
     = Ok (HostedStore.join_row g2 t2 s)
  /\ snd (LocalRegistry.joinSharedSession g2 t2 input2
            (snd (LocalRegistry.joinSharedSession g1 t1 input1 st)))
     = snd (LocalRegistry.joinSharedSession g2 t2 input2 st).
Proof.
  intros Hs Hact Hup.
  rewrite (join_local_found g1 t1 input1 s st Hs Hact). cbn [fst snd].
  assert (Hs1 : ls_sessions (set_session (sessionKey (Js.toUpperCase input1))
                               (HostedStore.join_row g1 t1 s) st)
                  !! sessionKey (Js.toUpperCase input2)
                = Some (HostedStore.join_row g1 t1 s)).
  { rewrite Hup. unfold set_session. simpl. apply lookup_insert_eq. }
  rewrite (join_local_found g2 t2 input2 _ _ Hs1 eq_refl).
  assert (Hs2 : ls_sessions st !! sessionKey (Js.toUpperCase input2) = Some s)
    by (rewrite Hup; exact Hs).
  rewrite (join_local_found g2 t2 input2 s st Hs2 Hact). cbn [fst snd].
  split; [reflexivity |]. split; [reflexivity |].
  unfold set_session. simpl. rewrite Hup, insert_insert_eq. reflexivity.
Qed.

Lemma join_last_wins_witness :
  fst (LocalRegistry.joinSharedSession "carol" 1700000002000 "AB3K9Q"
         (snd (LocalRegistry.joinSharedSession "bob" 1700000001000 "ab3k9q"
                 (demo_storage true))))
  = Ok (HostedStore.join_row "carol" 1700000002000 (demo_session true)).
Proof.
  apply (join_last_wins "bob" "carol" 1700000001000 1700000002000 "ab3k9q" "AB3K9Q"
           (demo_session true) (demo_storage true)).
  - vm_compute. reflexivity.
  - reflexivity.
  - reflexivity.
Defined.

Lemma join_local_sessions (userId : string) (now : Z) (input : string) (st : LocalStorage) :
  ls_sessions (snd (LocalRegistry.joinSharedSession userId now input st)) = ls_sessions st
  \/ exists s,
       ls_sessions st !! sessionKey (Js.toUpperCase input) = Some s
       /\ ss_is_active s = true
       /\ ls_sessions (snd (LocalRegistry.joinSharedSession userId now input st))
          = <[sessionKey (Js.toUpperCase input) := HostedStore.join_row userId now s]>
              (ls_sessions st).
Proof.
  destruct (ls_sessions st !! sessionKey (Js.toUpperCase input)) as [s |] eqn:Hs.
  - destruct (ss_is_active s) eqn:Ha.
    + right. exists s. rewrite (join_local_found userId now input s st Hs Ha). auto.
    + left. unfold LocalRegistry.joinSharedSession. rewrite Hs, Ha. reflexivity.
  - left. unfold LocalRegistry.joinSharedSession. rewrite Hs. reflexivity.
Qed.

Lemma keyed_registry_op (op : RegistryOp) (st : LocalStorage) :
  keyed_by_code st -> keyed_by_code (run_registry_op op st).
Proof.
  intros Hk. destruct op as [u r uuid created now sessionId perms | u now code | sid h | p];
    cbn [run_registry_op].
  - unfold LocalRegistry.createSharedSession.
    rewrite (surjective_pairing (generateShareCode r)). cbn [fst snd].
    apply (keyed_set_session st
             {| ss_id := uuid;
                ss_session_id := sessionId;
                ss_share_code := fst (generateShareCode r);
                ss_host_user_id := Some u;
                ss_guest_user_id := None;
                ss_permissions := perms;
                ss_is_active := true;
                ss_connected_at := None;
                ss_created_at := created;
                ss_expires_at := (now + day_ms)%Z |} Hk).
  - destruct (join_local_sessions u now code st) as [Heq | (s & Hs & _ & Heq)];
      intros k x; rewrite Heq; [apply Hk |].
    destruct (decide (sessionKey (Js.toUpperCase code) = k)) as [<- | Hne].
    + rewrite lookup_insert_eq. intros [= <-]. simpl. apply (Hk _ _ Hs).
    + rewrite lookup_insert_ne by exact Hne. apply Hk.
  - exact Hk.
  - rewrite run_publish_append. exact Hk.
Qed.

Lemma active_registry_op (op : RegistryOp) (st : LocalStorage) :
  all_active st -> all_active (run_registry_op op st).
Proof.
  intros Ha. destruct op as [u r uuid created now sessionId perms | u now code | sid h | p];
    cbn [run_registry_op].
  - unfold LocalRegistry.createSharedSession.
    rewrite (surjective_pairing (generateShareCode r)). cbn [fst snd].
    intros k x. unfold set_session. simpl.
    destruct (decide (sessionKey (fst (generateShareCode r)) = k)) as [<- | Hne].
    + rewrite lookup_insert_eq. intros [= <-]. reflexivity.
    + rewrite lookup_insert_ne by exact Hne. apply Ha.
  - destruct (join_local_sessions u now code st) as [Heq | (s & Hs & _ & Heq)];
      intros k x; rewrite Heq; [apply Ha |].
    destruct (decide (sessionKey (Js.toUpperCase code) = k)) as [<- | Hne].
    + rewrite lookup_insert_eq. intros [= <-]. reflexivity.
    + rewrite lookup_insert_ne by exact Hne. apply Ha.
  - exact Ha.
  - rewrite run_publish_append. exact Ha.
Qed.

Lemma registry_ops_invariant (ops : list RegistryOp) :
  forall st,
    keyed_by_code st /\ all_active st ->
    keyed_by_code (run_registry_ops ops st) /\ all_active (run_registry_ops ops st).
Proof.
  induction ops as [|op ops IH]; intros st [Hk Ha]; simpl; [auto |].
  apply IH. split; [apply keyed_registry_op, Hk | apply active_registry_op, Ha].
Qed.

(** X9: in local mode, whatever sequence of create, join, end and publish
    calls has run on an initially empty storage, every stored session sits
    under the key of its own share code, stored sessions have pairwise
    different codes, and every stored session is still active: no call
    clears [is_active], so a join never fails with [Session is not
    active]. *)
Theorem local_registry_invariant (ops : list RegistryOp) (userId : string) (now : Z)
    (shareCode : string) :
  keyed_by_code (run_registry_ops ops empty_storage)
  /\ codes_distinct (run_registry_ops ops empty_storage)
  /\ all_active (run_registry_ops ops empty_storage)
  /\ fst (LocalRegistry.joinSharedSession userId now shareCode
            (run_registry_ops ops empty_storage))
     <> Throw (Error "Session is not active").
Proof.
  destruct (registry_ops_invariant ops empty_storage) as [Hk Ha].
  { split; intros k s Hs; simpl in Hs; rewrite lookup_empty in Hs; discriminate Hs. }
  split; [exact Hk |]. split; [apply keyed_codes_distinct, Hk |]. split; [exact Ha |].
  unfold LocalRegistry.joinSharedSession.
  destruct (ls_sessions (run_registry_ops ops empty_storage)
              !! sessionKey (Js.toUpperCase shareCode)) as [s |] eqn:Hs; [| discriminate].
  rewrite (Ha _ _ Hs). discriminate.
Qed.

(** X10: a session created in local mode can be joined at once through
    any input whose upper-casing is the generated code; the join returns
    the id the creation returned, with the caller as guest. *)
Theorem created_session_joinable (host guest : string) (r : Rng) (uuid : string)
    (created now joined : Z) (sessionId input : string) (permissions : Permission)
    (st : LocalStorage) :
  Js.toUpperCase input = fst (generateShareCode r) ->
  exists s s',
    fst (fst (LocalRegistry.createSharedSession host r uuid created now sessionId
                permissions st)) = Ok s
    /\ fst (LocalRegistry.joinSharedSession guest joined input
              (snd (fst (LocalRegistry.createSharedSession host r uuid created now
                           sessionId permissions st))))
       = Ok s'
    /\ ss_id s' = ss_id s
    /\ ss_share_code s' = ss_share_code s
    /\ ss_permissions s' = permissions
    /\ ss_guest_user_id s' = Some guest
    /\ ss_connected_at s' = Some joined.
Proof.
  intros Hin.
  unfold LocalRegistry.createSharedSession.
  rewrite (surjective_pairing (generateShareCode r)). cbn [fst snd].
  remember (fst (generateShareCode r)) as shareCode eqn:Ecode.
  set (s := {| ss_id := uuid;
               ss_session_id := sessionId;
               ss_share_code := shareCode;
               ss_host_user_id := Some host;
               ss_guest_user_id := None;
               ss_permissions := permissions;
               ss_is_active := true;
               ss_connected_at := None;
               ss_created_at := created;
               ss_expires_at := (now + day_ms)%Z |}).
  assert (Hlook : ls_sessions (set_session (sessionKey shareCode) s st)
                    !! sessionKey (Js.toUpperCase input) = Some s).
  { rewrite Hin. unfold set_session. simpl. apply lookup_insert_eq. }
  exists s. eexists. split; [reflexivity |].
  rewrite (join_local_found guest joined input s _ Hlook eq_refl).
  repeat split.
Qed.

Lemma created_session_joinable_witness :
  exists s',
    fst (LocalRegistry.joinSharedSession "bob" 1700000001000 "aaaaaa"
           (snd (fst alice_creates))) = Ok s'
    /\ ss_id s' = "id-a".
Proof.
  destruct (created_session_joinable "alice" "bob" zero_rng "id-a" 1700000000000
              1700000000000 1700000001000 "editor-a" "aaaaaa" Edit empty_storage eq_refl)
    as (s & s' & Hc & Hj & Hid & _).
  exists s'. split; [exact Hj |]. rewrite Hid.
  injection Hc as <-. reflexivity.
Defined.

(** ** The join handler of the panel *)

Lemma trimStart_blank (s : string) :
  Forall (fun c => Js.is_space c = true) (list_ascii_of_string s) -> Js.trimStart s = "".
Proof.
  induction s as [|c s IH]; simpl; [reflexivity |].
  intros H. apply List.Forall_cons_iff in H as [Hc Hs]. rewrite Hc. apply IH, Hs.
Qed.

(** X11: a share code that is empty or consists of white space only never
    reaches the registry: whatever [join] would do, the handler shows
    [Please enter a share code] and the storage is as before.  For any
    other input the handler passes the trimmed code on, and in local mode
    shows the message of the registry when the join fails. *)
Theorem handleJoinSession_blank {St : Type}
    (join : string -> St -> Result SharedSession * St) (shareCode : string) (st : St)
    (userId : string) (now : Z) (other : string) (ls : LocalStorage) :
  Forall (fun c => Js.is_space c = true) (list_ascii_of_string shareCode) ->
  Js.trim other <> "" ->
  QuickAssistPanel.handleJoinSession join shareCode st
    = (QuickAssistPanel.Shown "Please enter a share code", st)
  /\ (forall e ls',
        LocalRegistry.joinSharedSession userId now (Js.trim other) ls = (Throw (Error e), ls') ->
        QuickAssistPanel.handleJoinSession (LocalRegistry.joinSharedSession userId now)
          other ls
        = (QuickAssistPanel.Shown e, ls'))
  /\ (forall s ls',
        LocalRegistry.joinSharedSession userId now (Js.trim other) ls = (Ok s, ls') ->
        QuickAssistPanel.handleJoinSession (LocalRegistry.joinSharedSession userId now)
          other ls
        = (QuickAssistPanel.Started s, ls')).
Proof.
  intros Hblank Hother. split; [| split].
  - unfold QuickAssistPanel.handleJoinSession, Js.trim.
    rewrite (trimStart_blank _ Hblank). reflexivity.
  - intros e ls' Hj. unfold QuickAssistPanel.handleJoinSession.
    apply String.eqb_neq in Hother. rewrite Hother, Hj. reflexivity.
  - intros s ls' Hj. unfold QuickAssistPanel.handleJoinSession.
    apply String.eqb_neq in Hother. rewrite Hother, Hj. reflexivity.
Qed.

Lemma handleJoinSession_blank_witness :
  QuickAssistPanel.handleJoinSession (LocalRegistry.joinSharedSession "bob" 1700000001000)
    "   " (demo_storage true)
  = (QuickAssistPanel.Shown "Please enter a share code", demo_storage true)
  /\ QuickAssistPanel.handleJoinSession (LocalRegistry.joinSharedSession "bob" 1700000001000)
       " zzzzzz" (demo_storage true)
     = (QuickAssistPanel.Shown "Session not found", demo_storage true).
Proof.
  destruct (handleJoinSession_blank (LocalRegistry.joinSharedSession "bob" 1700000001000)
              "   " (demo_storage true) "bob" 1700000001000 " zzzzzz" (demo_storage true))
    as (Hb & He & _).
  - repeat constructor.
  - discriminate.
  - split; [exact Hb |]. apply He. vm_compute. reflexivity.
Defined.

(** ** The debounce of the code-sync effect *)

Lemma codeSyncEffect_open (p : CodeEditor.Props) (armed : bool) :
  SyncTimer.may_publish p = true ->
  exists ss,
    CodeEditor.sharedSession p = Some ss
    /\ CodeEditor.codeSyncEffect p (CodeEditor.mkRefs false armed)
       = (if armed then [CodeEditor.ClearTimeout] else [])
         ++ [CodeEditor.SyncCodeAfter 500 (ss_id ss) (CodeEditor.code p)
               (CodeEditor.language p)].
Proof.
  unfold SyncTimer.may_publish, CodeEditor.codeSyncEffect.
  destruct (CodeEditor.sharedSession p) as [ss |]; [| discriminate].
  intros Hgate. apply negb_true_iff in Hgate. exists ss. simpl. rewrite Hgate. auto.
Qed.

Lemma render_open (st : SyncTimer.State) (t : Z) (p : CodeEditor.Props) :
  SyncTimer.may_publish p = true ->
  (forall due c, SyncTimer.pending st = Some (due, c) -> (t < due)%Z) ->
  SyncTimer.step st (SyncTimer.Render t false p)
  = SyncTimer.mkState (Some ((t + 500)%Z, SyncTimer.call_of p)) true true
      (SyncTimer.published st).
Proof.
  intros Hopen Hdue. unfold SyncTimer.step.
  assert (Hfire : SyncTimer.fire t st = st).
  { unfold SyncTimer.fire. destruct (SyncTimer.pending st) as [[due c] |] eqn:Hp;
      [| reflexivity].
    specialize (Hdue due c eq_refl). destruct (Z.leb_spec due t); [lia | reflexivity]. }
  rewrite Hfire.
  destruct (codeSyncEffect_open p (SyncTimer.ref_set (SyncTimer.cleanup st)) Hopen)
    as (ss & Hss & Heff).
  unfold SyncTimer.effect. rewrite Heff.
  unfold SyncTimer.call_of. rewrite Hss. simpl.
  unfold SyncTimer.cleanup.
  destruct st as [pend rs hc pub]. simpl.
  destruct hc, rs; reflexivity.
Qed.

Lemma burst_state (rs : list (Z * CodeEditor.Props)) :
  forall (st : SyncTimer.State) (t0 : Z) (t : Z) (p : CodeEditor.Props),
    (forall due c, SyncTimer.pending st = Some (due, c) -> (t0 + 500 <= due)%Z) ->
    SyncTimer.burst_from t0 (rs ++ [(t, p)]) ->
    SyncTimer.run (SyncTimer.renders (rs ++ [(t, p)])) st
    = SyncTimer.mkState (Some ((t + 500)%Z, SyncTimer.call_of p)) true true
        (SyncTimer.published st).
Proof.
  induction rs as [|[t1 p1] rs IH]; intros st t0 t p Hdue Hburst.
  - simpl in Hburst. destruct Hburst as (Ht & Hopen & _). simpl.
    apply render_open; [exact Hopen |]. intros due c Hp. specialize (Hdue due c Hp). lia.
  - simpl in Hburst. destruct Hburst as (Ht & Hopen & Hrest).
    cbn [app SyncTimer.renders map SyncTimer.run fold_left fst snd].
    rewrite render_open;
      [| exact Hopen | intros due c Hp; specialize (Hdue due c Hp); lia].
    change (fold_left SyncTimer.step (map (fun tp => SyncTimer.Render tp.1 false tp.2)
                                          (rs ++ [(t, p)])))
      with (SyncTimer.run (SyncTimer.renders (rs ++ [(t, p)]))).
    rewrite (IH _ t1 t p); [reflexivity | | exact Hrest].
    simpl. intros due c [= <- _]. lia.
Qed.

(** X12: the code-sync effect coalesces a burst of local edits.  When a
    participant who may publish edits several times, each edit less than
    500 ms after the one before, no call of [syncCode] is made before 500
    ms have passed since the last edit, and then exactly one is made, with
    the buffer and the language of the last edit. *)
Theorem debounce_publishes_last (rs : list (Z * CodeEditor.Props)) (t0 t T : Z)
    (p : CodeEditor.Props) :
  SyncTimer.burst_from t0 (rs ++ [(t, p)]) ->
  SyncTimer.published
    (SyncTimer.run (SyncTimer.renders (rs ++ [(t, p)]) ++ [SyncTimer.Elapse T])
       SyncTimer.initial)
  = if (t + 500 <=? T)%Z then [SyncTimer.call_of p] else [].
Proof.
  intros Hburst. unfold SyncTimer.run. rewrite fold_left_app.
  change (fold_left SyncTimer.step (SyncTimer.renders (rs ++ [(t, p)])) SyncTimer.initial)
    with (SyncTimer.run (SyncTimer.renders (rs ++ [(t, p)])) SyncTimer.initial).
  rewrite (burst_state rs SyncTimer.initial t0 t p); [| discriminate | exact Hburst].
  simpl. unfold SyncTimer.fire. simpl.
  destruct (t + 500 <=? T)%Z; reflexivity.
Qed.

(** Three edits of the host, 200 ms apart: one publish, of the last
    buffer, once 500 ms have passed. *)
Lemma debounce_publishes_last_witness :
  SyncTimer.published
    (SyncTimer.run
       (SyncTimer.renders
          ([(0%Z, CodeEditor.mkProps (Some (demo_session true)) (Some true) "a" "javascript");
            (200%Z, CodeEditor.mkProps (Some (demo_session true)) (Some true) "ab" "javascript")]
           ++ [(400%Z, CodeEditor.mkProps (Some (demo_session true)) (Some true) "abc"
                         "javascript")])
        ++ [SyncTimer.Elapse 900])
       SyncTimer.initial)
  = [CodeEditor.SyncCode "7f9c2b1e" "abc" "javascript"].
Proof.
  rewrite (debounce_publishes_last
             [(0%Z, CodeEditor.mkProps (Some (demo_session true)) (Some true) "a" "javascript");
              (200%Z, CodeEditor.mkProps (Some (demo_session true)) (Some true) "ab"
                        "javascript")]
             0 400 900
             (CodeEditor.mkProps (Some (demo_session true)) (Some true) "abc" "javascript")).
  - reflexivity.
  - simpl. repeat split; lia.
Defined.



(** ** The request for a suggestion *)

Lemma split_nl_cons (s : string) : exists h t, SuggestionRequest.split_nl s = h :: t.
Proof.
  induction s as [|c s (h & t & IH)]; simpl; [eauto |].
  destruct (Ascii.eqb c SuggestionRequest.newline); [eauto |]. rewrite IH. eauto.
Qed.

(** Joining the lines of a buffer gives the buffer back. *)
Lemma join_split_nl (s : string) :
  SuggestionRequest.join_nl (SuggestionRequest.split_nl s) = s.
Proof.
  induction s as [|c s IH]; [reflexivity |].
  cbn [SuggestionRequest.split_nl].
  destruct (split_nl_cons s) as (h & t & Hs). rewrite Hs in IH |- *.
  destruct (Ascii.eqb_spec c SuggestionRequest.newline) as [-> | Hc].
  - change (SuggestionRequest.join_nl ("" :: h :: t))
      with ("" +:+ String SuggestionRequest.newline (SuggestionRequest.join_nl (h :: t))).
    rewrite IH. reflexivity.
  - destruct t as [|x t]; rewrite <- IH; reflexivity.
Qed.

Lemma slice_whole {A : Type} (start stop : Z) (l : list A) :
  (start <= 0)%Z -> (Z.of_nat (length l) <= stop)%Z -> (0 <= start)%Z ->
  SuggestionRequest.slice start stop l = l.
Proof.
  intros Hs He H0. unfold SuggestionRequest.slice, SuggestionRequest.relative.
  destruct (Z.ltb_spec start 0); [lia |]. destruct (Z.ltb_spec stop 0); [lia |].
  replace (Nat.min (Z.to_nat start) (length l)) with 0%nat by lia.
  replace (Nat.min (Z.to_nat stop) (length l)) with (length l) by lia.
  rewrite drop_0, Nat.sub_0_r. apply firstn_all.
Qed.

(** X15: the request the editor sends for a suggestion.  With the cursor
    on a line of the buffer, the code of the request is a block of
    consecutive lines of the buffer, joined by newlines: between one and
    ten lines, starting four lines above the cursor (or at the top) and
    containing the line of the cursor.  When the buffer ends within five
    lines below a cursor on one of the first five lines, the code of the
    request is the whole buffer. *)
Theorem request_window (currentCode language : string) (lineNumber column : Z)
    (requestType : AIService.RequestType) :
  (1 <= lineNumber <= Z.of_nat (length (SuggestionRequest.split_nl currentCode)))%Z ->
  let lines := SuggestionRequest.split_nl currentCode in
  let cursor := Z.to_nat (lineNumber - 1) in
  let w := SuggestionRequest.surroundingLines lines lineNumber in
  AIService.code (SuggestionRequest.build currentCode language lineNumber column requestType)
    = SuggestionRequest.join_nl w
  /\ w = take (Nat.min (cursor + 6) (length lines) - (cursor - 4)) (drop (cursor - 4) lines)
  /\ (1 <= length w <= 10)%nat
  /\ w !! Nat.min cursor 4 = lines !! cursor
  /\ SuggestionRequest.currentLine lines lineNumber = default "" (lines !! cursor)
  /\ ((lineNumber <= 5)%Z -> (Z.of_nat (length lines) <= lineNumber + 5)%Z ->
      AIService.code
        (SuggestionRequest.build currentCode language lineNumber column requestType)
      = currentCode).
Proof.
  intros Hline lines cursor w.
  assert (Hw : w = take (Nat.min (cursor + 6) (length lines) - (cursor - 4))
                        (drop (cursor - 4) lines)).
  { unfold w, SuggestionRequest.surroundingLines, SuggestionRequest.slice,
      SuggestionRequest.relative.
    destruct (Z.ltb_spec (Z.max 0 (lineNumber - 5)) 0); [lia |].
    destruct (Z.ltb_spec (lineNumber + 5) 0); [lia |].
    fold lines. unfold cursor.
    replace (Nat.min (Z.to_nat (Z.max 0 (lineNumber - 5))) (length lines))
      with (Z.to_nat (lineNumber - 1) - 4)%nat by (unfold lines in *; lia).
    replace (Nat.min (Z.to_nat (lineNumber + 5)) (length lines))
      with (Nat.min (Z.to_nat (lineNumber - 1) + 6) (length lines)) by lia.
    reflexivity. }
  split; [reflexivity |]. split; [exact Hw |].
  assert (Hcur : (cursor < length lines)%nat) by (unfold cursor, lines in *; lia).
  split. { rewrite Hw, length_take, length_drop. lia. }
  split.
  { rewrite Hw, lookup_take_lt by lia. rewrite lookup_drop. f_equal. lia. }
  split.
  { unfold SuggestionRequest.currentLine.
    destruct (Z.ltb_spec (lineNumber - 1) 0); [lia | reflexivity]. }
  intros H5 Hend. simpl. fold lines.
  unfold SuggestionRequest.surroundingLines.
  rewrite slice_whole by lia. apply join_split_nl.
Qed.

Lemma request_window_witness :
  AIService.code
    (SuggestionRequest.build "a
b
c
d
e
f
g
h
i
j
k
l" "javascript" 6 1 AIService.Completion)
  = "b
c
d
e
f
g
h
i
j
k".
Proof.
  destruct (request_window "a
b
c
d
e
f
g
h
i
j
k
l" "javascript" 6 1 AIService.Completion) as (Hcode & _).
  - vm_compute. split; discriminate.
  - rewrite Hcode. vm_compute. reflexivity.
Defined.

(** ** The JSON text in an answer *)

Lemma brace_free_cons (open : bool) (c : ascii) (s : string) :
  brace_free open (String c s) <-> AIService.is_brace open c = false /\ brace_free open s.
Proof. unfold brace_free. simpl. apply List.Forall_cons_iff. Qed.

Lemma from_first_open_None (s : string) :
  AIService.from_first_open s = None <-> brace_free true s.
Proof.
  induction s as [|c s IH]; simpl.
  - split; [constructor | reflexivity].
  - rewrite brace_free_cons. destruct (AIService.is_brace true c).
    + split; [discriminate | intros [H _]; discriminate H].
    + rewrite IH. tauto.
Qed.

Lemma through_last_close_None (s : string) :
  AIService.through_last_close s = None <-> brace_free false s.
Proof.
  induction s as [|c s IH]; simpl.
  - split; [constructor | reflexivity].
  - rewrite brace_free_cons. destruct (AIService.through_last_close s) as [p |].
    + split; [discriminate |]. intros [_ H]. apply IH in H. discriminate H.
    + destruct (AIService.is_brace false c).
      * split; [discriminate | intros [H _]; discriminate H].
      * split; [intros _; split; [reflexivity | apply IH; reflexivity] | reflexivity].
Qed.

Lemma is_brace_eq (open : bool) (c : ascii) :
  AIService.is_brace open c = true -> c = (if open then "{" else "}")%char.
Proof. unfold AIService.is_brace. apply Ascii.eqb_eq. Qed.

Lemma str_app_nil (x : string) : "" +:+ x = x.
Proof. reflexivity. Qed.

Lemma str_app_cons (c : ascii) (a b : string) : String c a +:+ b = String c (a +:+ b).
Proof. reflexivity. Qed.

Lemma from_first_open_Some (s m : string) :
  AIService.from_first_open s = Some m <->
  exists pre r, s = pre +:+ String "{" r /\ m = String "{" r /\ brace_free true pre.
Proof.
  revert m. induction s as [|c s IH]; intros m; simpl.
  - split; [discriminate |]. intros (pre & r & Hs & _).
    destruct pre; rewrite ?str_app_nil, ?str_app_cons in Hs; discriminate Hs.
  - destruct (AIService.is_brace true c) eqn:Hc.
    + apply is_brace_eq in Hc. subst c. split.
      * intros [= <-]. exists "", s. repeat split. constructor.
      * intros (pre & r & Hs & -> & Hfree). destruct pre as [|x pre];
          rewrite ?str_app_nil, ?str_app_cons in Hs; inversion Hs; subst; clear Hs.
        -- reflexivity.
        -- apply brace_free_cons in Hfree as [Hx _]. discriminate Hx.
    + rewrite IH. split.
      * intros (pre & r & -> & -> & Hfree). exists (String c pre), r.
        repeat split. apply brace_free_cons. auto.
      * intros (pre & r & Hs & -> & Hfree). destruct pre as [|x pre];
          rewrite ?str_app_nil, ?str_app_cons in Hs; inversion Hs; subst; clear Hs.
        -- discriminate Hc.
        -- apply brace_free_cons in Hfree as [_ Hfree]. eauto.
Qed.

Lemma through_last_close_Some (s m : string) :
  AIService.through_last_close s = Some m <->
  exists body post, s = body +:+ String "}" post /\ m = body +:+ "}" /\ brace_free false post.
Proof.
  revert m. induction s as [|c s IH]; intros m; simpl.
  - split; [discriminate |]. intros (body & post & Hs & _).
    destruct body; rewrite ?str_app_nil, ?str_app_cons in Hs; discriminate Hs.
  - destruct (AIService.through_last_close s) as [p |] eqn:Hp.
    + split.
      * intros [= <-]. destruct (proj1 (IH p) eq_refl) as (body & post & -> & -> & Hfree).
        exists (String c body), post. auto.
      * intros (body' & post' & Hs & -> & Hfree'). destruct body' as [|x body'];
          rewrite ?str_app_nil, ?str_app_cons in Hs; inversion Hs; subst; clear Hs.
        -- apply through_last_close_None in Hfree'. congruence.
        -- rewrite str_app_cons. f_equal. f_equal.
           assert (Hq : Some p = Some (body' +:+ "}")) by (apply IH; eauto).
           congruence.
    + apply through_last_close_None in Hp. destruct (AIService.is_brace false c) eqn:Hc.
      * apply is_brace_eq in Hc. subst c. split.
        -- intros [= <-]. exists "", s. auto.
        -- intros (body & post & Hs & -> & Hfree). destruct body as [|x body];
             rewrite ?str_app_nil, ?str_app_cons in Hs; inversion Hs; subst; clear Hs.
           ++ reflexivity.
           ++ exfalso. clear -Hp.
              induction body as [|y body IHb]; rewrite ?str_app_nil, ?str_app_cons in Hp;
                apply brace_free_cons in Hp as [Hy Hp]; [discriminate Hy | auto].
      * split; [discriminate |]. intros (body & post & Hs & -> & Hfree). exfalso.
        destruct body as [|x body]; rewrite ?str_app_nil, ?str_app_cons in Hs;
          inversion Hs; subst; clear Hs.
        -- discriminate Hc.
        -- clear -Hp.
           induction body as [|y body IHb]; rewrite ?str_app_nil, ?str_app_cons in Hp;
             apply brace_free_cons in Hp as [Hy Hp]; [discriminate Hy | auto].
Qed.

(** X16: what the regular expression of [getSuggestion] takes from an
    answer.  The match is [m] exactly when the content splits into a part
    without an opening brace, the text [m] that starts with an opening and
    ends with a closing brace, and a part without a closing brace: the
    text from the first opening brace through the last closing brace.  In
    particular a content that is itself such a text is matched whole, and
    there is no match exactly when no closing brace follows the first
    opening one. *)
Theorem json_match_greedy (content m : string) :
  (AIService.json_match content = Some m <->
   exists pre body post,
     content = pre +:+ String "{" (body +:+ String "}" post)
     /\ m = String "{" (body +:+ "}")
     /\ brace_free true pre
     /\ brace_free false post)
  /\ (forall body, AIService.json_match (String "{" (body +:+ "}"))
                   = Some (String "{" (body +:+ "}")))
  /\ (AIService.json_match content = None <->
      brace_free true content
      \/ exists pre r, content = pre +:+ String "{" r
                       /\ brace_free true pre /\ brace_free false r).
Proof.
  assert (Hiff : forall c x,
             AIService.json_match c = Some x <->
             exists pre body post,
               c = pre +:+ String "{" (body +:+ String "}" post)
               /\ x = String "{" (body +:+ "}")
               /\ brace_free true pre
               /\ brace_free false post).
  { intros c x. unfold AIService.json_match. split.
    - destruct (AIService.from_first_open c) as [[|a r] |] eqn:Hf; try discriminate.
      apply from_first_open_Some in Hf as (pre & r' & -> & [= -> ->] & Hpre).
      destruct (AIService.through_last_close r') as [p |] eqn:Ht; [| discriminate].
      apply through_last_close_Some in Ht as (body & post & -> & -> & Hpost).
      intros [= <-]. eauto 8.
    - intros (pre & body & post & -> & -> & Hpre & Hpost).
      assert (Hf : AIService.from_first_open (pre +:+ String "{" (body +:+ String "}" post))
                   = Some (String "{" (body +:+ String "}" post)))
        by (apply from_first_open_Some; eauto).
      rewrite Hf.
      assert (Ht : AIService.through_last_close (body +:+ String "}" post)
                   = Some (body +:+ "}"))
        by (apply through_last_close_Some; eauto).
      rewrite Ht. reflexivity. }
  split; [apply Hiff |]. split.
  - intros body. apply Hiff. exists "", body, "".
    repeat split; constructor.
  - unfold AIService.json_match. split.
    + destruct (AIService.from_first_open content) as [[|a r] |] eqn:Hf.
      * apply from_first_open_Some in Hf as (pre & r' & _ & Habs & _). discriminate Habs.
      * apply from_first_open_Some in Hf as (pre & r' & -> & [= -> ->] & Hpre).
        destruct (AIService.through_last_close r') as [p |] eqn:Ht; [discriminate |].
        intros _. right. exists pre, r'. repeat split; [exact Hpre |].
        apply through_last_close_None, Ht.
      * intros _. left. apply from_first_open_None, Hf.
    + intros [Hfree | (pre & r & -> & Hpre & Hr)].
      * apply from_first_open_None in Hfree. rewrite Hfree. reflexivity.
      * assert (Hf : AIService.from_first_open (pre +:+ String "{" r) = Some (String "{" r))
          by (apply from_first_open_Some; eauto).
        rewrite Hf. apply through_last_close_None in Hr. rewrite Hr. reflexivity.
Qed.

(** ** Settings *)

(** X17: saving stores the trimmed key and hands it to the suggestion
    service; a key of white space only is not saved.  Clearing removes the
    stored key but leaves the key of the service in place: after save and
    clear the service still sends its requests to the backend with the old
    key. *)
Theorem clear_keeps_service_key (st : Settings.State)
    (json_parse : string -> option AIService.Parsed) (request : AIService.AIRequest)
    (net : AIService.Fetch) :
  (Js.trim (Settings.apiKey st) = "" -> Settings.handleSave st = st)
  /\ (Js.trim (Settings.apiKey st) <> "" ->
      Settings.stored (Settings.handleSave st) = Some (Js.trim (Settings.apiKey st))
      /\ Settings.serviceKey (Settings.handleSave st) = Js.trim (Settings.apiKey st)
      /\ Settings.stored (Settings.handleClear (Settings.handleSave st)) = None
      /\ Settings.hasKey (Settings.handleClear (Settings.handleSave st)) = false
      /\ Settings.serviceKey (Settings.handleClear (Settings.handleSave st))
         = Js.trim (Settings.apiKey st)
      /\ AIService.getSuggestion json_parse
           (Settings.serviceKey (Settings.handleClear (Settings.handleSave st))) request net
         = AIService.try_catch (AIService.request_backend json_parse request net)
             (fun _ => AIService.Returns (AIService.getMockResponse request))).
Proof.
  split.
  - intros Hblank. unfold Settings.handleSave. rewrite Hblank. reflexivity.
  - intros Hkey. unfold Settings.handleSave.
    apply String.eqb_neq in Hkey. rewrite Hkey. simpl.
    repeat split. unfold AIService.getSuggestion. rewrite Hkey. reflexivity.
Qed.

Lemma clear_keeps_service_key_witness :
  Settings.serviceKey
    (Settings.handleClear (Settings.handleSave (Settings.mkState " sk-test " false None "")))
  = "sk-test"
  /\ AIService.getSuggestion (fun _ => None)
       (Settings.serviceKey
          (Settings.handleClear
             (Settings.handleSave (Settings.mkState " sk-test " false None ""))))
       demo_request
       (AIService.FetchResponds true "OK"
          (AIService.BodyJson (Some [AIService.Text "use a list comprehension"])))
     = AIService.Returns
         {| AIService.suggestion := Some "use a list comprehension";
            AIService.explanation := Some "AI generated suggestion";
            AIService.issue_detected := None;
            AIService.docstring := None;
            AIService.suggestion_type := AIService.Optimization |}.
Proof.
  destruct (proj2 (clear_keeps_service_key
                     (Settings.mkState " sk-test " false None "") (fun _ => None)
                     demo_request
                     (AIService.FetchResponds true "OK"
                        (AIService.BodyJson (Some [AIService.Text "use a list comprehension"]))))
              ltac:(discriminate))
    as (_ & _ & _ & _ & Hkey & Hget).
  split; [exact Hkey |]. rewrite Hget. reflexivity.
Defined.

(** * The in-memory store *)

Lemma omap_lookup_seq_from {A : Type} (l : list A) :
  forall pre, omap (fun i => (pre ++ l) !! i) (seq (length pre) (length l)) = l.
Proof.
  induction l as [|x l IH]; intros pre; [reflexivity |].
  cbn [length seq omap list_omap].
  rewrite list_lookup_middle by reflexivity. f_equal.
  specialize (IH (pre ++ [x])). rewrite <- app_assoc, length_app in IH.
  simpl in IH. rewrite Nat.add_1_r in IH. exact IH.
Qed.

Lemma omap_lookup_seq {A : Type} (l : list A) :
  omap (fun i => l !! i) (seq 0 (length l)) = l.
Proof. apply (omap_lookup_seq_from l []). Qed.

Lemma single_select (q : MockDb.Chain * list MockDb.Row) :
  MockDb.single (MockDb.select q) = head (snd q).
Proof. unfold MockDb.single, MockDb.select. simpl. rewrite omap_lookup_seq. reflexivity. Qed.

(** X18: in the in-memory store, [db.sessions.create] appends the new
    row, with the given id, with the project name or [undefined] under
    [project_name] and with both counters at 0, and then answers
    with the first row of the table: the new row when the table was empty,
    the oldest session otherwise. *)
Theorem sessions_create_returns_first (language : string) (projectName : option string)
    (started id now : string) (st : MockDb.Store) :
  exists new,
    MockDb.sessions_create language projectName started id now st
      = (head (MockDb.sessions st ++ [new]),
         MockDb.with_sessions (MockDb.sessions st ++ [new]) st)
    /\ new !! "id" = Some (MockDb.VStr id)
    /\ new !! "language" = Some (MockDb.VStr language)
    /\ new !! "project_name" = Some (MockDb.of_option (MockDb.VStr <$> projectName))
    /\ new !! "total_suggestions" = Some (MockDb.VNum 0)
    /\ new !! "accepted_suggestions" = Some (MockDb.VNum 0)
    /\ (MockDb.sessions st = [] ->
        fst (MockDb.sessions_create language projectName started id now st) = Some new)
    /\ (forall first rest,
          MockDb.sessions st = first :: rest ->
          fst (MockDb.sessions_create language projectName started id now st) = Some first).
Proof.
  eexists. split.
  { unfold MockDb.sessions_create. rewrite single_select.
    unfold MockDb.insert_. cbn [fst snd imap]. reflexivity. }
  unfold MockDb.insert_defaults.
  split. { destruct projectName; simpl; simplify_map_eq; reflexivity. }
  split. { destruct projectName; simpl; simplify_map_eq; reflexivity. }
  split. { destruct projectName; simpl; simplify_map_eq; reflexivity. }
  split. { destruct projectName; simpl; simplify_map_eq; reflexivity. }
  split. { destruct projectName; simpl; simplify_map_eq; reflexivity. }
  split.
  - intros Hempty. unfold MockDb.sessions_create. rewrite single_select.
    unfold MockDb.insert_. cbn [fst snd imap]. rewrite Hempty. reflexivity.
  - intros first rest Hrows. unfold MockDb.sessions_create. rewrite single_select.
    unfold MockDb.insert_. cbn [fst snd imap]. rewrite Hrows. reflexivity.
Qed.

Lemma fold_alter_lookup {A : Type} (f : A -> A) (idxs : list nat) :
  NoDup idxs ->
  forall (t : list A) (j : nat),
    fold_left (fun t i => alter f i t) idxs t !! j
    = if bool_decide (j ∈ idxs) then f <$> t !! j else t !! j.
Proof.
  induction 1 as [|i idxs Hi Hnd IH]; intros t j; simpl; [reflexivity |].
  rewrite IH. destruct (decide (j = i)) as [-> | Hne].
  - rewrite (bool_decide_eq_false_2 _ Hi), (bool_decide_eq_true_2 (i ∈ i :: idxs))
      by (left).
    apply list_lookup_alter_eq.
  - rewrite list_lookup_alter_ne by congruence.
    destruct (decide (j ∈ idxs)) as [Hin | Hnin].
    + rewrite (bool_decide_eq_true_2 _ Hin), (bool_decide_eq_true_2 (j ∈ i :: idxs))
        by (right; exact Hin).
      reflexivity.
    + rewrite (bool_decide_eq_false_2 _ Hnin), (bool_decide_eq_false_2 (j ∈ i :: idxs));
        [reflexivity |].
      intros Hc. apply elem_of_cons in Hc as [Hc | Hc]; contradiction.
Qed.

Lemma assign_filtered {A : Type} (f : A -> A) (P : A -> bool) (t : list A) :
  fold_left (fun t i => alter f i t)
    (List.filter (fun i => match t !! i with Some r => P r | None => false end)
                 (seq 0 (length t))) t
  = map (fun r => if P r then f r else r) t.
Proof.
  apply list_eq. intros j.
  rewrite fold_alter_lookup.
  - rewrite list_lookup_fmap. destruct (t !! j) as [r |] eqn:Hj; simpl.
    + destruct (P r) eqn:HP.
      * rewrite bool_decide_eq_true_2; [reflexivity |].
        apply list_elem_of_In, filter_In. rewrite Hj. split; [| exact HP].
        apply in_seq. apply lookup_lt_Some in Hj. lia.
      * rewrite bool_decide_eq_false_2; [reflexivity |].
        intros Hin. apply list_elem_of_In, filter_In in Hin as [_ Hin].
        rewrite Hj in Hin. congruence.
    + destruct (bool_decide _); reflexivity.
  - apply NoDup_ListNoDup, List.NoDup_filter, NoDup_ListNoDup, NoDup_seq.
Qed.

(** The table after [update(u).eq(col, val)]. *)
Lemma update_eq_table (u : MockDb.Row) (col : string) (val : MockDb.Val)
    (tbl : list MockDb.Row) :
  snd (MockDb.eq_ col val (MockDb.update u (MockDb.from, tbl)))
  = map (fun r => if MockDb.matches col val r then u ∪ r else r) tbl.
Proof.
  unfold MockDb.eq_, MockDb.update, MockDb.from. simpl.
  apply (assign_filtered (fun row => u ∪ row) (MockDb.matches col val) tbl).
Qed.

Lemma head_filtered_from {A : Type} (P : A -> bool) (l : list A) :
  forall pre,
    head (omap (fun i => (pre ++ l) !! i)
            (List.filter (fun i => match (pre ++ l) !! i with
                                   | Some r => P r
                                   | None => false
                                   end)
                         (seq (length pre) (length l))))
    = List.find P l.
Proof.
  induction l as [|x l IH]; intros pre; [reflexivity |].
  cbn [length seq List.filter List.find].
  rewrite list_lookup_middle by reflexivity.
  specialize (IH (pre ++ [x])). rewrite <- app_assoc, length_app in IH.
  simpl in IH. rewrite Nat.add_1_r in IH.
  destruct (P x).
  - cbn [omap list_omap]. rewrite list_lookup_middle by reflexivity. reflexivity.
  - exact IH.
Qed.

(** The answer of [select().eq(col, val).maybeSingle()]. *)
Lemma select_eq_single (col : string) (val : MockDb.Val) (tbl : list MockDb.Row) :
  MockDb.single (MockDb.eq_ col val (MockDb.select (MockDb.from, tbl)))
  = List.find (MockDb.matches col val) tbl.
Proof.
  unfold MockDb.eq_, MockDb.select, MockDb.from, MockDb.single. simpl.
  apply (head_filtered_from (MockDb.matches col val) tbl []).
Qed.

Lemma strict_eq_true (a b : MockDb.Val) : MockDb.strict_eq a b = true -> a = b.
Proof.
  destruct a, b; simpl; try discriminate; try reflexivity.
  - intros H. apply Bool.eqb_prop in H. congruence.
  - intros H. apply Z.eqb_eq in H. congruence.
  - intros H. apply String.eqb_eq in H. congruence.
Qed.

Lemma strict_eq_str (a b : string) :
  MockDb.strict_eq (MockDb.VStr a) (MockDb.VStr b) = String.eqb a b.
Proof. reflexivity. Qed.

Lemma matches_id (id : string) (r : MockDb.Row) :
  MockDb.matches "id" (MockDb.VStr id) r = true <-> r !! "id" = Some (MockDb.VStr id).
Proof.
  unfold MockDb.matches, MockDb.get.
  destruct (r !! "id") as [v |]; simpl; [| split; discriminate].
  split.
  - intros H. apply strict_eq_true in H. congruence.
  - intros [= ->]. simpl. apply String.eqb_refl.
Qed.

Lemma matches_union_keep (u r : MockDb.Row) (col : string) (val : MockDb.Val) :
  u !! col = None -> MockDb.matches col val (u ∪ r) = MockDb.matches col val r.
Proof.
  intros Hu. unfold MockDb.matches, MockDb.get.
  rewrite lookup_union_r by exact Hu. reflexivity.
Qed.

Lemma find_update (u : MockDb.Row) (id id' : string) (tbl : list MockDb.Row) :
  u !! "id" = None ->
  List.find (MockDb.matches "id" (MockDb.VStr id'))
    (map (fun r => if MockDb.matches "id" (MockDb.VStr id) r then u ∪ r else r) tbl)
  = (fun r => if MockDb.matches "id" (MockDb.VStr id) r then u ∪ r else r)
      <$> List.find (MockDb.matches "id" (MockDb.VStr id')) tbl.
Proof.
  intros Hu. induction tbl as [|r tbl IH]; simpl; [reflexivity |].
  destruct (MockDb.matches "id" (MockDb.VStr id) r) eqn:Hm.
  - rewrite (matches_union_keep u r _ _ Hu).
    destruct (MockDb.matches "id" (MockDb.VStr id') r); [simpl; rewrite Hm; reflexivity |].
    exact IH.
  - destruct (MockDb.matches "id" (MockDb.VStr id') r); [simpl; rewrite Hm; reflexivity |].
    exact IH.
Qed.

(** X19: [db.sessions.update] and [db.sessions.get] in the in-memory
    store.  The update merges the given properties into every session row
    with the given id and leaves the other rows and the length of the table
    as they are.  When the update does not change the id, a later get of
    this id answers with the row found before, merged with the update, and
    a get of any other id answers as before. *)
Theorem sessions_update_get (id id' : string) (u : MockDb.Row) (st : MockDb.Store) :
  u !! "id" = None ->
  id' <> id ->
  MockDb.sessions (MockDb.sessions_update id u st)
    = map (fun r => if MockDb.matches "id" (MockDb.VStr id) r then u ∪ r else r)
          (MockDb.sessions st)
  /\ length (MockDb.sessions (MockDb.sessions_update id u st))
     = length (MockDb.sessions st)
  /\ MockDb.sessions_get id (MockDb.sessions_update id u st)
     = (fun r => u ∪ r) <$> MockDb.sessions_get id st
  /\ MockDb.sessions_get id' (MockDb.sessions_update id u st)
     = MockDb.sessions_get id' st
  /\ (MockDb.suggestions (MockDb.sessions_update id u st),
      MockDb.metrics (MockDb.sessions_update id u st),
      MockDb.code_context (MockDb.sessions_update id u st))
     = (MockDb.suggestions st, MockDb.metrics st, MockDb.code_context st).
Proof.
  intros Hu Hne.
  assert (Htbl : MockDb.sessions (MockDb.sessions_update id u st)
                 = map (fun r => if MockDb.matches "id" (MockDb.VStr id) r then u ∪ r else r)
                       (MockDb.sessions st)).
  { unfold MockDb.sessions_update. simpl. apply update_eq_table. }
  split; [exact Htbl |]. split; [rewrite Htbl; apply length_map |].
  unfold MockDb.sessions_get. rewrite !select_eq_single, Htbl, !(find_update u _ _ _ Hu).
  split; [| split; [| reflexivity]].
  - destruct (List.find _ (MockDb.sessions st)) as [r |] eqn:Hf; [| reflexivity].
    apply find_some in Hf as [_ Hm]. simpl. rewrite Hm. reflexivity.
  - destruct (List.find _ (MockDb.sessions st)) as [r |] eqn:Hf; [| reflexivity].
    apply find_some in Hf as [_ Hm]. simpl.
    destruct (MockDb.matches "id" (MockDb.VStr id) r) eqn:Hm'; [| reflexivity].
    apply matches_id in Hm, Hm'. congruence.
Qed.

Lemma sessions_update_get_witness :
  MockDb.sessions_get "s-1"
    (MockDb.sessions_update "s-1" {[ "language" := MockDb.VStr "python" ]}
       (snd (MockDb.sessions_create "javascript" None "2023-11-14T22:13:20.000Z" "s-1"
               "2023-11-14T22:13:20.000Z" (MockDb.mkStore [] [] [] []))))
  = (fun r => {[ "language" := MockDb.VStr "python" ]} ∪ r)
      <$> MockDb.sessions_get "s-1"
            (snd (MockDb.sessions_create "javascript" None "2023-11-14T22:13:20.000Z" "s-1"
                    "2023-11-14T22:13:20.000Z" (MockDb.mkStore [] [] [] []))).
Proof.
  assert (Hu : ({[ "language" := MockDb.VStr "python" ]} : MockDb.Row) !! "id" = None)
    by (apply lookup_singleton_ne; discriminate).
  assert (Hne : "s-2" <> "s-1") by discriminate.
  destruct (sessions_update_get "s-1" "s-2" {[ "language" := MockDb.VStr "python" ]}
              (snd (MockDb.sessions_create "javascript" None "2023-11-14T22:13:20.000Z"
                      "s-1" "2023-11-14T22:13:20.000Z" (MockDb.mkStore [] [] [] [])))
              Hu Hne) as (_ & _ & Hget & _).
  exact Hget.
Defined.

(** X20: in a chain [update(u).eq(c1, v1).eq(c2, v2)] of the in-memory
    store the update is applied at the first [eq]: every row that matches
    [c1] is changed, whether or not it matches [c2]; the second [eq] only
    narrows the rows the chain answers with. *)
Theorem second_eq_does_not_limit_update (u : MockDb.Row) (c1 c2 : string)
    (v1 v2 : MockDb.Val) (tbl : list MockDb.Row) (r : MockDb.Row) :
  In r tbl ->
  MockDb.matches c1 v1 r = true ->
  snd (MockDb.eq_ c2 v2 (MockDb.eq_ c1 v1 (MockDb.update u (MockDb.from, tbl))))
    = map (fun x => if MockDb.matches c1 v1 x then u ∪ x else x) tbl
  /\ In (u ∪ r)
        (snd (MockDb.eq_ c2 v2 (MockDb.eq_ c1 v1 (MockDb.update u (MockDb.from, tbl))))).
Proof.
  intros Hin Hm.
  assert (Htbl : snd (MockDb.eq_ c2 v2 (MockDb.eq_ c1 v1 (MockDb.update u (MockDb.from, tbl))))
                 = map (fun x => if MockDb.matches c1 v1 x then u ∪ x else x) tbl).
  { rewrite <- (update_eq_table u c1 v1 tbl).
    destruct (MockDb.eq_ c1 v1 (MockDb.update u (MockDb.from, tbl))) as [ch t] eqn:He.
    assert (Hupd : MockDb.c_updates ch = None).
    { unfold MockDb.eq_, MockDb.update, MockDb.from in He. simpl in He.
      injection He as <- _. reflexivity. }
    unfold MockDb.eq_. rewrite Hupd. reflexivity. }
  split; [exact Htbl |]. rewrite Htbl. apply in_map_iff. exists r. rewrite Hm. auto.
Qed.

Lemma second_eq_does_not_limit_update_witness :
  snd (MockDb.eq_ "is_active" (MockDb.VBool true)
         (MockDb.eq_ "share_code" (MockDb.VStr "AB3K9Q")
            (MockDb.update {[ "guest_user_id" := MockDb.VStr "bob" ]}
               (MockDb.from,
                [ {[ "share_code" := MockDb.VStr "AB3K9Q";
                     "is_active" := MockDb.VBool false ]} ]))))
  = [ {[ "guest_user_id" := MockDb.VStr "bob" ]}
      ∪ {[ "share_code" := MockDb.VStr "AB3K9Q"; "is_active" := MockDb.VBool false ]} ].
Proof.
  assert (Hm : MockDb.matches "share_code" (MockDb.VStr "AB3K9Q")
                 {[ "share_code" := MockDb.VStr "AB3K9Q";
                    "is_active" := MockDb.VBool false ]} = true)
    by (vm_compute; reflexivity).
  rewrite (proj1 (second_eq_does_not_limit_update
                    {[ "guest_user_id" := MockDb.VStr "bob" ]} "share_code" "is_active"
                    (MockDb.VStr "AB3K9Q") (MockDb.VBool true)
                    [ {[ "share_code" := MockDb.VStr "AB3K9Q";
                         "is_active" := MockDb.VBool false ]} ]
                    {[ "share_code" := MockDb.VStr "AB3K9Q";
                       "is_active" := MockDb.VBool false ]}
                    (or_introl eq_refl) Hm)).
  cbn [map]. rewrite Hm. reflexivity.
Defined.

Lemma sessions_get_find (id : string) (st : MockDb.Store) :
  MockDb.sessions_get id st
  = List.find (MockDb.matches "id" (MockDb.VStr id)) (MockDb.sessions st).
Proof. unfold MockDb.sessions_get. apply select_eq_single. Qed.

Lemma update_then_get (id : string) (u : MockDb.Row) (st : MockDb.Store) :
  u !! "id" = None ->
  MockDb.sessions_get id (MockDb.sessions_update id u st)
  = (fun r => u ∪ r) <$> MockDb.sessions_get id st.
Proof.
  intros Hu.
  assert (Htbl : MockDb.sessions (MockDb.sessions_update id u st)
                 = map (fun r => if MockDb.matches "id" (MockDb.VStr id) r then u ∪ r else r)
                       (MockDb.sessions st)).
  { unfold MockDb.sessions_update. simpl. apply update_eq_table. }
  rewrite !sessions_get_find, Htbl, (find_update u _ _ _ Hu).
  destruct (List.find _ (MockDb.sessions st)) as [r |] eqn:Hf; [| reflexivity].
  apply find_some in Hf as [_ Hm]. simpl. rewrite Hm. reflexivity.
Qed.

Lemma increment_found (id : string) (accepted : bool) (st : MockDb.Store)
    (row : MockDb.Row) (a b : Z) :
  MockDb.sessions_get id st = Some row ->
  row !! "total_suggestions" = Some (MockDb.VNum a) ->
  row !! "accepted_suggestions" = Some (MockDb.VNum b) ->
  exists row',
    MockDb.sessions_get id (MockDb.incrementSuggestions id accepted st) = Some row'
    /\ row' !! "total_suggestions" = Some (MockDb.VNum (a + 1))
    /\ row' !! "accepted_suggestions"
       = Some (MockDb.VNum (if accepted then b + 1 else b))
    /\ (forall k, k <> "total_suggestions" -> k <> "accepted_suggestions" ->
          row' !! k = row !! k).
Proof.
  intros Hget Ha Hb. unfold MockDb.incrementSuggestions, MockDb.get.
  rewrite Hget, Ha, Hb.
  match goal with
  | |- context [MockDb.sessions_update id ?x st] => set (u := x)
  end.
  assert (Hid : u !! "id" = None).
  { unfold u. rewrite lookup_insert_ne by discriminate.
    apply lookup_singleton_ne. discriminate. }
  rewrite (update_then_get id u st Hid), Hget. simpl. eexists. split; [reflexivity |].
  split; [| split].
  - apply lookup_union_Some_l. unfold u. rewrite lookup_insert_eq. reflexivity.
  - apply lookup_union_Some_l. unfold u. rewrite lookup_insert_ne by discriminate.
    rewrite lookup_singleton_eq. destruct accepted; reflexivity.
  - intros k Hk1 Hk2. apply lookup_union_r. unfold u.
    rewrite lookup_insert_ne by congruence. apply lookup_singleton_ne. congruence.
Qed.

(** X21: the counters of a session in the in-memory store.  For a session
    whose counters are numbers, [incrementSuggestions] called once per
    flag raises [total_suggestions] by the number of calls and
    [accepted_suggestions] by the number of accepted ones, and changes no
    other property of the session; for an id that is not in the table it
    does nothing. *)
Theorem incrementSuggestions_counts (id : string) (flags : list bool) :
  forall (st : MockDb.Store) (row : MockDb.Row) (a b : Z),
    MockDb.sessions_get id st = Some row ->
    row !! "total_suggestions" = Some (MockDb.VNum a) ->
    row !! "accepted_suggestions" = Some (MockDb.VNum b) ->
    (exists row',
       MockDb.sessions_get id
         (fold_left (fun s f => MockDb.incrementSuggestions id f s) flags st)
       = Some row'
       /\ row' !! "total_suggestions"
          = Some (MockDb.VNum (a + Z.of_nat (length flags)))
       /\ row' !! "accepted_suggestions"
          = Some (MockDb.VNum (b + Z.of_nat (length (List.filter (fun f => f) flags))))
       /\ (forall k, k <> "total_suggestions" -> k <> "accepted_suggestions" ->
             row' !! k = row !! k))
    /\ (forall other accepted,
          MockDb.sessions_get other st = None ->
          MockDb.incrementSuggestions other accepted st = st).
Proof.
  induction flags as [|f flags IH]; intros st row a b Hget Ha Hb.
  - split.
    + exists row. simpl. rewrite Z.add_0_r, Z.add_0_r. auto.
    + intros other accepted Hnone. unfold MockDb.incrementSuggestions.
      rewrite Hnone. reflexivity.
  - split.
    + destruct (increment_found id f st row a b Hget Ha Hb) as (r1 & Hg1 & Ha1 & Hb1 & Hk1).
      destruct (IH _ r1 _ _ Hg1 Ha1 Hb1) as [(row' & Hg & Ha' & Hb' & Hk) _].
      exists row'. cbn [fold_left]. split; [exact Hg |]. split; [| split].
      * rewrite Ha'. do 2 f_equal. cbn [length]. lia.
      * rewrite Hb'. do 2 f_equal. destruct f; cbn [List.filter length]; lia.
      * intros k H1 H2. rewrite (Hk k H1 H2). apply Hk1; assumption.
    + intros other accepted Hnone. unfold MockDb.incrementSuggestions.
      rewrite Hnone. reflexivity.
Qed.

(** A new session, three suggestions of which two are accepted. *)
Lemma incrementSuggestions_counts_witness :
  exists row',
    MockDb.sessions_get "s-1"
      (fold_left (fun s f => MockDb.incrementSuggestions "s-1" f s) [true; false; true]
         (snd (MockDb.sessions_create "javascript" None "2023-11-14T22:13:20.000Z" "s-1"
                 "2023-11-14T22:13:20.000Z" (MockDb.mkStore [] [] [] []))))
    = Some row'
    /\ row' !! "total_suggestions" = Some (MockDb.VNum 3)
    /\ row' !! "accepted_suggestions" = Some (MockDb.VNum 2).
Proof.
  destruct (incrementSuggestions_counts "s-1" [true; false; true]
              (snd (MockDb.sessions_create "javascript" None "2023-11-14T22:13:20.000Z"
                      "s-1" "2023-11-14T22:13:20.000Z" (MockDb.mkStore [] [] [] [])))
              ({[ "language" := MockDb.VStr "javascript";
                  "project_name" := MockDb.VUndef;
                  "started_at" := MockDb.VStr "2023-11-14T22:13:20.000Z" ]}
               ∪ MockDb.insert_defaults "s-1" "2023-11-14T22:13:20.000Z")
              0 0)
    as [(row' & Hg & Ha & Hb & _) _].
  - rewrite sessions_get_find. reflexivity.
  - reflexivity.
  - reflexivity.
  - exists row'. auto.
Defined.






Lemma findIndex_None {A : Type} (f : A -> bool) (l : list A) :
  MockDb.findIndex f l = None <-> Forall (fun x => f x = false) l.
Proof.
  induction l as [|a l IH]; simpl.
  - split; auto.
  - destruct (f a) eqn:Hfa.
    + split; [discriminate |]. intros H. inversion H; congruence.
    + destruct (MockDb.findIndex f l) eqn:Hk; simpl.
      * split; [discriminate |]. intros H. inversion H; subst.
        apply IH in H3. discriminate.
      * split; auto. intros _. constructor; [assumption | apply IH; reflexivity].
Qed.







Lemma union_absorb (r old : MockDb.Row) : r ∪ (r ∪ old) = r ∪ old.
Proof. rewrite (assoc_L (∪)), (idemp_L (∪)). reflexivity. Qed.



Lemma metrics_upsert_unfold (metric : MockDb.Row) (updated id now : string)
    (st : MockDb.Store) :
  MockDb.metrics (MockDb.metrics_upsert metric updated id now st)
  = MockDb.upsert_row id now (MockDb.metrics st)
      (<["updated_at" := MockDb.VStr updated]> metric).
Proof. reflexivity. Qed.









(** X23: a metric that has no [date] property or no [language] property
    is never matched by the upsert: every call appends one more row, under
    a fresh id, whatever the table holds.  (A property that is there and
    holds [undefined] is another matter: such a metric is matched by its
    own row.) *)
Theorem metrics_upsert_without_key_appends (metric : MockDb.Row)
    (updated id now : string) (st : MockDb.Store) :
  metric !! "date" = None \/ metric !! "language" = None ->
  MockDb.metrics (MockDb.metrics_upsert metric updated id now st)
  = MockDb.metrics st
    ++ [<["updated_at" := MockDb.VStr updated]> metric
        ∪ {[ "id" := MockDb.VStr id; "created_at" := MockDb.VStr now ]}].
Proof.
  intros Hmiss. rewrite metrics_upsert_unfold. unfold MockDb.upsert_row.
  replace (MockDb.findIndex _ (MockDb.metrics st)) with (@None nat); [reflexivity |].
  symmetry. apply findIndex_None. apply Forall_forall. intros x _.
  unfold MockDb.matchCompositeKey.
  rewrite !lookup_insert_ne by discriminate.
  destruct Hmiss as [-> | ->]; destruct (x !! "date"), (x !! "language");
    try reflexivity; destruct (metric !! "date"); reflexivity.
Qed.

(** Two saves of a metric that has no date leave two rows. *)
Lemma metrics_upsert_without_key_appends_witness :
  let metric : MockDb.Row := {[ "language" := MockDb.VStr "javascript" ]} in
  length (MockDb.metrics
            (MockDb.metrics_upsert metric "u" "m-2" "t"
               (MockDb.metrics_upsert metric "u" "m-1" "t" (MockDb.mkStore [] [] [] []))))
  = 2%nat.
Proof.
  intros metric.
  rewrite (metrics_upsert_without_key_appends metric "u" "m-2" "t" _ (or_introl eq_refl)).
  rewrite (metrics_upsert_without_key_appends metric "u" "m-1" "t" _ (or_introl eq_refl)).
  reflexivity.
Defined.

(** A metric whose [date] holds [undefined], saved twice: the second save
    finds the row of the first. *)
Example metrics_upsert_undefined_date :
  let metric : MockDb.Row :=
    {[ "date" := MockDb.VUndef; "language" := MockDb.VStr "javascript" ]} in
  length (MockDb.metrics
            (MockDb.metrics_upsert metric "u" "m-2" "t"
               (MockDb.metrics_upsert metric "u" "m-1" "t" (MockDb.mkStore [] [] [] []))))
  = 1%nat.
Proof. vm_compute. reflexivity. Qed.

Lemma closed_true (w : nat) (st : WindowShare.State) :
  WindowShare.closed w st = true <-> w ∈ WindowShare.closedWins st.
Proof. unfold WindowShare.closed. apply bool_decide_eq_true. Qed.

Lemma closed_false (w : nat) (st : WindowShare.State) :
  WindowShare.closed w st = false <-> w ∉ WindowShare.closedWins st.
Proof. unfold WindowShare.closed. apply bool_decide_eq_false. Qed.

Lemma close_if_open_fields (win : option nat) (st : WindowShare.State) :
  WindowShare.sharedWindows (WindowShare.close_if_open win st) = WindowShare.sharedWindows st
  /\ WindowShare.monitors (WindowShare.close_if_open win st) = WindowShare.monitors st
  /\ WindowShare.next_monitor (WindowShare.close_if_open win st)
     = WindowShare.next_monitor st
  /\ WindowShare.posted (WindowShare.close_if_open win st) = WindowShare.posted st.
Proof.
  destruct win as [w |]; simpl; [| auto].
  destruct (WindowShare.closed w st); auto.
Qed.

Lemma close_if_open_closed (win : option nat) (st : WindowShare.State) (w : nat) :
  w ∈ WindowShare.closedWins (WindowShare.close_if_open win st)
  <-> w ∈ WindowShare.closedWins st \/ win = Some w.
Proof.
  destruct win as [w' |]; simpl.
  - destruct (WindowShare.closed w' st) eqn:Hc.
    + apply closed_true in Hc. split; [auto |]. intros [H | [= ->]]; assumption.
    + simpl. rewrite elem_of_union, elem_of_singleton.
      split; [intros [-> | H]; auto | intros [H | [= ->]]; auto].
  - split; [auto | intros [H | H]; [assumption | discriminate]].
Qed.

Lemma closeAll_fold (m : gmap string nat) (st : WindowShare.State) :
  let s := map_fold (fun _ w s => WindowShare.close_if_open (Some w) s) st m in
  WindowShare.monitors s = WindowShare.monitors st
  /\ WindowShare.next_monitor s = WindowShare.next_monitor st
  /\ WindowShare.posted s = WindowShare.posted st
  /\ forall w, w ∈ WindowShare.closedWins s
               <-> w ∈ WindowShare.closedWins st \/ exists c, m !! c = Some w.
Proof.
  cbv zeta.
  apply (map_fold_weak_ind
           (fun s m =>
              WindowShare.monitors s = WindowShare.monitors st
              /\ WindowShare.next_monitor s = WindowShare.next_monitor st
              /\ WindowShare.posted s = WindowShare.posted st
              /\ forall w, w ∈ WindowShare.closedWins s
                           <-> w ∈ WindowShare.closedWins st \/ exists c, m !! c = Some w)).
  - repeat split; auto.
    + intros [H | [c Hc]]; [assumption |]. rewrite lookup_empty in Hc. discriminate.
  - intros c x m' r Hnone (Hm & Hn & Hp & Hw).
    destruct (close_if_open_fields (Some x) r) as (_ & Hm' & Hn' & Hp').
    rewrite Hm', Hn', Hp'. repeat split; auto.
    + intros H. apply close_if_open_closed in H as [H | [= ->]].
      * apply Hw in H as [H | [c' Hc']]; [auto |]. right. exists c'.
        rewrite lookup_insert_ne; [assumption |]. intros ->. congruence.
      * right. exists c. apply lookup_insert_eq.
    + intros H. apply close_if_open_closed.
      destruct H as [H | [c' Hc']].
      * left. apply Hw. auto.
      * destruct (decide (c' = c)) as [-> | Hne].
        -- rewrite lookup_insert_eq in Hc'. right. congruence.
        -- rewrite lookup_insert_ne in Hc' by congruence. left. apply Hw. eauto.
Qed.

Lemma closeAllWindows_closed (st : WindowShare.State) (w : nat) :
  w ∈ WindowShare.closedWins (WindowShare.closeAllWindows st)
  <-> w ∈ WindowShare.closedWins st \/ exists c, WindowShare.sharedWindows st !! c = Some w.
Proof.
  unfold WindowShare.closeAllWindows. cbn [WindowShare.closedWins].
  apply (closeAll_fold (WindowShare.sharedWindows st) st).
Qed.

Lemma checkClosed_closed_window (i : positive) (st : WindowShare.State)
    (m : WindowShare.Monitor) :
  WindowShare.monitors st !! i = Some m ->
  WindowShare.closed (WindowShare.m_window m) st = true ->
  WindowShare.checkClosed i st
  = WindowShare.mkState (delete (WindowShare.m_shareCode m) (WindowShare.sharedWindows st))
      (WindowShare.closedWins st) (delete i (WindowShare.monitors st))
      (WindowShare.next_monitor st) (WindowShare.posted st).
Proof. intros Hi Hc. unfold WindowShare.checkClosed. rewrite Hi, Hc. reflexivity. Qed.

(** X24: opening the editor window of a share code a second time loses the
    new window.  The second [openEditorWindow] closes the first window and
    maps the share code to the new one, but the interval that watches the
    first window is still running: when it fires it finds its window closed
    and deletes the entry of the share code, which by then is the new
    window's.  From then on the service has no handle on the new window:
    it stays open, no message reaches it, and neither [closeWindow] nor
    [closeAllWindows] closes it. *)
Theorem reopen_orphans_window (st : WindowShare.State) (shareCode : string)
    (w1 w2 : nat) (message : WindowShare.Message) :
  w2 <> w1 ->
  WindowShare.closed w2 st = false ->
  (forall c, WindowShare.sharedWindows st !! c <> Some w2) ->
  let s1 := snd (WindowShare.openEditorWindow shareCode (WindowShare.Handle w1) st) in
  let s2 := snd (WindowShare.openEditorWindow shareCode (WindowShare.Handle w2) s1) in
  let s3 := WindowShare.checkClosed (WindowShare.next_monitor st) s2 in
  WindowShare.sharedWindows s2 !! shareCode = Some w2
  /\ WindowShare.sharedWindows s3 !! shareCode = None
  /\ WindowShare.closed w2 s3 = false
  /\ WindowShare.postMessageToWindow shareCode message s3 = s3
  /\ WindowShare.closed w2 (WindowShare.closeWindow shareCode s3) = false
  /\ WindowShare.closed w2 (WindowShare.closeAllWindows s3) = false.
Proof.
  intros Hne Hopen Hnew s1 s2 s3.
  set (e0 := WindowShare.sharedWindows st !! shareCode).
  set (t0 := WindowShare.close_if_open e0 st).
  destruct (close_if_open_fields e0 st) as (Hsw0 & Hmon0 & Hnext0 & Hpost0). fold t0 in Hsw0, Hmon0, Hnext0, Hpost0.
  assert (Hs1 : s1 = WindowShare.mkState (<[shareCode := w1]> (WindowShare.sharedWindows st))
                       (WindowShare.closedWins t0)
                       (<[WindowShare.next_monitor st := WindowShare.mkMonitor w1 shareCode]>
                          (WindowShare.monitors st))
                       (Pos.succ (WindowShare.next_monitor st)) (WindowShare.posted st)).
  { unfold s1, WindowShare.openEditorWindow. fold e0. fold t0. cbn [snd].
    rewrite Hsw0, Hmon0, Hnext0, Hpost0. reflexivity. }
  assert (He1 : WindowShare.sharedWindows s1 !! shareCode = Some w1).
  { rewrite Hs1. cbn [WindowShare.sharedWindows]. apply lookup_insert_eq. }
  set (t1 := WindowShare.close_if_open (Some w1) s1).
  destruct (close_if_open_fields (Some w1) s1) as (Hsw1 & Hmon1 & Hnext1 & Hpost1).
  fold t1 in Hsw1, Hmon1, Hnext1, Hpost1.
  assert (Hs2 : s2 = WindowShare.mkState (<[shareCode := w2]> (WindowShare.sharedWindows s1))
                       (WindowShare.closedWins t1)
                       (<[WindowShare.next_monitor s1 := WindowShare.mkMonitor w2 shareCode]>
                          (WindowShare.monitors s1))
                       (Pos.succ (WindowShare.next_monitor s1)) (WindowShare.posted s1)).
  { unfold s2, WindowShare.openEditorWindow. rewrite He1. fold t1. cbn [snd].
    rewrite Hsw1, Hmon1, Hnext1, Hpost1. reflexivity. }
  assert (Hc1 : w1 ∈ WindowShare.closedWins s2).
  { rewrite Hs2. cbn [WindowShare.closedWins]. unfold t1.
    apply close_if_open_closed. right. reflexivity. }
  assert (Hc2 : w2 ∉ WindowShare.closedWins s2).
  { rewrite Hs2. cbn [WindowShare.closedWins]. unfold t1.
    rewrite close_if_open_closed. intros [H | [= H]]; [| congruence].
    rewrite Hs1 in H. cbn [WindowShare.closedWins] in H. unfold t0 in H.
    apply close_if_open_closed in H as [H | H].
    - apply closed_false in Hopen. contradiction.
    - unfold e0 in H. apply (Hnew shareCode). exact H. }
  assert (Hmon : WindowShare.monitors s2 !! WindowShare.next_monitor st
                 = Some (WindowShare.mkMonitor w1 shareCode)).
  { rewrite Hs2. cbn [WindowShare.monitors]. rewrite Hs1.
    cbn [WindowShare.monitors WindowShare.next_monitor].
    rewrite lookup_insert_ne by lia. apply lookup_insert_eq. }
  assert (Hs3 : s3 = WindowShare.mkState (delete shareCode (WindowShare.sharedWindows s2))
                       (WindowShare.closedWins s2)
                       (delete (WindowShare.next_monitor st) (WindowShare.monitors s2))
                       (WindowShare.next_monitor s2) (WindowShare.posted s2)).
  { unfold s3. rewrite (checkClosed_closed_window _ _ _ Hmon); [reflexivity |].
    apply closed_true. exact Hc1. }
  assert (He3 : WindowShare.sharedWindows s3 !! shareCode = None).
  { rewrite Hs3. cbn [WindowShare.sharedWindows]. apply lookup_delete_eq. }
  assert (Hc3 : w2 ∉ WindowShare.closedWins s3).
  { rewrite Hs3. exact Hc2. }
  assert (Hnew3 : forall c, WindowShare.sharedWindows s3 !! c <> Some w2).
  { intros c. rewrite Hs3. cbn [WindowShare.sharedWindows].
    destruct (decide (c = shareCode)) as [-> | Hc].
    - rewrite lookup_delete_eq. discriminate.
    - rewrite lookup_delete_ne by congruence. rewrite Hs2. cbn [WindowShare.sharedWindows].
      rewrite lookup_insert_ne by congruence. rewrite Hs1. cbn [WindowShare.sharedWindows].
      rewrite lookup_insert_ne by congruence. apply Hnew. }
  split; [rewrite Hs2; apply lookup_insert_eq |].
  split; [exact He3 |].
  split; [apply closed_false; exact Hc3 |].
  split; [unfold WindowShare.postMessageToWindow; rewrite He3; reflexivity |].
  split.
  - apply closed_false. unfold WindowShare.closeWindow. rewrite He3.
    cbn [WindowShare.close_if_open WindowShare.closedWins]. exact Hc3.
  - apply closed_false. rewrite closeAllWindows_closed.
    intros [H | [c Hc]]; [contradiction | exact (Hnew3 c Hc)].
Qed.

(** The page opens the window of AB3K9Q twice; the browser answers with the
    windows 1 and 2. *)
Lemma reopen_orphans_window_witness :
  let s1 := snd (WindowShare.openEditorWindow "AB3K9Q" (WindowShare.Handle 1)
                   WindowShare.initial) in
  let s2 := snd (WindowShare.openEditorWindow "AB3K9Q" (WindowShare.Handle 2) s1) in
  let s3 := WindowShare.checkClosed 1%positive s2 in
  WindowShare.sharedWindows s2 !! "AB3K9Q" = Some 2%nat
  /\ WindowShare.sharedWindows s3 !! "AB3K9Q" = None
  /\ WindowShare.closed 2 s3 = false.
Proof.
  assert (Hne : 2%nat <> 1%nat) by discriminate.
  assert (Hopen : WindowShare.closed 2 WindowShare.initial = false)
    by (vm_compute; reflexivity).
  assert (Hnew : forall c, WindowShare.sharedWindows WindowShare.initial !! c <> Some 2%nat).
  { intros c. cbn [WindowShare.initial WindowShare.sharedWindows].
    rewrite lookup_empty. discriminate. }
  destruct (reopen_orphans_window WindowShare.initial "AB3K9Q" 1 2
              (WindowShare.CodeUpdate "x" "AB3K9Q") Hne Hopen Hnew)
    as (H2 & H3 & Hc & _).
  cbv zeta. auto.
Defined.

(** X25: [closeAllWindows] empties the map and closes exactly the windows
    the map held: a window is closed afterwards if and only if it was closed
    before or was the window of some share code.  No message can be posted
    afterwards, and the intervals that watch the windows keep running. *)
Theorem closeAllWindows_closes_mapped (st : WindowShare.State) :
  WindowShare.sharedWindows (WindowShare.closeAllWindows st) = ∅
  /\ (forall w, WindowShare.closed w (WindowShare.closeAllWindows st) = true
                <-> WindowShare.closed w st = true
                    \/ exists c, WindowShare.sharedWindows st !! c = Some w)
  /\ WindowShare.monitors (WindowShare.closeAllWindows st) = WindowShare.monitors st
  /\ (forall c message,
        WindowShare.postMessageToWindow c message (WindowShare.closeAllWindows st)
        = WindowShare.closeAllWindows st).
Proof.
  split; [reflexivity |]. split; [| split].
  - intros w. rewrite !closed_true. apply closeAllWindows_closed.
  - unfold WindowShare.closeAllWindows. cbn [WindowShare.monitors].
    apply (closeAll_fold (WindowShare.sharedWindows st) st).
  - intros c message. unfold WindowShare.postMessageToWindow.
    replace (WindowShare.sharedWindows (WindowShare.closeAllWindows st) !! c)
      with (@None nat); [reflexivity |].
    symmetry. apply lookup_empty.
Qed.

(** X26: the life of one editor window.  When [window.open] answers with an
    open window that the share code was not mapped to, [openEditorWindow]
    returns it; a message posted for the share code reaches this window and
    nothing else is posted; while the window is open its interval changes
    nothing; once the user has closed the window the interval removes the
    entry of the share code and itself, and messages for the share code are
    dropped. *)
Theorem window_life (st : WindowShare.State) (shareCode : string) (w : nat)
    (message : WindowShare.Message) :
  WindowShare.closed w st = false ->
  WindowShare.sharedWindows st !! shareCode <> Some w ->
  let s1 := snd (WindowShare.openEditorWindow shareCode (WindowShare.Handle w) st) in
  let s2 := WindowShare.checkClosed (WindowShare.next_monitor st) (WindowShare.close w s1) in
  fst (WindowShare.openEditorWindow shareCode (WindowShare.Handle w) st) = Some w
  /\ WindowShare.posted (WindowShare.postMessageToWindow shareCode message s1)
     = WindowShare.posted st ++ [(w, message)]
  /\ WindowShare.checkClosed (WindowShare.next_monitor st) s1 = s1
  /\ WindowShare.sharedWindows s2 = delete shareCode (WindowShare.sharedWindows st)
  /\ WindowShare.monitors s2
     = delete (WindowShare.next_monitor st) (WindowShare.monitors st)
  /\ WindowShare.postMessageToWindow shareCode message s2 = s2.
Proof.
  intros Hopen Hother s1 s2.
  set (e0 := WindowShare.sharedWindows st !! shareCode).
  set (t0 := WindowShare.close_if_open e0 st).
  destruct (close_if_open_fields e0 st) as (Hsw0 & Hmon0 & Hnext0 & Hpost0).
  fold t0 in Hsw0, Hmon0, Hnext0, Hpost0.
  assert (Hs1 : s1 = WindowShare.mkState (<[shareCode := w]> (WindowShare.sharedWindows st))
                       (WindowShare.closedWins t0)
                       (<[WindowShare.next_monitor st := WindowShare.mkMonitor w shareCode]>
                          (WindowShare.monitors st))
                       (Pos.succ (WindowShare.next_monitor st)) (WindowShare.posted st)).
  { unfold s1, WindowShare.openEditorWindow. fold e0. fold t0. cbn [snd].
    rewrite Hsw0, Hmon0, Hnext0, Hpost0. reflexivity. }
  assert (Hc1 : WindowShare.closed w s1 = false).
  { apply closed_false. rewrite Hs1. cbn [WindowShare.closedWins]. unfold t0.
    rewrite close_if_open_closed. intros [H | H].
    - apply closed_false in Hopen. contradiction.
    - exact (Hother H). }
  assert (He1 : WindowShare.sharedWindows s1 !! shareCode = Some w).
  { rewrite Hs1. apply lookup_insert_eq. }
  assert (Hm1 : WindowShare.monitors s1 !! WindowShare.next_monitor st
                = Some (WindowShare.mkMonitor w shareCode)).
  { rewrite Hs1. apply lookup_insert_eq. }
  split; [reflexivity |]. split; [| split].
  - unfold WindowShare.postMessageToWindow. rewrite He1, Hc1.
    cbn [WindowShare.posted]. rewrite Hs1. reflexivity.
  - unfold WindowShare.checkClosed. rewrite Hm1. cbn [WindowShare.m_window].
    rewrite Hc1. reflexivity.
  - assert (Hs2 : s2 = WindowShare.mkState
                         (delete shareCode (WindowShare.sharedWindows s1))
                         ({[ w ]} ∪ WindowShare.closedWins s1)
                         (delete (WindowShare.next_monitor st) (WindowShare.monitors s1))
                         (WindowShare.next_monitor s1) (WindowShare.posted s1)).
    { unfold s2.
      rewrite (checkClosed_closed_window _ _ (WindowShare.mkMonitor w shareCode)).
      - reflexivity.
      - exact Hm1.
      - apply closed_true. cbn. apply elem_of_union_l, elem_of_singleton. reflexivity. }
    rewrite Hs2. cbn [WindowShare.sharedWindows WindowShare.monitors].
    split; [| split].
    + rewrite Hs1. cbn [WindowShare.sharedWindows]. apply delete_insert_eq.
    + rewrite Hs1. cbn [WindowShare.monitors]. apply delete_insert_eq.
    + unfold WindowShare.postMessageToWindow. cbn [WindowShare.sharedWindows].
      rewrite lookup_delete_eq. reflexivity.
Qed.

(** The window 1 of AB3K9Q: a code update reaches it. *)
Lemma window_life_witness :
  WindowShare.posted
    (WindowShare.postMessageToWindow "AB3K9Q" (WindowShare.CodeUpdate "x" "AB3K9Q")
       (snd (WindowShare.openEditorWindow "AB3K9Q" (WindowShare.Handle 1)
               WindowShare.initial)))
  = [(1%nat, WindowShare.CodeUpdate "x" "AB3K9Q")].
Proof.
  assert (Hopen : WindowShare.closed 1 WindowShare.initial = false)
    by (vm_compute; reflexivity).
  assert (Hother : WindowShare.sharedWindows WindowShare.initial !! "AB3K9Q" <> Some 1%nat).
  { cbn [WindowShare.initial WindowShare.sharedWindows]. rewrite lookup_empty. discriminate. }
  destruct (window_life WindowShare.initial "AB3K9Q" 1
              (WindowShare.CodeUpdate "x" "AB3K9Q") Hopen Hother) as (_ & Hpost & _).
  exact Hpost.
Defined.

(** X27: a refused window.  When the share code has a window and
    [window.open] answers [null] or raises, [openEditorWindow] returns
    [null] and has closed the window there was; the map still holds the
    closed window, no interval is added, and messages for the share code
    are dropped. *)
Theorem refused_open_closes_existing (st : WindowShare.State) (shareCode : string)
    (w0 : nat) (opened : WindowShare.Opened) (message : WindowShare.Message) :
  WindowShare.sharedWindows st !! shareCode = Some w0 ->
  opened = WindowShare.Blocked \/ opened = WindowShare.Raised ->
  let s1 := snd (WindowShare.openEditorWindow shareCode opened st) in
  fst (WindowShare.openEditorWindow shareCode opened st) = None
  /\ WindowShare.closed w0 s1 = true
  /\ WindowShare.sharedWindows s1 = WindowShare.sharedWindows st
  /\ WindowShare.monitors s1 = WindowShare.monitors st
  /\ WindowShare.postMessageToWindow shareCode message s1 = s1.
Proof.
  intros He Hop s1.
  assert (Hs1 : s1 = WindowShare.close_if_open (Some w0) st).
  { unfold s1, WindowShare.openEditorWindow. rewrite He.
    destruct Hop as [-> | ->]; reflexivity. }
  destruct (close_if_open_fields (Some w0) st) as (Hsw & Hmon & _ & _).
  assert (Hc : WindowShare.closed w0 s1 = true).
  { apply closed_true. rewrite Hs1. apply close_if_open_closed. right. reflexivity. }
  split; [destruct Hop as [-> | ->]; reflexivity |].
  split; [exact Hc |].
  split; [rewrite Hs1; exact Hsw |].
  split; [rewrite Hs1; exact Hmon |].
  unfold WindowShare.postMessageToWindow.
  replace (WindowShare.sharedWindows s1 !! shareCode) with (Some w0).
  - rewrite Hc. reflexivity.
  - rewrite Hs1, Hsw, He. reflexivity.
Qed.

(** The window 1 of AB3K9Q is open; the second [window.open] is refused. *)
Lemma refused_open_closes_existing_witness :
  let st := snd (WindowShare.openEditorWindow "AB3K9Q" (WindowShare.Handle 1)
                   WindowShare.initial) in
  fst (WindowShare.openEditorWindow "AB3K9Q" WindowShare.Blocked st) = None
  /\ WindowShare.closed 1
       (snd (WindowShare.openEditorWindow "AB3K9Q" WindowShare.Blocked st)) = true.
Proof.
  intros st.
  assert (He : WindowShare.sharedWindows st !! "AB3K9Q" = Some 1%nat)
    by apply lookup_insert_eq.
  destruct (refused_open_closes_existing st "AB3K9Q" 1 WindowShare.Blocked
              (WindowShare.CodeUpdate "x" "AB3K9Q") He (or_introl eq_refl))
    as (Hn & Hc & _).
  auto.
Defined.

Lemma getStorageKey_inj (sessId l1 l2 : string) :
  App.getStorageKey sessId l1 = App.getStorageKey sessId l2 -> l1 = l2.
Proof.
  unfold App.getStorageKey. intros H.
  repeat (apply String.app_inj in H). exact H.
Qed.

Lemma app_op_keeps (st : App.State) (op : App.Op) (k : string) :
  k <> App.getStorageKey (App.sessionId st) (App.language st) ->
  App.sessionId (App.run_op st op) = App.sessionId st
  /\ App.language (App.run_op st op) = App.language st
  /\ App.items (App.run_op st op) !! k = App.items st !! k.
Proof.
  intros Hk. destruct op as [newCode id now | sameOrigin data]; simpl.
  - unfold App.handleCodeChange. destruct (Js.truthy (Some (App.sessionId st))).
    + cbn [App.sessionId App.language App.items].
      rewrite lookup_insert_ne by congruence. auto.
    + auto.
  - unfold App.handleMessage. destruct (negb sameOrigin); [auto |].
    destruct data, (App.sharedSession st); auto.
    cbn [App.sessionId App.language App.items].
    rewrite lookup_insert_ne by congruence. auto.
Qed.

Lemma app_ops_keep (ops : list App.Op) (st : App.State) (k : string) :
  k <> App.getStorageKey (App.sessionId st) (App.language st) ->
  App.sessionId (App.run_ops ops st) = App.sessionId st
  /\ App.language (App.run_ops ops st) = App.language st
  /\ App.items (App.run_ops ops st) !! k = App.items st !! k.
Proof.
  revert st. induction ops as [|op ops IH]; intros st Hk; [auto |].
  destruct (app_op_keeps st op k Hk) as (Hs & Hl & Hi).
  change (App.run_ops (op :: ops) st) with (App.run_ops ops (App.run_op st op)).
  destruct (IH (App.run_op st op)) as (Hs' & Hl' & Hi').
  { rewrite Hs, Hl. exact Hk. }
  rewrite Hs', Hl', Hi'. auto.
Qed.

(** X28: the code of a language survives a visit to another language.  In
    a window that has a session id, the code typed under one language is
    stored under that language; after a change to another language,
    whatever is typed or received there, the change back brings the stored
    code back.  A language that has nothing stored shows the code that was
    in the editor before the change. *)
Theorem language_round_trip (st : App.State) (c id now l2 : string) (ops : list App.Op) :
  App.sessionId st <> "" ->
  l2 <> App.language st ->
  let st1 := App.handleCodeChange c id now st in
  let st2 := App.handleLanguageChange l2 st1 in
  let st3 := App.run_ops ops st2 in
  let st4 := App.handleLanguageChange (App.language st) st3 in
  App.code st4 = c
  /\ App.language st4 = App.language st
  /\ (App.items st !! App.getStorageKey (App.sessionId st) l2 = None -> App.code st2 = c).
Proof.
  intros Hsid Hl2 st1 st2 st3 st4.
  assert (Ht : Js.truthy (Some (App.sessionId st)) = true).
  { destruct (App.sessionId st); [congruence | reflexivity]. }
  set (k1 := App.getStorageKey (App.sessionId st) (App.language st)).
  set (k2 := App.getStorageKey (App.sessionId st) l2).
  assert (Hk : k1 <> k2).
  { intros H. apply getStorageKey_inj in H. congruence. }
  assert (Hs1 : App.sessionId st1 = App.sessionId st
                /\ App.language st1 = App.language st
                /\ App.code st1 = c
                /\ App.items st1 = <[k1 := c]> (App.items st)).
  { unfold st1, App.handleCodeChange. rewrite Ht. auto. }
  destruct Hs1 as (Hsid1 & Hlang1 & Hcode1 & Hitems1).
  assert (Hs2 : App.sessionId st2 = App.sessionId st
                /\ App.language st2 = l2
                /\ App.items st2 = <[k1 := c]> (App.items st)
                /\ App.code st2 = default c (App.items st !! k2)).
  { unfold st2, App.handleLanguageChange.
    cbn [App.sessionId App.language App.items App.code].
    rewrite Hsid1, Ht, Hitems1, Hcode1. fold k2.
    rewrite lookup_insert_ne by exact Hk. auto. }
  destruct Hs2 as (Hsid2 & Hlang2 & Hitems2 & Hcode2).
  destruct (app_ops_keep ops st2 k1) as (Hsid3 & Hlang3 & Hitems3).
  { rewrite Hsid2, Hlang2. exact Hk. }
  fold st3 in Hsid3, Hlang3, Hitems3.
  split; [| split].
  - unfold st4, App.handleLanguageChange. cbn [App.code].
    rewrite Hsid3, Hsid2, Ht. fold k1. rewrite Hitems3, Hitems2, lookup_insert_eq.
    reflexivity.
  - reflexivity.
  - intros Hnone. rewrite Hcode2. fold k2 in Hnone. rewrite Hnone. reflexivity.
Qed.

(** From JavaScript to Python and back, with an edit and a guest's update
    in between. *)
Lemma language_round_trip_witness :
  let st := App.mkState "s-1" "javascript" "// Start" ∅ None WindowShare.initial
              (MockDb.mkStore [] [] [] []) in
  App.code
    (App.handleLanguageChange "javascript"
       (App.run_ops [App.Edit "print(1)" "c-2" "t"; App.Message true (App.GuestCodeUpdate "x")]
          (App.handleLanguageChange "python"
             (App.handleCodeChange "let x = 1;" "c-1" "t" st))))
  = "let x = 1;".
Proof.
  intros st.
  assert (Hsid : App.sessionId st <> "") by discriminate.
  assert (Hl2 : "python" <> App.language st) by discriminate.
  destruct (language_round_trip st "let x = 1;" "c-1" "t" "python"
              [App.Edit "print(1)" "c-2" "t"; App.Message true (App.GuestCodeUpdate "x")]
              Hsid Hl2) as (Hcode & _).
  exact Hcode.
Defined.

Lemma sessions_get_table (id : string) (st st' : MockDb.Store) :
  MockDb.sessions st' = MockDb.sessions st ->
  MockDb.sessions_get id st' = MockDb.sessions_get id st.
Proof. intros H. rewrite !sessions_get_find, H. reflexivity. Qed.

Lemma increment_suggestions_table (id : string) (accepted : bool) (st : MockDb.Store) :
  MockDb.suggestions (MockDb.incrementSuggestions id accepted st) = MockDb.suggestions st.
Proof.
  unfold MockDb.incrementSuggestions. destruct (MockDb.sessions_get id st); reflexivity.
Qed.

Lemma applied_le_shown (evs : list Bookkeeping.Event) (showing : bool) :
  (Bookkeeping.applied showing evs
   <= Bookkeeping.shown evs + (if showing then 1 else 0))%nat.
Proof.
  unfold Bookkeeping.shown. revert showing.
  induction evs as [|e evs IH]; intros showing; [simpl; lia |].
  destruct e as [suggestion id now | |];
    cbn [Bookkeeping.applied List.filter Bookkeeping.is_suggested length].
  - specialize (IH true). simpl in IH. lia.
  - specialize (IH false). simpl in IH. destruct showing; lia.
  - specialize (IH false). simpl in IH. destruct showing; lia.
Qed.

Lemma bookkeeping_counts (sessionId : string) (evs : list Bookkeeping.Event) :
  forall (st : Bookkeeping.State) (row : MockDb.Row) (a b : Z),
    MockDb.sessions_get sessionId (Bookkeeping.db st) = Some row ->
    row !! "total_suggestions" = Some (MockDb.VNum a) ->
    row !! "accepted_suggestions" = Some (MockDb.VNum b) ->
    exists row' : MockDb.Row,
      MockDb.sessions_get sessionId (Bookkeeping.db (Bookkeeping.run sessionId evs st))
      = Some row'
      /\ row' !! "total_suggestions"
         = Some (MockDb.VNum (a + Z.of_nat (Bookkeeping.shown evs)
                              + Z.of_nat (Bookkeeping.applied (Bookkeeping.showing st) evs)))
      /\ row' !! "accepted_suggestions"
         = Some (MockDb.VNum
                   (b + Z.of_nat (Bookkeeping.applied (Bookkeeping.showing st) evs)))
      /\ length (MockDb.suggestions (Bookkeeping.db (Bookkeeping.run sessionId evs st)))
         = (length (MockDb.suggestions (Bookkeeping.db st)) + Bookkeeping.shown evs)%nat.
Proof.
  unfold Bookkeeping.shown.
  induction evs as [|e evs IH]; intros st row a b Hget Ha Hb.
  - exists row. cbn [List.filter length Bookkeeping.run fold_left Bookkeeping.applied].
    rewrite !Z.add_0_r, Nat.add_0_r. repeat split; auto.
  - change (Bookkeeping.run sessionId (e :: evs) st)
      with (Bookkeeping.run sessionId evs (Bookkeeping.step sessionId st e)).
    destruct e as [suggestion id now | |].
    + cbn [Bookkeeping.step List.filter Bookkeeping.is_suggested length
             Bookkeeping.applied].
      set (db1 := snd (Bookkeeping.suggestions_create suggestion id now (Bookkeeping.db st))).
      assert (Hget1 : MockDb.sessions_get sessionId db1 = Some row).
      { rewrite <- Hget. apply sessions_get_table. reflexivity. }
      destruct (increment_found sessionId false db1 row a b Hget1 Ha Hb)
        as (r1 & Hg1 & Ha1 & Hb1 & _).
      destruct (IH (Bookkeeping.suggested sessionId suggestion id now st) r1 (a + 1)%Z b
                  Hg1 Ha1 Hb1) as (row' & Hg & Ha' & Hb' & Hlen).
      cbn [Bookkeeping.suggested Bookkeeping.showing] in Ha', Hb'.
      assert (Hlen1 : length (MockDb.suggestions
                                (Bookkeeping.db
                                   (Bookkeeping.suggested sessionId suggestion id now st)))
                      = S (length (MockDb.suggestions (Bookkeeping.db st)))).
      { unfold Bookkeeping.suggested. cbn [Bookkeeping.db]. fold db1.
        rewrite increment_suggestions_table. unfold db1, Bookkeeping.suggestions_create.
        cbn [snd MockDb.suggestions]. unfold MockDb.select, MockDb.insert_.
        cbn [snd]. rewrite length_app. cbn [imap length]. lia. }
      exists row'. split; [exact Hg |]. split; [| split].
      * rewrite Ha'. do 2 f_equal. lia.
      * exact Hb'.
      * rewrite Hlen, Hlen1. lia.
    + cbn [Bookkeeping.step List.filter Bookkeeping.is_suggested Bookkeeping.applied].
      unfold Bookkeeping.applySuggestion.
      destruct (Bookkeeping.showing st) eqn:Hshow.
      * destruct (increment_found sessionId true (Bookkeeping.db st) row a b Hget Ha Hb)
          as (r1 & Hg1 & Ha1 & Hb1 & _).
        destruct (IH (Bookkeeping.mkState false
                        (MockDb.incrementSuggestions sessionId true (Bookkeeping.db st)))
                    r1 (a + 1)%Z (b + 1)%Z Hg1 Ha1 Hb1)
          as (row' & Hg & Ha' & Hb' & Hlen).
        cbn [Bookkeeping.showing Bookkeeping.db] in Ha', Hb', Hlen.
        rewrite increment_suggestions_table in Hlen.
        exists row'. split; [exact Hg |]. split; [| split].
        -- rewrite Ha'. do 2 f_equal. lia.
        -- rewrite Hb'. do 2 f_equal. lia.
        -- exact Hlen.
      * destruct (IH st row a b Hget Ha Hb) as (row' & Hg & Ha' & Hb' & Hlen).
        rewrite Hshow in Ha', Hb'. exists row'. repeat split; auto.
    + cbn [Bookkeeping.step List.filter Bookkeeping.is_suggested Bookkeeping.applied].
      destruct (IH (Bookkeeping.dismissSuggestion st) row a b Hget Ha Hb)
        as (row' & Hg & Ha' & Hb' & Hlen).
      cbn [Bookkeeping.dismissSuggestion Bookkeeping.showing] in Ha', Hb'.
      exists row'. repeat split; auto.
Qed.

(** X30: an accepted suggestion is counted twice.  [getSuggestion] counts
    every suggestion it shows in [total_suggestions], and [applySuggestion],
    when a suggestion is showing, counts it again, in both counters.  So
    after any run of suggestions, applications and dismissals that starts
    with no suggestion showing, the session holds, on top of what it held,
    [total_suggestions] raised by the suggestions shown plus the
    applications that found one showing, and [accepted_suggestions] raised
    by those applications; there are at most as many of them as suggestions
    shown, so the accepted share of what the run added never exceeds one
    half.  Every suggestion shown is one more row of the suggestions table.
    The counters are whole numbers below 2^53, where adding 1 is exact. *)
Theorem accepted_suggestion_counted_twice (sessionId : string)
    (evs : list Bookkeeping.Event) (st : Bookkeeping.State) (row : MockDb.Row) (a b : Z) :
  MockDb.sessions_get sessionId (Bookkeeping.db st) = Some row ->
  row !! "total_suggestions" = Some (MockDb.VNum a) ->
  row !! "accepted_suggestions" = Some (MockDb.VNum b) ->
  Bookkeeping.showing st = false ->
  (0 <= b <= a)%Z ->
  (a + 2 * Z.of_nat (length evs) <= 2 ^ 53)%Z ->
  let n := Bookkeeping.shown evs in
  let k := Bookkeeping.applied false evs in
  (k <= n)%nat
  /\ exists row' : MockDb.Row,
       MockDb.sessions_get sessionId (Bookkeeping.db (Bookkeeping.run sessionId evs st))
       = Some row'
       /\ row' !! "total_suggestions" = Some (MockDb.VNum (a + Z.of_nat n + Z.of_nat k))
       /\ row' !! "accepted_suggestions" = Some (MockDb.VNum (b + Z.of_nat k))
       /\ length (MockDb.suggestions (Bookkeeping.db (Bookkeeping.run sessionId evs st)))
          = (length (MockDb.suggestions (Bookkeeping.db st)) + n)%nat.
Proof.
  intros Hget Ha Hb Hshow _ _ n k. split.
  - pose proof (applied_le_shown evs false) as H. simpl in H. unfold n, k. lia.
  - destruct (bookkeeping_counts sessionId evs st row a b Hget Ha Hb)
      as (row' & Hg & Ha' & Hb' & Hlen).
    rewrite Hshow in Ha', Hb'. exists row'. repeat split; assumption.
Qed.

(** A new session: one suggestion is shown and applied, a second one is
    dismissed, and a stray application finds nothing showing.  The session
    ends with three suggestions in total, one of them accepted. *)
Lemma accepted_suggestion_counted_twice_witness :
  let st := Bookkeeping.mkState false
              (snd (MockDb.sessions_create "javascript" None "2023-11-14T22:13:20.000Z"
                      "s-1" "2023-11-14T22:13:20.000Z" (MockDb.mkStore [] [] [] []))) in
  let evs := [Bookkeeping.Suggested {[ "session_id" := MockDb.VStr "s-1" ]} "g-1" "t";
              Bookkeeping.Apply;
              Bookkeeping.Suggested {[ "session_id" := MockDb.VStr "s-1" ]} "g-2" "t";
              Bookkeeping.Dismiss;
              Bookkeeping.Apply] in
  exists row' : MockDb.Row,
    MockDb.sessions_get "s-1" (Bookkeeping.db (Bookkeeping.run "s-1" evs st)) = Some row'
    /\ row' !! "total_suggestions" = Some (MockDb.VNum 3)
    /\ row' !! "accepted_suggestions" = Some (MockDb.VNum 1).
Proof.
  intros st evs.
  destruct (accepted_suggestion_counted_twice "s-1" evs st
              ({[ "language" := MockDb.VStr "javascript";
                  "project_name" := MockDb.VUndef;
                  "started_at" := MockDb.VStr "2023-11-14T22:13:20.000Z" ]}
               ∪ MockDb.insert_defaults "s-1" "2023-11-14T22:13:20.000Z")
              0 0)
    as (_ & row' & Hg & Ha & Hb & _).
  - rewrite sessions_get_find. reflexivity.
  - reflexivity.
  - reflexivity.
  - reflexivity.
  - lia.
  - vm_compute. discriminate.
  - exists row'. split; [exact Hg |]. split; [exact Ha | exact Hb].
Defined.
